(** * SLR_rem_duplicates: merging bibliometric exports and removing duplicates

    A shallow embedding of the notebook [SLR_rem_dups.ipynb]: the loader
    [read_file] and [read_files], the three source adapters [adjust_wos],
    [adjust_scopus], [adjust_proquest], the merger [merge_dfs], the
    deduplicator [rem_duplicates] and the entry point [main], together with
    the part of Python and pandas they call.  Python strings are sequences
    of code points, a DataFrame is a header with its rows of cells,
    exceptions are an error result, the DataFrame objects that the code
    rewrites in place live in a store, and what is printed is a list of
    lines. *)

From Stdlib Require Import ZArith NArith Lia Ascii String DecimalString.
From stdpp Require Import base tactics option list gmap sorting.

Local Open Scope Z_scope.

(** ** Python strings *)

Module PyStr.

Abbreviation codepoint := N (only parsing).
Abbreviation pystr := (list N) (only parsing).

(** A literal of the source, character by character. *)
Definition str (s : string) : pystr :=
  (λ a, N_of_ascii a) <$> list_ascii_of_string s.

(** [s.endswith(suffix)] *)
Definition endswith (s suffix : pystr) : bool :=
  bool_decide (suffix `suffix_of` s).

(** [s.replace(old, new)] for a pattern [old] of one character. *)
Definition replace (old : codepoint) (new : pystr) (s : pystr) : pystr :=
  s ≫= λ c, if decide (c = old) then new else [c].

Definition is_ascii (c : codepoint) : bool := (c <? 128)%N.

(** [Py_ISUPPER] and [Py_TOLOWER] on an ASCII character. *)
Definition is_ascii_upper (c : codepoint) : bool :=
  (65 <=? c)%N && (c <=? 90)%N.

Definition ascii_tolower (c : codepoint) : codepoint :=
  if is_ascii_upper c then (c + 32)%N else c.

(** [str.isspace] on one character: the code points whose bidirectional
    type is WS, B or S, or whose category is Zs. *)
Definition isspace (c : codepoint) : bool :=
  ((9 <=? c) && (c <=? 13) || (28 <=? c) && (c <=? 32)
   || (c =? 133) || (c =? 160) || (c =? 5760)
   || (8192 <=? c) && (c <=? 8202)
   || (c =? 8232) || (c =? 8233) || (c =? 8239) || (c =? 8287)
   || (c =? 12288))%N.

Fixpoint lstrip (s : pystr) : pystr :=
  match s with
  | [] => []
  | c :: s' => if isspace c then lstrip s' else s
  end.

Definition rstrip (s : pystr) : pystr := reverse (lstrip (reverse s)).

(** [s.strip()] *)
Definition strip (s : pystr) : pystr := rstrip (lstrip s).

(** The regular expression [\(.*?\)].  [closes s] tells whether the text
    [s] after an opening parenthesis lets the pattern match: [.] takes
    any character but a line feed, and the lazy star stops at the first
    closing parenthesis. *)
Definition lparen : codepoint := 40%N.
Definition rparen : codepoint := 41%N.
Definition linefeed : codepoint := 10%N.

Fixpoint closes (s : pystr) : bool :=
  match s with
  | [] => false
  | c :: s' =>
      if decide (c = rparen) then true
      else if decide (c = linefeed) then false
      else closes s'
  end.

(** [re.sub(r'\(.*?\)', '', s)]: the matches are found from left to
    right and do not overlap; [inside] is set while the scan is within a
    match, whose characters are dropped up to its closing parenthesis. *)
Fixpoint re_sub_parens_from (inside : bool) (s : pystr) : pystr :=
  match s with
  | [] => []
  | c :: s' =>
      if inside then
        re_sub_parens_from (negb (bool_decide (c = rparen))) s'
      else if bool_decide (c = lparen) && closes s' then
        re_sub_parens_from true s'
      else c :: re_sub_parens_from false s'
  end.

Definition re_sub_parens (s : pystr) : pystr := re_sub_parens_from false s.

(** [re.search(r'\(.*?\)', s) is not None] *)
Fixpoint re_search_parens (s : pystr) : bool :=
  match s with
  | [] => false
  | c :: s' => bool_decide (c = lparen) && closes s' || re_search_parens s'
  end.

(** Comparison of two strings, code point by code point. *)
Fixpoint compare (s t : pystr) : comparison :=
  match s, t with
  | [], [] => Eq
  | [], _ :: _ => Lt
  | _ :: _, [] => Gt
  | c :: s', d :: t' =>
      match (c ?= d)%N with
      | Eq => compare s' t'
      | o => o
      end
  end.

End PyStr.
Import PyStr.

(** The part of the Unicode character database that [str.lower] consults
    for a string that is not pure ASCII. *)
Class UnicodeDB := { unicode_lower : pystr → pystr }.

(** [s.lower()]: CPython lowers an ASCII string character by character and
    hands any other string to the Unicode case mapping. *)
Definition lower `{UnicodeDB} (s : pystr) : pystr :=
  if forallb is_ascii s then ascii_tolower <$> s else unicode_lower s.

(** The transliteration tables of the [unidecode] package: the replacement
    of a code point from 0x80 on is a string of ASCII characters. *)
Class UnidecodeTables := { transliterate : codepoint → pystr }.

Definition ascii_tables `{UnidecodeTables} : Prop :=
  ∀ c, forallb is_ascii (transliterate c) = true.

(** [unidecode(s)]: a string that encodes to ASCII is returned as it is;
    otherwise every character from 0x80 on is replaced from the tables. *)
Definition unidecode `{UnidecodeTables} (s : pystr) : pystr :=
  if forallb is_ascii s then s
  else s ≫= λ c, if is_ascii c then [c] else transliterate c.

(** ** Cells, exceptions and results *)

(** The value of one cell of a DataFrame: a missing value (NaN, NaT), a
    number, a string or a date. *)
Inductive cell : Type :=
| NaN
| Num (z : Z)
| Str (s : pystr)
| Timestamp (year month day : Z).

Global Instance cell_eq_dec : EqDecision cell.
Proof. solve_decision. Defined.

Abbreviation colname := string (only parsing).

Inductive exn : Type :=
| KeyError (labels : list colname)
| AttributeError
| TypeError
| Exception (what : string).

Inductive result (A : Type) : Type :=
| Ok (a : A)
| Raise (e : exn).
Arguments Ok {A} a.
Arguments Raise {A} e.

Global Instance result_ret : MRet result := λ A a, Ok a.
Global Instance result_bind : MBind result := λ A B f m,
  match m with
  | Ok a => f a
  | Raise e => Raise e
  end.
Global Instance result_fmap : FMap result := λ A B f m,
  match m with
  | Ok a => Ok (f a)
  | Raise e => Raise e
  end.

Definition isna (c : cell) : bool :=
  match c with
  | NaN => true
  | _ => false
  end.

(** The order in which Python compares two cell values of one kind: numbers
    by value, strings code point by code point, dates by year, month and
    day.  Values of different kinds are ranked by kind, which only makes the
    order total: [nargsort] below raises before it would compare them. *)
Definition kind (c : cell) : nat :=
  match c with
  | NaN => 0
  | Num _ => 1
  | Str _ => 2
  | Timestamp _ _ _ => 3
  end.

Definition cell_leb (a b : cell) : bool :=
  match a, b with
  | Num x, Num y => x <=? y
  | Str s, Str t =>
      match PyStr.compare s t with
      | Gt => false
      | _ => true
      end
  | Timestamp y m d, Timestamp y' m' d' =>
      (y <? y') || (y =? y') && ((m <? m') || (m =? m') && (d <=? d'))
  | _, _ => (kind a <=? kind b)%nat
  end.

Definition cell_le (a b : cell) : Prop := cell_leb a b = true.

(** Whether the values of a column can all be compared with each other. *)
Definition comparable (items : list cell) : bool :=
  match items with
  | [] => true
  | c :: items' => forallb (λ d, (kind d =? kind c)%nat) items'
  end.

(** ** DataFrames *)

Abbreviation Series := (list cell) (only parsing).

Record DataFrame : Type := {
  columns : list colname;
  values : list (list cell)
}.

Global Instance DataFrame_eq_dec : EqDecision DataFrame.
Proof. solve_decision. Defined.

(** [df.shape[0]] *)
Definition shape0 (df : DataFrame) : nat := length (values df).

(** [columns.get_loc(name)]: the position of a column label. *)
Definition get_loc (name : colname) (cols : list colname) : option nat :=
  fst <$> list_find (λ c, c = name) cols.

(** The cell of row [r] under the label [name], for a header [cols]. *)
Definition cell_at (cols : list colname) (name : colname) (r : list cell) : cell :=
  match get_loc name cols with
  | Some p => nth p r NaN
  | None => NaN
  end.

(** The cells of row [r] under the labels [names]. *)
Definition row_at (cols names : list colname) (r : list cell) : list cell :=
  (λ n, cell_at cols n r) <$> names.

(** [df[name]] *)
Definition getitem (df : DataFrame) (name : colname) : result Series :=
  match get_loc name (columns df) with
  | Some p => Ok ((λ r, nth p r NaN) <$> values df)
  | None => Raise (KeyError [name])
  end.

(** [df[[name1, ..., namek]]]: a new frame with the listed columns; the
    labels that are not in the header are reported in a [KeyError]. *)
Definition select (df : DataFrame) (names : list colname) : result DataFrame :=
  match filter (λ n, n ∉ columns df) names with
  | [] => Ok {| columns := names;
                values := row_at (columns df) names <$> values df |}
  | missing => Raise (KeyError missing)
  end.

(** [df.rename(columns=mapping)]: a new frame whose labels are replaced as
    the dictionary [mapping] says. *)
Definition rename_label (mapping : list (colname * colname)) (c : colname) : colname :=
  match list_find (λ m, m.1 = c) mapping with
  | Some (_, m) => m.2
  | None => c
  end.

Definition rename (df : DataFrame) (mapping : list (colname * colname)) : DataFrame :=
  {| columns := rename_label mapping <$> columns df;
     values := values df |}.

(** The values of a column aligned on the rows of a frame with [n] rows. *)
Definition reindex (n : nat) (s : Series) : Series := take n (s ++ replicate n NaN).

(** [df[name] = s]: the column is replaced where the label exists and is
    appended to the frame otherwise. *)
Definition setitem (df : DataFrame) (name : colname) (s : Series) : DataFrame :=
  let s := reindex (shape0 df) s in
  match get_loc name (columns df) with
  | Some p => {| columns := columns df;
                 values := zip_with (λ r c, <[p := c]> r) (values df) s |}
  | None => {| columns := columns df ++ [name];
               values := zip_with (λ r c, r ++ [c]) (values df) s |}
  end.

(** [df[name] = value] for a scalar. *)
Definition setitem_scalar (df : DataFrame) (name : colname) (c : cell) : DataFrame :=
  setitem df name (replicate (shape0 df) c).

(** What a method of the [.str] accessor returns: the strings of the
    column changed by [f], and a missing value for any other value. *)
Definition str_cell (f : pystr → pystr) (c : cell) : cell :=
  match c with
  | Str x => Str (f x)
  | _ => NaN
  end.

Definition str_map (f : pystr → pystr) (s : Series) : Series := str_cell f <$> s.

Definition is_number (c : cell) : bool :=
  match c with
  | Num _ => true
  | _ => false
  end.

Definition is_date (c : cell) : bool :=
  match c with
  | Timestamp _ _ _ => true
  | _ => false
  end.

(** Whether pandas makes the [.str] accessor of a column of object dtype.
    It goes by the values that are not missing: it refuses a column where
    they are all numbers or all dates, and accepts strings, alone or among
    other values, and a column without such values. *)
Definition can_use_str_object (s : Series) : bool :=
  match filter (λ c, isna c = false) s with
  | [] => true
  | present => negb (forallb is_number present || forallb is_date present)
  end.

(** The same for a column of a table as [read_csv] and [read_excel] make
    it.  A column is of object dtype there when it has no row or holds a
    string or values of several kinds; a column with rows that holds
    numbers and missing values only, or missing values only, is of dtype
    float64 (int64 without missing values), one that holds dates only of
    dtype datetime64, and the accessor refuses those. *)
Definition can_use_str (s : Series) : bool :=
  let present := filter (λ c, isna c = false) s in
  match s with
  | [] => true
  | _ => negb (forallb is_number present || forallb is_date present)
  end.

(** A column with rows that holds, the missing values apart, numbers only
    or dates only; a column with rows that holds missing values only is
    one. *)
Definition numbers_or_dates_only (s : Series) : Prop :=
  s ≠ [] ∧ (Forall (λ c, isna c = true ∨ is_number c = true) s
            ∨ Forall (λ c, isna c = true ∨ is_date c = true) s).

(** [s.str.method(...)] for a method that changes a string by [f], on a
    column of a table as it was read. *)
Definition str_method (f : pystr → pystr) (s : Series) : result Series :=
  if can_use_str s then Ok (str_map f s) else Raise AttributeError.

(** The same on a column that a method of the accessor has returned, which
    is of object dtype. *)
Definition str_method_object (f : pystr → pystr) (s : Series) : result Series :=
  if can_use_str_object s then Ok (str_map f s) else Raise AttributeError.

(** [s.apply(f)] for a function [f] on strings: a value that is not a
    string has none of the string methods [f] calls. *)
Definition apply (f : pystr → pystr) (s : Series) : result Series :=
  mapM (λ c, match c with
             | Str x => Ok (Str (f x))
             | _ => Raise AttributeError
             end) s.

(** [s.dt.year] *)
Definition dt_year (s : Series) : result Series :=
  mapM (λ c, match c with
             | Timestamp y _ _ => Ok (Num y)
             | NaN => Ok NaN
             | _ => Raise AttributeError
             end) s.

(** The labels of several headers, each where it occurs first. *)
Definition union_indexes (headers : list (list colname)) : list colname :=
  reverse (remove_dups (reverse (mjoin headers))).

(** [pd.concat(dfs, ignore_index=True)]: the rows of the frames one after
    the other, under the union of their headers.  A cell holds the value of
    a number, not its dtype: pandas turns a column of integers into floats
    when another frame has a missing value in it, which keeps the value of
    an integer up to 2^53 and rounds a larger one. *)
Definition concat (dfs : list DataFrame) : DataFrame :=
  let cols := union_indexes (columns <$> dfs) in
  {| columns := cols;
     values := dfs ≫= λ df, row_at (columns df) cols <$> values df |}.

(** ** Sorting and dropping duplicates *)

(** numpy's [a.argsort(kind)] for the kind the code leaves at its default,
    ['quicksort']: the positions of [a] in an order that sorts it. *)
Class Argsort := { argsort : list cell → list nat }.

(** What numpy documents of every kind of sort: the result holds each
    position once and lists the values in ascending order.  Only the kinds
    ['stable'] and ['mergesort'] promise more, the order of equal values. *)
Definition argsort_sorts `{Argsort} : Prop :=
  ∀ a, argsort a ≡ₚ seq 0 (length a) ∧
       Sorted cell_le ((λ i, nth i a NaN) <$> argsort a).

(** pandas' [nargsort(items, kind, ascending, na_position='last')]: the
    missing values are set apart and put last; for a descending order the
    other values are reversed before and after the ascending sort. *)
Definition nargsort `{Argsort} (items : Series) (ascending : bool) : result (list nat) :=
  let idx := seq 0 (length items) in
  let non_nans := filter (λ c, isna c = false) items in
  let non_nan_idx := filter (λ i, isna (nth i items NaN) = false) idx in
  let nan_idx := filter (λ i, isna (nth i items NaN) = true) idx in
  if comparable non_nans then
    let non_nans := if ascending then non_nans else reverse non_nans in
    let non_nan_idx := if ascending then non_nan_idx else reverse non_nan_idx in
    let indexer := (λ j, nth j non_nan_idx 0%nat) <$> argsort non_nans in
    let indexer := if ascending then indexer else reverse indexer in
    Ok (indexer ++ nan_idx)
  else Raise TypeError.

(** [df.take(indexer)] *)
Definition take_rows (df : DataFrame) (indexer : list nat) : DataFrame :=
  {| columns := columns df;
     values := (λ i, nth i (values df) []) <$> indexer |}.

(** [df.sort_values(by=label, ascending=ascending)] *)
Definition sort_values `{Argsort} (df : DataFrame) (label : colname) (ascending : bool)
  : result DataFrame :=
  k ← getitem df label;
  indexer ← nargsort k ascending;
  mret (take_rows df indexer).

(** The rows whose key has not been seen in an earlier row. *)
Fixpoint keep_first {A K : Type} `{EqDecision K} (key : A → K) (seen : list K) (l : list A)
  : list A :=
  match l with
  | [] => []
  | x :: l' =>
      if decide (key x ∈ seen) then keep_first key seen l'
      else x :: keep_first key (key x :: seen) l'
  end.

(** [df.drop_duplicates(subset, keep='first')]; missing values are equal to
    each other when keys are compared. *)
Definition drop_duplicates (df : DataFrame) (subset : list colname) : result DataFrame :=
  match filter (λ n, n ∉ columns df) subset with
  | [] => Ok {| columns := columns df;
                values := keep_first (row_at (columns df) subset) [] (values df) |}
  | missing => Raise (KeyError missing)
  end.

(** Sorting kernels.  [insertion_argsort] is an insertion sort in which an
    element moves left past the strictly greater ones, so that equal values
    keep their places; in [eager_insertion_argsort] it also moves past the
    equal ones, so that equal values come out reversed.  [dtype_argsort]
    goes by the dtype of the array, as numpy does, which has a routine of
    its own for numbers: it reverses equal numbers and keeps equal values
    of any other kind in their places. *)
Fixpoint insert_index (eager : bool) (a : list cell) (i : nat) (sorted : list nat) : list nat :=
  match sorted with
  | [] => [i]
  | j :: rest =>
      let before :=
        if eager then negb (cell_leb (nth i a NaN) (nth j a NaN))
        else cell_leb (nth j a NaN) (nth i a NaN) in
      if before then j :: insert_index eager a i rest else i :: sorted
  end.

Definition insertion_argsort_with (eager : bool) (a : list cell) : list nat :=
  foldl (λ sorted i, insert_index eager a i sorted) [] (seq 0 (length a)).

Definition insertion_argsort : Argsort :=
  {| argsort := insertion_argsort_with false |}.

Definition eager_insertion_argsort : Argsort :=
  {| argsort := insertion_argsort_with true |}.

Definition dtype_argsort : Argsort :=
  {| argsort := λ a, insertion_argsort_with (forallb is_number a) a |}.

(** ** The store of DataFrame objects *)

Abbreviation loc := nat (only parsing).
Abbreviation store := (gmap nat DataFrame) (only parsing).

(** A computation that reads and rewrites the objects of the store and
    returns or raises; what it has written stays written when it raises. *)
Definition M (A : Type) : Type := store → result A * store.

Global Instance M_ret : MRet M := λ A a σ, (Ok a, σ).
Global Instance M_bind : MBind M := λ A B f m σ,
  match m σ with
  | (Ok a, σ') => f a σ'
  | (Raise e, σ') => (Raise e, σ')
  end.

Definition lift {A : Type} (r : result A) : M A := λ σ, (r, σ).

(** The object a name refers to. *)
Definition load (l : loc) : M DataFrame := λ σ,
  match σ !! l with
  | Some df => (Ok df, σ)
  | None => (Raise (Exception "NameError"), σ)
  end.

(** [df[name]] and [df[name] = s] on the object [df] refers to. *)
Definition getitem_at (l : loc) (name : colname) : M Series :=
  df ← load l; lift (getitem df name).

Definition setitem_at (l : loc) (name : colname) (s : Series) : M unit := λ σ,
  match σ !! l with
  | Some df => (Ok (), <[l := setitem df name s]> σ)
  | None => (Raise (Exception "NameError"), σ)
  end.

Definition setitem_scalar_at (l : loc) (name : colname) (c : cell) : M unit := λ σ,
  match σ !! l with
  | Some df => (Ok (), <[l := setitem_scalar df name c]> σ)
  | None => (Raise (Exception "NameError"), σ)
  end.

(** ** The notebook *)

Local Open Scope string_scope.

(** The character of a one-character literal. *)
Definition chr (a : ascii) : codepoint := N_of_ascii a.

(** pandas' readers, as functions of the path on a given file system, and
    its date parser. *)
Class PandasIO := {
  read_csv : pystr → result DataFrame;
  read_excel : pystr → result DataFrame
}.

Class DateParser := { to_datetime : Series → result Series }.

(** [read_file(filename)]: what the call returns or raises, and the lines it
    prints.  A function that ends without [return] returns [None]. *)
Definition read_file `{PandasIO} (filename : pystr) : result (option DataFrame) * list pystr :=
  if endswith filename (str ".csv") then
    (Some <$> read_csv filename, [])
  else
    match read_excel filename with
    | Ok df => (Ok (Some df), [])
    | Raise _ => (Ok None, [str "Wrong file format"])
    end.

(** [adjust_wos(df)]: the argument is the caller's object, to which the
    first statement adds a column; the frames made afterwards are new. *)
Definition adjust_wos `{UnicodeDB} (df : loc) : M DataFrame :=
  setitem_scalar_at df "Database" (Str (str "Web of Science"));;
  df ← load df;
  df ← lift (select df ["Author Full Names"; "Article Title"; "Publication Year";
                        "Database"; "Times Cited, WoS Core"]);
  let df := rename df [("Author Full Names", "Authors"); ("Article Title", "Title");
                       ("Publication Year", "Year"); ("Times Cited, WoS Core", "Citations")] in
  authors ← lift (getitem df "Authors");
  authors ← lift (str_method (replace (chr " ") (str "")) authors);
  let df := setitem df "Authors" authors in
  authors ← lift (getitem df "Authors");
  authors ← lift (str_method_object lower authors);
  let df := setitem df "Authors" authors in
  title ← lift (getitem df "Title");
  title ← lift (str_method lower title);
  let df := setitem df "Title" title in
  mret df.

(** [adjust_scopus(df)] *)
Definition adjust_scopus `{UnicodeDB} (df : DataFrame) : result DataFrame :=
  df ← select df ["Author full names"; "Title"; "Year"; "Source"; "Cited by"];
  let df := rename df [("Author full names", "Authors"); ("Cited by", "Citations");
                       ("Source", "Database")] in
  authors ← getitem df "Authors";
  authors ← str_method (replace (chr " ") (str "")) authors;
  let df := setitem df "Authors" authors in
  authors ← getitem df "Authors";
  authors ← str_method_object lower authors;
  let df := setitem df "Authors" authors in
  title ← getitem df "Title";
  title ← str_method lower title;
  let df := setitem df "Title" title in
  authors ← getitem df "Authors";
  authors ← str_method_object re_sub_parens authors;
  authors ← str_method_object strip authors;
  let df := setitem df "Authors" authors in
  mret df.

(** [adjust_proquest(df)] *)
Definition adjust_proquest `{UnicodeDB, DateParser} (df : DataFrame) : result DataFrame :=
  df ← select df ["Author"; "Title"; "PubDate"; "Source"; "Cited by"];
  pubdate ← getitem df "PubDate";
  pubdate ← to_datetime pubdate;
  let df := setitem df "PubDate" pubdate in
  pubdate ← getitem df "PubDate";
  pubdate ← dt_year pubdate;
  let df := setitem df "PubDate" pubdate in
  let df := rename df [("Author", "Authors"); ("PubDate", "Year"); ("Cited by", "Citations");
                       ("Source", "Database")] in
  authors ← getitem df "Authors";
  authors ← str_method (replace (chr " ") (str "")) authors;
  let df := setitem df "Authors" authors in
  authors ← getitem df "Authors";
  authors ← str_method_object lower authors;
  let df := setitem df "Authors" authors in
  title ← getitem df "Title";
  title ← str_method lower title;
  let df := setitem df "Title" title in
  mret df.

(** [merge_dfs(df_wos, df_scopus, df_proquest)] *)
Definition merge_dfs (df_wos df_scopus df_proquest : DataFrame) : DataFrame :=
  concat [df_wos; df_scopus; df_proquest].

(** [rem_duplicates(df)]: the first two statements rewrite columns of the
    caller's object; [sort_values] and the steps after it make new frames,
    the first of which the name [df] is bound to from then on. *)
Definition rem_duplicates `{UnidecodeTables, Argsort} (df : loc) : M (DataFrame * nat * nat) :=
  authors ← getitem_at df "Authors";
  authors ← lift (apply unidecode authors);
  setitem_at df "Authors" authors;;
  title ← getitem_at df "Title";
  title ← lift (apply unidecode title);
  setitem_at df "Title" title;;
  df ← load df;
  df ← lift (sort_values df "Citations" false);
  df_uniques ← lift (drop_duplicates df ["Authors"; "Title"; "Year"]);
  df_uniques ← lift (select df_uniques
                       ("Title" :: filter (λ col, col ≠ "Title") (columns df_uniques)));
  df_uniques ← lift (sort_values df_uniques "Title" true);
  mret (df_uniques, shape0 df_uniques, shape0 df).

(** ** Reading a table row by row *)

(** The key that [rem_duplicates] compares rows on. *)
Definition key (df : DataFrame) (r : list cell) : list cell :=
  row_at (columns df) ["Authors"; "Title"; "Year"] r.

Definition citations (df : DataFrame) (r : list cell) : cell :=
  cell_at (columns df) "Citations" r.

(** A cell after diacritic folding. *)
Definition fold_cell `{UnidecodeTables} (c : cell) : cell :=
  match c with
  | Str s => Str (unidecode s)
  | _ => c
  end.

(** The key of a row of the merged table once [Authors] and [Title] are
    folded. *)
Definition normalized_key `{UnidecodeTables} (df : DataFrame) (r : list cell) : list cell :=
  [fold_cell (cell_at (columns df) "Authors" r);
   fold_cell (cell_at (columns df) "Title" r);
   cell_at (columns df) "Year" r].

(** [a] is a citation count that [b] is at least as good as: [a] is
    missing, or both are values of one kind and [a] is not above [b]. *)
Definition citation_le (a b : cell) : Prop :=
  a = NaN ∨ (kind a = kind b ∧ cell_le a b).

(** ** The statements of the notebook on the tables they act on *)

(** The order of the values of a sorted column. *)
Definition sorted_as (ascending : bool) : relation cell :=
  if ascending then cell_le else flip cell_le.

(** [df[name] = df[name].apply(unidecode)] *)
Definition fold_column `{UnidecodeTables} (df : DataFrame) (name : colname) : result DataFrame :=
  s ← getitem df name;
  s ← apply unidecode s;
  mret (setitem df name s).

(** The table left in the caller's object by the first two statements. *)
Definition fold_diacritics `{UnidecodeTables} (df : DataFrame) : result DataFrame :=
  df ← fold_column df "Authors";
  fold_column df "Title".

(** The statements from [sort_values] on. *)
Definition sort_and_drop `{Argsort} (df : DataFrame) : result (DataFrame * nat * nat) :=
  df ← sort_values df "Citations" false;
  df_uniques ← drop_duplicates df ["Authors"; "Title"; "Year"];
  df_uniques ← select df_uniques
                 ("Title" :: filter (λ col, col ≠ "Title") (columns df_uniques));
  df_uniques ← sort_values df_uniques "Title" true;
  mret (df_uniques, shape0 df_uniques, shape0 df).

(** A row whose cells at the positions [pa] and [pt] are folded. *)
Definition fold_row `{UnidecodeTables} (pa pt : nat) (r : list cell) : list cell :=
  <[pt := fold_cell (nth pt r NaN)]> (<[pa := fold_cell (nth pa r NaN)]> r).

(** The cell of row [r] under the label [c] once the table is folded. *)
Definition folded `{UnidecodeTables} (df : DataFrame) (r : list cell) (c : colname) : cell :=
  if decide (c = "Authors" ∨ c = "Title") then fold_cell (cell_at (columns df) c r)
  else cell_at (columns df) c r.

(** A table as pandas holds it: every row has a cell for every column. *)
Definition rectangular (df : DataFrame) : Prop :=
  Forall (λ r, length r = length (columns df)) (values df).

(** A table whose numbers are integers that a float64 holds exactly. *)
Definition exact_in_float64 (df : DataFrame) : Prop :=
  ∀ r z, r ∈ values df → Num z ∈ r → Z.abs z ≤ 2 ^ 53.

(** What the adapters do to an author name, a space being the character
    U+0020. *)
Definition normalize_authors `{UnicodeDB} (s : pystr) : pystr :=
  lower (replace (chr " ") (str "") s).

(** The statements of [adjust_wos] after the first, on the table the first
    has left. *)
Definition standardize_wos `{UnicodeDB} (df : DataFrame) : result DataFrame :=
  df ← select df ["Author Full Names"; "Article Title"; "Publication Year";
                  "Database"; "Times Cited, WoS Core"];
  let df := rename df [("Author Full Names", "Authors"); ("Article Title", "Title");
                       ("Publication Year", "Year"); ("Times Cited, WoS Core", "Citations")] in
  authors ← getitem df "Authors";
  authors ← str_method (replace (chr " ") (str "")) authors;
  let df := setitem df "Authors" authors in
  authors ← getitem df "Authors";
  authors ← str_method_object lower authors;
  let df := setitem df "Authors" authors in
  title ← getitem df "Title";
  title ← str_method lower title;
  let df := setitem df "Title" title in
  mret df.

(** ** Example data *)

(** Tables that fold [é] to [e], and the case mapping of Latin-1. *)
Definition example_tables : UnidecodeTables :=
  {| transliterate := λ c, if (c =? 233)%N then str "e" else [] |}.

Definition example_unicode : UnicodeDB :=
  {| unicode_lower := fmap (λ c, if (192 <=? c)%N && (c <=? 222)%N && negb (c =? 215)%N
                                 then (c + 32)%N else ascii_tolower c) |}.

Definition unified_header : list colname :=
  ["Authors"; "Title"; "Year"; "Database"; "Citations"].

(** A merged table: three records of one key, a record whose author is
    written with [é] and the same record written with [e], without a
    citation count. *)
Definition example_merged : DataFrame :=
  {| columns := unified_header;
     values :=
       [ [Str (str "smith"); Str (str "x"); Num 2020; Str (str "Web of Science"); Num 5];
         [Str (str "smith"); Str (str "x"); Num 2020; Str (str "Scopus"); Num 10];
         [Str (str "andr" ++ [233%N]); Str (str "a"); Num 2019; Str (str "Scopus"); Num 7];
         [Str (str "smith"); Str (str "x"); Num 2020; Str (str "ProQuest"); Num 2];
         [Str (str "andre"); Str (str "a"); Num 2019; Str (str "ProQuest"); NaN] ] |}.

Definition example_folded : DataFrame :=
  {| columns := unified_header;
     values :=
       [ [Str (str "smith"); Str (str "x"); Num 2020; Str (str "Web of Science"); Num 5];
         [Str (str "smith"); Str (str "x"); Num 2020; Str (str "Scopus"); Num 10];
         [Str (str "andre"); Str (str "a"); Num 2019; Str (str "Scopus"); Num 7];
         [Str (str "smith"); Str (str "x"); Num 2020; Str (str "ProQuest"); Num 2];
         [Str (str "andre"); Str (str "a"); Num 2019; Str (str "ProQuest"); NaN] ] |}.

Definition example_unique : DataFrame :=
  {| columns := ["Title"; "Authors"; "Year"; "Database"; "Citations"];
     values :=
       [ [Str (str "a"); Str (str "andre"); Num 2019; Str (str "Scopus"); Num 7];
         [Str (str "x"); Str (str "smith"); Num 2020; Str (str "Scopus"); Num 10] ] |}.

(** A source table of one record of the key (smith, x, 2020). *)
Definition one_record (database : cell) (count : Z) : DataFrame :=
  {| columns := unified_header;
     values := [[Str (str "smith"); Str (str "x"); Num 2020; database; Num count]] |}.

(** Four records of one key: the same Web of Science record twice, with
    the count 1, then a Scopus record and a ProQuest record with the
    count 2. *)
Definition tied_counts : DataFrame :=
  {| columns := unified_header;
     values :=
       [ [Str (str "smith"); Str (str "x"); Num 2020; Str (str "Web of Science"); Num 1];
         [Str (str "smith"); Str (str "x"); Num 2020; Str (str "Web of Science"); Num 1];
         [Str (str "smith"); Str (str "x"); Num 2020; Str (str "Scopus"); Num 2];
         [Str (str "smith"); Str (str "x"); Num 2020; Str (str "ProQuest"); Num 2] ] |}.

(** The sources of [tied_counts]: the Web of Science table; the two others
    are tables of one record. *)
Definition wos_twice : DataFrame :=
  {| columns := unified_header;
     values :=
       [ [Str (str "smith"); Str (str "x"); Num 2020; Str (str "Web of Science"); Num 1];
         [Str (str "smith"); Str (str "x"); Num 2020; Str (str "Web of Science"); Num 1] ] |}.

(** Four records of four keys with the same counts, the last two under one
    title; the table [rem_duplicates] makes of them with [dtype_argsort],
    and the table it makes of that one. *)
Definition shared_title : DataFrame :=
  {| columns := unified_header;
     values :=
       [ [Str (str "adams"); Str (str "alpha"); Num 2020; Str (str "Scopus"); Num 1];
         [Str (str "brown"); Str (str "beta"); Num 2020; Str (str "Scopus"); Num 1];
         [Str (str "clark"); Str (str "gamma"); Num 2020; Str (str "Scopus"); Num 2];
         [Str (str "davis"); Str (str "gamma"); Num 2020; Str (str "Scopus"); Num 2] ] |}.

Definition shared_title_once : DataFrame :=
  {| columns := ["Title"; "Authors"; "Year"; "Database"; "Citations"];
     values :=
       [ [Str (str "alpha"); Str (str "adams"); Num 2020; Str (str "Scopus"); Num 1];
         [Str (str "beta"); Str (str "brown"); Num 2020; Str (str "Scopus"); Num 1];
         [Str (str "gamma"); Str (str "davis"); Num 2020; Str (str "Scopus"); Num 2];
         [Str (str "gamma"); Str (str "clark"); Num 2020; Str (str "Scopus"); Num 2] ] |}.

Definition shared_title_twice : DataFrame :=
  {| columns := ["Title"; "Authors"; "Year"; "Database"; "Citations"];
     values :=
       [ [Str (str "alpha"); Str (str "adams"); Num 2020; Str (str "Scopus"); Num 1];
         [Str (str "beta"); Str (str "brown"); Num 2020; Str (str "Scopus"); Num 1];
         [Str (str "gamma"); Str (str "clark"); Num 2020; Str (str "Scopus"); Num 2];
         [Str (str "gamma"); Str (str "davis"); Num 2020; Str (str "Scopus"); Num 2] ] |}.

(** A parser of dates written as [YYYY-MM-DD]. *)
Definition digit (c : N) : option Z :=
  if (48 <=? c)%N && (c <=? 57)%N then Some (Z.of_N c - 48) else None.

Definition parse_iso_date (c : cell) : result cell :=
  match c with
  | NaN => Ok NaN
  | Str [y1; y2; y3; y4; 45%N; m1; m2; 45%N; d1; d2] =>
      match digit y1, digit y2, digit y3, digit y4, digit m1, digit m2, digit d1, digit d2 with
      | Some a, Some b, Some c, Some d, Some e, Some f, Some g, Some h =>
          Ok (Timestamp (1000 * a + 100 * b + 10 * c + d) (10 * e + f) (10 * g + h))
      | _, _, _, _, _, _, _, _ => Raise (Exception "ParserError")
      end
  | _ => Raise (Exception "ParserError")
  end.

Definition example_dates : DateParser := {| to_datetime := mapM parse_iso_date |}.

Definition tab : N := 9%N.

Definition wos_export : DataFrame :=
  {| columns := ["Publication Type"; "Author Full Names"; "Article Title";
                 "Publication Year"; "Times Cited, WoS Core"];
     values := [ [Str (str "J"); Str (str "Smith," ++ [tab] ++ str "John A."); Str (str "A Title");
                  Num 2020; Num 5] ] |}.

Definition scopus_export : DataFrame :=
  {| columns := ["Author full names"; "Title"; "Year"; "Source"; "Cited by"; "DOI"];
     values := [ [Str (str "Smith, J. (Dept X)"); Str (str "A Title"); Num 2020;
                  Str (str "Scopus"); Num 10; NaN] ] |}.

Definition proquest_export : DataFrame :=
  {| columns := ["Author"; "Title"; "PubDate"; "Source"; "Cited by"];
     values := [ [Str (str "Smith, John"); Str (str "A Title"); Str (str "2021-05-01");
                  Str (str "ProQuest"); NaN] ] |}.

Definition wos_adjusted : DataFrame :=
  {| columns := unified_header;
     values := [ [Str (str "smith," ++ [tab] ++ str "johna."); Str (str "a title"); Num 2020;
                  Str (str "Web of Science"); Num 5] ] |}.

Definition scopus_adjusted : DataFrame :=
  {| columns := unified_header;
     values := [ [Str (str "smith,j."); Str (str "a title"); Num 2020;
                  Str (str "Scopus"); Num 10] ] |}.

Definition proquest_adjusted : DataFrame :=
  {| columns := unified_header;
     values := [ [Str (str "smith,john"); Str (str "a title"); Num 2021;
                  Str (str "ProQuest"); NaN] ] |}.

(** A file system with a Web of Science export in CSV, a Scopus workbook,
    the same workbook under a name that ends in [.csv], and nothing else a
    reader can parse. *)
Definition example_io : PandasIO :=
  {| read_csv := λ path,
       if decide (path = str "wos.csv") then Ok wos_export
       else Raise (Exception "ParserError");
     read_excel := λ path,
       if decide (path = str "scopus.xlsx" ∨ path = str "scopus.csv") then Ok scopus_export
       else Raise (Exception "ValueError") |}.

(** A label is not in a header given by its labels. *)
Ltac not_in_header :=
  let Hin := fresh "Hin" in
  intros Hin;
  repeat (apply elem_of_cons in Hin as [Hin|Hin]; [discriminate Hin|]);
  by apply elem_of_nil in Hin.

(** ** The entry point of the notebook *)

Local Open Scope list_scope.

(** A computation that prints: what it returns or raises, with the lines
    printed until then. *)
Definition P (A : Type) : Type := result A * list pystr.

Global Instance P_ret : MRet P := λ A a, (Ok a, []).
Global Instance P_bind : MBind P := λ A B f m,
  match m.1 with
  | Ok a => ((f a).1, m.2 ++ (f a).2)
  | Raise e => (Raise e, m.2)
  end.

(** [print(line)] *)
Definition print (line : pystr) : P unit := (Ok (), [line]).

(** A step that prints nothing. *)
Definition quiet {A : Type} (r : result A) : P A := (r, []).

(** The three global variables, which the user assigns before the notebook
    is run. *)
Class Globals := {
  FILE_PATH_WOS : pystr;
  FILE_PATH_SD : pystr;
  FILE_PATH_PQ : pystr
}.

(** [read_files()] *)
Definition read_files `{PandasIO, Globals}
  : P (option DataFrame * option DataFrame * option DataFrame) :=
  df_wos ← (read_file FILE_PATH_WOS : P (option DataFrame));
  df_scopus ← (read_file FILE_PATH_SD : P (option DataFrame));
  df_proquest ← (read_file FILE_PATH_PQ : P (option DataFrame));
  mret (df_wos, df_scopus, df_proquest).

(** The first statement of an adapter on its argument: [None] has no items
    to read or to assign, which is a [TypeError]. *)
Definition frame (v : option DataFrame) : result DataFrame :=
  match v with
  | Some df => Ok df
  | None => Raise TypeError
  end.

(** A call [f(df)] on a table that the caller does not read again: the
    table is an object of its own. *)
Definition call {A : Type} (f : loc → M A) (df : DataFrame) : result A :=
  (f 0%nat {[0%nat := df]}).1.

(** [s == value] for a string [value], value by value. *)
Definition eq_str (s : Series) (value : pystr) : list bool :=
  (λ c, bool_decide (c = Str value)) <$> s.

(** [df[mask]]: the rows of [df] at which the mask holds. *)
Definition getitem_mask (df : DataFrame) (mask : list bool) : DataFrame :=
  {| columns := columns df;
     values := fst <$> filter (λ rm, rm.2 = true) (zip (values df) mask) |}.

(** An integer in an f-string. *)
Definition format_int (z : Z) : pystr := str (NilZero.string_of_int (Z.to_int z)).

(** [df.to_string()], the rendering of a table by pandas. *)
Class Display := { to_string : DataFrame → pystr }.

(** [main()] *)
Definition main `{PandasIO, Globals, UnicodeDB, DateParser, UnidecodeTables, Argsort, Display}
  : P unit :=
  '(df_wos, df_scopus, df_proquest) ← read_files;
  df_wos_adj ← quiet (df ← frame df_wos; call adjust_wos df);
  df_scopus_adj ← quiet (df ← frame df_scopus; adjust_scopus df);
  df_proquest_adj ← quiet (df ← frame df_proquest; adjust_proquest df);
  let df_merged := merge_dfs df_wos_adj df_scopus_adj df_proquest_adj in
  '(df_uniques, df_uniques_size, df_size) ← quiet (call rem_duplicates df_merged);
  database ← quiet (getitem df_uniques "Database");
  let df_wos := getitem_mask df_uniques (eq_str database (str "Web of Science")) in
  database ← quiet (getitem df_uniques "Database");
  let df_scopus := getitem_mask df_uniques (eq_str database (str "Scopus")) in
  database ← quiet (getitem df_uniques "Database");
  let df_proquest := getitem_mask df_uniques (eq_str database (str "ProQuest")) in
  print (str "Number of studies before removal of duplicates studies: "
         ++ format_int (Z.of_nat df_size));;
  print (str "Number of studies removed: "
         ++ format_int (Z.of_nat df_size - Z.of_nat df_uniques_size));;
  print (str "Number of studies after automatic removal of duplicates studies (automatic): "
         ++ format_int (Z.of_nat df_uniques_size));;
  print (str "------------------------------");;
  print (str "Number of studied from Web of Science: " ++ format_int (Z.of_nat (shape0 df_wos)));;
  print (str "Number of studied from Scopus: " ++ format_int (Z.of_nat (shape0 df_scopus)));;
  print (str "Number of studied from ProQuest: " ++ format_int (Z.of_nat (shape0 df_proquest)));;
  print (str "------------------------------");;
  print [];;
  print (to_string df_uniques).

(** The lines [read_file] prints for the value it returns. *)
Definition diagnostic (v : option DataFrame) : list pystr :=
  match v with
  | Some _ => []
  | None => [str "Wrong file format"]
  end.

(** ** More example data *)

(** Exports with identifiers, which are numbers, in the place of the names
    of the authors. *)
Definition scopus_ids : DataFrame :=
  {| columns := ["Author full names"; "Title"; "Year"; "Source"; "Cited by"];
     values := [ [Num 7004212771; Str (str "A Title"); Num 2020; Str (str "Scopus"); Num 10];
                 [NaN; Str (str "B Title"); Num 2021; Str (str "Scopus"); NaN] ] |}.

Definition wos_ids : DataFrame :=
  {| columns := ["Author Full Names"; "Article Title"; "Publication Year";
                 "Times Cited, WoS Core"];
     values := [ [Num 57190000000; Str (str "A Title"); Num 2020; Num 5] ] |}.

(** A Scopus export without the names of the authors, and exports of the
    three sources with one author field, which has no parentheses. *)
Definition scopus_nameless : DataFrame :=
  {| columns := ["Author full names"; "Title"; "Year"; "Source"; "Cited by"];
     values := [ [NaN; Str (str "A Title"); Num 2020; Str (str "Scopus"); Num 10];
                 [NaN; Str (str "B Title"); Num 2021; Str (str "Scopus"); Num 3] ] |}.

Definition wos_plain : DataFrame :=
  {| columns := ["Author Full Names"; "Article Title"; "Publication Year";
                 "Times Cited, WoS Core"];
     values := [ [Str (str "Smith, John"); Str (str "A Title"); Num 2020; Num 5] ] |}.

Definition scopus_plain : DataFrame :=
  {| columns := ["Author full names"; "Title"; "Year"; "Source"; "Cited by"];
     values := [ [Str (str "Smith, John"); Str (str "A Title"); Num 2020;
                  Str (str "Scopus"); Num 10] ] |}.

(** Merged tables: with a record that has no author, with a record that has
    no title, and with citation counts that are a number and a string. *)
Definition missing_author : DataFrame :=
  {| columns := unified_header;
     values := [[NaN; Str (str "a title"); Num 2020; Str (str "Scopus"); Num 1]] |}.

Definition missing_title : DataFrame :=
  {| columns := unified_header;
     values := [[Str (str "smith"); NaN; Num 2020; Str (str "Scopus"); Num 1]] |}.

Definition mixed_counts : DataFrame :=
  {| columns := unified_header;
     values := [[Str (str "a"); Str (str "t"); Num 2020; Str (str "Scopus"); Num 1];
                [Str (str "b"); Str (str "u"); Num 2020; Str (str "Scopus"); Str (str "12")]] |}.


(** A file system with three tables under the names [wos.csv],
    [scopus.xlsx] and [proquest.xlsx], and the one with the three
    exports. *)
Definition files_with (wos scopus proquest : DataFrame) : PandasIO :=
  {| read_csv := λ path,
       if decide (path = str "wos.csv") then Ok wos
       else Raise (Exception "ParserError");
     read_excel := λ path,
       if decide (path = str "scopus.xlsx") then Ok scopus
       else if decide (path = str "proquest.xlsx") then Ok proquest
       else Raise (Exception "ValueError") |}.

Definition three_files : PandasIO := files_with wos_export scopus_export proquest_export.

(** The paths to the three files; paths of which the last has no file that
    can be read; paths whose Scopus file is a workbook under a name that
    ends in [.csv]; and the paths as the notebook has them, empty strings,
    until the user assigns them. *)
Definition example_paths : Globals :=
  {| FILE_PATH_WOS := str "wos.csv";
     FILE_PATH_SD := str "scopus.xlsx";
     FILE_PATH_PQ := str "proquest.xlsx" |}.

Definition unreadable_paths : Globals :=
  {| FILE_PATH_WOS := str "wos.csv";
     FILE_PATH_SD := str "scopus.xlsx";
     FILE_PATH_PQ := str "proquest.txt" |}.

Definition misnamed_paths : Globals :=
  {| FILE_PATH_WOS := str "wos.csv";
     FILE_PATH_SD := str "scopus.csv";
     FILE_PATH_PQ := str "proquest.xlsx" |}.

Definition notebook_paths : Globals :=
  {| FILE_PATH_WOS := [];
     FILE_PATH_SD := [];
     FILE_PATH_PQ := [] |}.

(** A file system with a Scopus workbook and two CSV files that [read_csv]
    cannot parse, each for a reason of its own; the paths to the three, and
    the same paths with those of the two CSV files exchanged. *)
Definition broken_files : PandasIO :=
  {| read_csv := λ path,
       if decide (path = str "wos.csv") then Raise (Exception "EmptyDataError")
       else Raise (Exception "ParserError");
     read_excel := λ path,
       if decide (path = str "scopus.xlsx") then Ok scopus_export
       else Raise (Exception "ValueError") |}.

Definition csv_paths : Globals :=
  {| FILE_PATH_WOS := str "wos.csv";
     FILE_PATH_SD := str "scopus.xlsx";
     FILE_PATH_PQ := str "proquest.csv" |}.

Definition swapped_paths : Globals :=
  {| FILE_PATH_WOS := str "proquest.csv";
     FILE_PATH_SD := str "scopus.xlsx";
     FILE_PATH_PQ := str "wos.csv" |}.

(** A rendering of a table by its titles, one to a line. *)
Definition example_display : Display :=
  {| to_string := λ df,
       values df ≫= λ r, match cell_at (columns df) "Title" r with
                         | Str t => t ++ [linefeed]
                         | _ => []
                         end |}.

(** * Properties *)

Local Open Scope Z_scope.
Local Open Scope list_scope.

(** ** The order on strings and cells *)

Lemma compare_refl (s : pystr) : PyStr.compare s s = Eq.
Proof.
  induction s as [|c s IH]; simpl; [done|].
  by rewrite N.compare_refl.
Qed.

Lemma compare_antisym (s t : pystr) :
  PyStr.compare t s = CompOpp (PyStr.compare s t).
Proof.
  revert t. induction s as [|c s IH]; intros [|d t]; simpl; try done.
  rewrite (N.compare_antisym c d).
  destruct (c ?= d)%N; simpl; auto.
Qed.

Lemma compare_eq (s t : pystr) : PyStr.compare s t = Eq → s = t.
Proof.
  revert t. induction s as [|c s IH]; intros [|d t]; simpl; try done.
  destruct (N.compare_spec c d); try done.
  intros ?. subst. f_equal. auto.
Qed.

Lemma compare_le_trans (s t u : pystr) :
  PyStr.compare s t ≠ Gt → PyStr.compare t u ≠ Gt → PyStr.compare s u ≠ Gt.
Proof.
  revert t u. induction s as [|c s IH]; intros [|d t] [|e u]; simpl; try done.
  destruct (N.compare_spec c d), (N.compare_spec d e), (N.compare_spec c e);
    try done; try lia; subst; eauto.
Qed.

Lemma cell_le_refl (a : cell) : cell_le a a.
Proof.
  unfold cell_le. destruct a; simpl; try done.
  - apply Z.leb_refl.
  - by rewrite compare_refl.
  - rewrite !Z.eqb_refl, Z.leb_refl. simpl. by rewrite !orb_true_r.
Qed.

Lemma timestamp_leb_spec (y m d y' m' d' : Z) :
  (y <? y') || (y =? y') && ((m <? m') || (m =? m') && (d <=? d')) = true ↔
  y < y' ∨ y = y' ∧ (m < m' ∨ m = m' ∧ d ≤ d').
Proof.
  rewrite !orb_true_iff, !andb_true_iff, !orb_true_iff, !andb_true_iff.
  rewrite !Z.ltb_lt, !Z.eqb_eq, Z.leb_le. done.
Qed.

Lemma cell_le_total (a b : cell) : cell_le a b ∨ cell_le b a.
Proof.
  unfold cell_le. destruct a, b; simpl; auto.
  - destruct (Z.leb_spec z z0); [by left|right]. apply Z.leb_le. lia.
  - rewrite (compare_antisym s s0). destruct (PyStr.compare s s0); simpl; auto.
  - rewrite !timestamp_leb_spec. lia.
Qed.

Global Instance cell_le_trans : Transitive cell_le.
Proof.
  unfold cell_le. intros a b c; destruct a, b, c; simpl; try done.
  - rewrite !Z.leb_le. lia.
  - intros H1 H2.
    pose proof (compare_le_trans s s0 s1) as Ht.
    destruct (PyStr.compare s s0); try done;
      destruct (PyStr.compare s0 s1); try done;
      destruct (PyStr.compare s s1); try done; by exfalso; apply Ht.
  - rewrite !timestamp_leb_spec. lia.
Qed.

Lemma cell_le_num (x y : Z) : cell_le (Num x) (Num y) ↔ x ≤ y.
Proof. unfold cell_le. simpl. apply Z.leb_le. Qed.

Lemma citation_le_refl (a : cell) : citation_le a a.
Proof. right. split; [done|apply cell_le_refl]. Qed.

Lemma citation_le_num (x : Z) (b : cell) :
  citation_le (Num x) b ↔ ∃ y, b = Num y ∧ x ≤ y.
Proof.
  unfold citation_le. split.
  - intros [?|[Hk Hle]]; [done|]. destruct b; try done.
    eexists. split; [done|]. by apply cell_le_num.
  - intros (y & -> & ?). right. split; [done|]. by apply cell_le_num.
Qed.

Lemma citation_le_nan (a : cell) : citation_le a NaN → a = NaN.
Proof. intros [?|[Hk _]]; [done|]. by destruct a. Qed.

(** ** The insertion sorts meet what numpy documents *)

Section insertion.
Variable eager : bool.
Variable a : list cell.

Let R (i j : nat) : Prop := cell_le (nth i a NaN) (nth j a NaN).

Lemma insert_index_perm (i : nat) (s : list nat) :
  insert_index eager a i s ≡ₚ i :: s.
Proof.
  induction s as [|j s IH]; simpl; [done|].
  destruct (if eager then _ else _); [|done].
  rewrite IH. apply Permutation_swap.
Qed.

Lemma insert_index_sorted (i : nat) (s : list nat) :
  StronglySorted R s → StronglySorted R (insert_index eager a i s).
Proof.
  induction 1 as [|j s Hs IH Hj]; simpl.
  { repeat constructor. }
  destruct (if eager then _ else _) eqn:Hb.
  - assert (R j i) as Hji.
    { unfold R. destruct eager; [|done].
      destruct (cell_le_total (nth j a NaN) (nth i a NaN)) as [?|Hle]; [done|].
      unfold cell_le in Hle. by rewrite Hle in Hb. }
    constructor; [done|]. rewrite insert_index_perm. by constructor.
  - assert (R i j) as Hij.
    { unfold R. destruct eager.
      - apply negb_false_iff in Hb. done.
      - destruct (cell_le_total (nth j a NaN) (nth i a NaN)) as [Hle|?]; [|done].
        unfold cell_le in Hle. by rewrite Hle in Hb. }
    constructor; [by constructor|].
    constructor; [done|].
    eapply Forall_impl; [exact Hj|]. intros k Hk. unfold R in *. by etrans.
Qed.

Lemma insertion_foldl (l acc : list nat) :
  StronglySorted R acc →
  foldl (λ sorted i, insert_index eager a i sorted) acc l ≡ₚ acc ++ l ∧
  StronglySorted R (foldl (λ sorted i, insert_index eager a i sorted) acc l).
Proof.
  revert acc. induction l as [|i l IH]; intros acc Hacc; simpl.
  { by rewrite app_nil_r. }
  destruct (IH (insert_index eager a i acc)) as [Hp Hs].
  { by apply insert_index_sorted. }
  split; [|done]. rewrite Hp, insert_index_perm.
  simpl. apply Permutation_middle.
Qed.

Lemma insertion_argsort_with_sorts :
  insertion_argsort_with eager a ≡ₚ seq 0 (length a) ∧
  Sorted cell_le ((λ i, nth i a NaN) <$> insertion_argsort_with eager a).
Proof.
  destruct (insertion_foldl (seq 0 (length a)) []) as [Hp Hs]; [constructor|].
  split; [done|].
  apply StronglySorted_Sorted.
  eapply StronglySorted_fmap; [|exact Hs]. done.
Qed.

End insertion.

Lemma insertion_argsort_sorts : @argsort_sorts insertion_argsort.
Proof. intros a. apply insertion_argsort_with_sorts. Qed.

Lemma eager_insertion_argsort_sorts : @argsort_sorts eager_insertion_argsort.
Proof. intros a. apply insertion_argsort_with_sorts. Qed.

Lemma dtype_argsort_sorts : @argsort_sorts dtype_argsort.
Proof. intros a. apply insertion_argsort_with_sorts. Qed.

(** ** Lists read through their positions *)

Lemma filter_fmap_list {A B : Type} (f : A → B) (P : B → Prop) `{∀ y, Decision (P y)}
    (l : list A) :
  filter P (f <$> l) = f <$> filter (λ x, P (f x)) l.
Proof.
  induction l as [|x l IH]; [done|].
  rewrite fmap_cons, !filter_cons.
  destruct (decide (P (f x))); by rewrite ?fmap_cons, IH.
Qed.

Section positions.
Context {A : Type} (d : A).

Lemma fmap_nth_seq (l : list A) :
  (λ i, nth i l d) <$> seq 0 (length l) = l.
Proof.
  induction l as [|x l IH]; [done|].
  cbn [length seq]. rewrite fmap_cons. cbn [nth]. f_equal.
  rewrite <- fmap_S_seq, <- list_fmap_compose. exact IH.
Qed.

Lemma filter_nth_seq (P : A → Prop) `{∀ x, Decision (P x)} (l : list A) :
  (λ i, nth i l d) <$> filter (λ i, P (nth i l d)) (seq 0 (length l)) = filter P l.
Proof.
  induction l as [|x l IH]; [done|].
  cbn [length seq]. rewrite <- fmap_S_seq, !filter_cons. cbn [nth].
  rewrite filter_fmap_list.
  destruct (decide (P x)); rewrite ?fmap_cons, <- list_fmap_compose;
    cbn [nth]; f_equal; exact IH.
Qed.

Lemma fmap_nth_perm (l : list A) (idx : list nat) :
  idx ≡ₚ seq 0 (length l) → (λ i, nth i l d) <$> idx ≡ₚ l.
Proof.
  intros Hp. etrans; [by apply fmap_Permutation|]. by rewrite fmap_nth_seq.
Qed.

End positions.

Lemma StronglySorted_fmap_inv {A B : Type} (f : A → B) (R : relation B) (l : list A) :
  StronglySorted R (f <$> l) → StronglySorted (λ x y, R (f x) (f y)) l.
Proof.
  induction l as [|x l IH]; simpl; [constructor|].
  rewrite !StronglySorted_cons, Forall_fmap. intros [Hx Hl]. split; [done|auto].
Qed.

Global Instance flip_cell_le_trans : Transitive (flip cell_le).
Proof. intros a b c ??. unfold flip in *. by etrans. Qed.

Lemma comparable_kind (l : list cell) :
  comparable l = true ↔ ∀ a b, a ∈ l → b ∈ l → kind a = kind b.
Proof.
  destruct l as [|c l]; simpl.
  { split; [|done]. intros _ a b Ha. by apply elem_of_nil in Ha. }
  rewrite forallb_forall. split.
  - intros Hall a b Ha Hb.
    assert (∀ x, x ∈ c :: l → kind x = kind c) as Hc.
    { intros x [->|Hx]%elem_of_cons; [done|].
      apply Nat.eqb_eq, Hall. by apply list_elem_of_In. }
    by rewrite (Hc a), (Hc b).
  - intros Hk x Hx. apply Nat.eqb_eq, Hk.
    + right. by apply list_elem_of_In.
    + by left.
Qed.

Lemma comparable_reverse (l : list cell) : comparable (reverse l) = comparable l.
Proof.
  apply eq_true_iff_eq. rewrite !comparable_kind.
  by setoid_rewrite elem_of_reverse.
Qed.

(** ** What [nargsort] and [sort_values] return *)

Section sorting.
Context `{Argsort}.
Hypothesis sorts : argsort_sorts.

Lemma nargsort_Ok (items : Series) (ascending : bool) (indexer : list nat) :
  nargsort items ascending = Ok indexer →
  ∃ present,
    indexer = present ++ filter (λ i, isna (nth i items NaN) = true) (seq 0 (length items)) ∧
    present ≡ₚ filter (λ i, isna (nth i items NaN) = false) (seq 0 (length items)) ∧
    StronglySorted (sorted_as ascending) ((λ i, nth i items NaN) <$> present) ∧
    comparable (filter (λ c, isna c = false) items) = true.
Proof.
  unfold nargsort.
  set (ni := filter (λ i, isna (nth i items NaN) = false) (seq 0 (length items))).
  set (nn := filter (λ c, isna c = false) items).
  assert (nn = (λ i, nth i items NaN) <$> ni) as Hnn.
  { symmetry. exact (filter_nth_seq NaN (λ c, isna c = false) items). }
  destruct (comparable nn) eqn:Hcmp; [|done].
  intros [= <-].
  set (ni' := if ascending then ni else reverse ni).
  set (nn' := if ascending then nn else reverse nn).
  assert (nn' = (λ i, nth i items NaN) <$> ni') as Hnn'.
  { unfold nn', ni'. destruct ascending; [done|]. by rewrite fmap_reverse, Hnn. }
  destruct (sorts nn') as [Hperm Hsorted].
  assert (length nn' = length ni') as Hlen by (by rewrite Hnn', length_fmap).
  assert (((λ j, nth j ni' 0%nat) <$> argsort nn') ≡ₚ ni) as Hidx.
  { rewrite (fmap_nth_perm 0%nat ni') by (by rewrite <- Hlen).
    unfold ni'. destruct ascending; [done|]. apply reverse_Permutation. }
  assert ((λ i, nth i items NaN) <$> ((λ j, nth j ni' 0%nat) <$> argsort nn')
          = (λ j, nth j nn' NaN) <$> argsort nn') as Hvals.
  { rewrite <- list_fmap_compose. apply list_fmap_ext. intros k j Hj. simpl.
    assert (j < length ni')%nat as Hlt.
    { apply list_elem_of_lookup_2 in Hj. rewrite Hperm in Hj.
      apply elem_of_seq in Hj. lia. }
    destruct (lookup_lt_is_Some_2 ni' j Hlt) as [i Hi].
    rewrite (nth_lookup_Some ni' j 0%nat i Hi).
    rewrite Hnn'. erewrite (nth_lookup_Some _ j NaN); [done|].
    by rewrite list_lookup_fmap, Hi. }
  apply Sorted_StronglySorted in Hsorted; [|apply _].
  exists (if ascending then (λ j, nth j ni' 0%nat) <$> argsort nn'
          else reverse ((λ j, nth j ni' 0%nat) <$> argsort nn')).
  split; [by destruct ascending|].
  split; [destruct ascending; [done|by rewrite reverse_Permutation]|].
  split; [|done].
  destruct ascending; simpl.
  - by rewrite Hvals.
  - rewrite fmap_reverse, Hvals.
    apply Sorted_StronglySorted; [apply _|].
    apply Sorted_reverse. by apply StronglySorted_Sorted.
Qed.

End sorting.

(** ** Column labels and cells *)

Lemma get_loc_Some (name : colname) (cols : list colname) (p : nat) :
  get_loc name cols = Some p → cols !! p = Some name.
Proof.
  unfold get_loc. destruct (list_find _ cols) as [[i x]|] eqn:Hf; [|done].
  intros [= <-]. apply list_find_Some in Hf as (? & -> & _). done.
Qed.

Lemma get_loc_None (name : colname) (cols : list colname) :
  get_loc name cols = None ↔ name ∉ cols.
Proof.
  unfold get_loc. destruct (list_find _ cols) as [[i x]|] eqn:Hf; simpl.
  - apply list_find_Some in Hf as (Hi & -> & _).
    split; [done|]. intros []. by eapply list_elem_of_lookup_2.
  - rewrite list_find_None, Forall_forall in Hf. split; [|done].
    intros _ Hin. by apply (Hf name).
Qed.

Lemma get_loc_elem_of (name : colname) (cols : list colname) :
  name ∈ cols → ∃ p, get_loc name cols = Some p.
Proof.
  intros Hin. destruct (get_loc name cols) eqn:Hg; [by eexists|].
  by apply get_loc_None in Hg.
Qed.

Lemma get_loc_Some_elem_of (name : colname) (cols : list colname) (p : nat) :
  get_loc name cols = Some p → name ∈ cols.
Proof. intros Hg%get_loc_Some. by eapply list_elem_of_lookup_2. Qed.

Lemma nth_nil_NaN (p : nat) : nth p [] NaN = NaN.
Proof. by destruct p. Qed.

Lemma nth_column (p i : nat) (rows : list (list cell)) :
  nth i ((λ r, nth p r NaN) <$> rows) NaN = nth p (nth i rows []) NaN.
Proof.
  rewrite <- (nth_nil_NaN p) at 1.
  exact (map_nth (λ r, nth p r NaN) rows [] i).
Qed.

Lemma getitem_Ok (df : DataFrame) (name : colname) (s : Series) :
  getitem df name = Ok s ↔
  ∃ p, get_loc name (columns df) = Some p ∧ s = (λ r, nth p r NaN) <$> values df.
Proof.
  unfold getitem. destruct (get_loc name (columns df)) as [p|]; split.
  - intros [= <-]. by exists p.
  - by intros (? & [= <-] & ->).
  - done.
  - by intros (? & ? & _).
Qed.

(** A row read through a new header made of labels of the old one. *)
Lemma cell_at_row_at (cols names : list colname) (n : colname) (r : list cell) :
  n ∈ names → cell_at names n (row_at cols names r) = cell_at cols n r.
Proof.
  intros [p Hp]%get_loc_elem_of. unfold cell_at at 1. rewrite Hp.
  apply get_loc_Some in Hp.
  apply nth_lookup_Some. unfold row_at. by rewrite list_lookup_fmap, Hp.
Qed.

Lemma row_at_row_at (cols names sub : list colname) (r : list cell) :
  sub ⊆ names → row_at names sub (row_at cols names r) = row_at cols sub r.
Proof.
  intros Hsub. unfold row_at at 1 3. apply list_fmap_ext.
  intros i n Hn. apply cell_at_row_at, Hsub. by eapply list_elem_of_lookup_2.
Qed.

Lemma select_Ok (df df' : DataFrame) (names : list colname) :
  select df names = Ok df' ↔
  names ⊆ columns df ∧
  df' = {| columns := names; values := row_at (columns df) names <$> values df |}.
Proof.
  unfold select.
  destruct (filter (λ n, n ∉ columns df) names) as [|m ms] eqn:Hf.
  - split.
    + intros [= <-]. split; [|done]. intros n Hn.
      destruct (decide (n ∈ columns df)) as [|Hnot]; [done|].
      assert (n ∈ filter (λ n, n ∉ columns df) names) as Hin
        by (by apply list_elem_of_filter).
      rewrite Hf in Hin. by apply elem_of_nil in Hin.
    + by intros [_ ->].
  - split; [done|]. intros [Hsub _].
    assert (m ∈ filter (λ n, n ∉ columns df) names) as Hin by (rewrite Hf; left).
    apply list_elem_of_filter in Hin as [Hnot Hin]. by apply Hsub in Hin.
Qed.

Lemma select_missing (df : DataFrame) (names : list colname) (c : colname) :
  c ∈ names → c ∉ columns df →
  ∃ missing, select df names = Raise (KeyError missing) ∧ c ∈ missing.
Proof.
  intros Hin Hnot. unfold select.
  assert (c ∈ filter (λ n, n ∉ columns df) names) as Hc
    by (by apply list_elem_of_filter).
  destruct (filter (λ n, n ∉ columns df) names) as [|m ms] eqn:Hf.
  - by apply elem_of_nil in Hc.
  - by eexists.
Qed.

(** ** Keeping the first row of every key *)

Section keep_first.
Context {A K : Type} `{EqDecision K} (key : A → K).

Lemma keep_first_elem_of (seen : list K) (l : list A) (x : A) :
  x ∈ keep_first key seen l → x ∈ l ∧ key x ∉ seen.
Proof.
  revert seen. induction l as [|y l IH]; intros seen; simpl.
  { by intros ?%elem_of_nil. }
  destruct (decide (key y ∈ seen)) as [Hy|Hy].
  - intros [? ?]%IH. split; [by right|done].
  - intros [->|Hx]%elem_of_cons; [split; [by left|done]|].
    apply IH in Hx as [? Hns]. split; [by right|].
    intros ?. apply Hns. by right.
Qed.

Lemma keep_first_NoDup (seen : list K) (l : list A) :
  NoDup (key <$> keep_first key seen l).
Proof.
  revert seen. induction l as [|y l IH]; intros seen; simpl.
  { constructor. }
  destruct (decide (key y ∈ seen)); [apply IH|].
  rewrite fmap_cons. constructor; [|apply IH].
  intros (x & Hk & Hx)%list_elem_of_fmap.
  apply keep_first_elem_of in Hx as [_ Hx]. apply Hx. rewrite <- Hk. by left.
Qed.

Lemma keep_first_covers (seen : list K) (l : list A) (x : A) :
  x ∈ l → key x ∉ seen → key x ∈ key <$> keep_first key seen l.
Proof.
  revert seen. induction l as [|y l IH]; intros seen; simpl.
  { by intros ?%elem_of_nil. }
  intros Hx Hns. destruct (decide (key y ∈ seen)) as [Hy|Hy].
  - apply IH; [|done]. apply elem_of_cons in Hx as [->|]; done.
  - rewrite fmap_cons. apply elem_of_cons in Hx as [->|Hx]; [by left|].
    destruct (decide (key x = key y)) as [->|Hne]; [by left|].
    right. apply IH; [done|]. by intros [?|?]%elem_of_cons.
Qed.

(** A kept row is the first of the list with its key. *)
Lemma keep_first_first (seen : list K) (l : list A) (x : A) :
  x ∈ keep_first key seen l →
  ∃ l1 l2, l = l1 ++ x :: l2 ∧ ∀ y, y ∈ l1 → key y ≠ key x.
Proof.
  revert seen. induction l as [|y l IH]; intros seen; simpl.
  { by intros ?%elem_of_nil. }
  destruct (decide (key y ∈ seen)) as [Hy|Hy].
  - intros Hx. pose proof (keep_first_elem_of _ _ _ Hx) as [_ Hns].
    destruct (IH _ Hx) as (l1 & l2 & -> & Hl1).
    exists (y :: l1), l2. split; [done|].
    intros z [->|Hz]%elem_of_cons; [|by apply Hl1].
    intros Heq. apply Hns. by rewrite <- Heq.
  - intros [->|Hx]%elem_of_cons.
    + exists [], l. split; [done|]. by intros z ?%elem_of_nil.
    + pose proof (keep_first_elem_of _ _ _ Hx) as [_ Hns].
      destruct (IH _ Hx) as (l1 & l2 & -> & Hl1).
      exists (y :: l1), l2. split; [done|].
      intros z [->|Hz]%elem_of_cons; [|by apply Hl1].
      intros Heq. apply Hns. rewrite <- Heq. by left.
Qed.

Lemma keep_first_id (seen : list K) (l : list A) :
  NoDup (key <$> l) → (∀ x, x ∈ l → key x ∉ seen) → keep_first key seen l = l.
Proof.
  revert seen. induction l as [|y l IH]; intros seen; [done|].
  rewrite fmap_cons. intros [Hy Hl]%NoDup_cons Hseen. simpl.
  destruct (decide (key y ∈ seen)) as [Hin|_].
  { exfalso. by apply (Hseen y); [left|]. }
  f_equal. apply IH; [done|].
  intros x Hx [Heq|Hin]%elem_of_cons.
  - apply Hy. rewrite <- Heq. by apply list_elem_of_fmap_2.
  - by apply (Hseen x); [right|].
Qed.

End keep_first.

(** ** The statements of [rem_duplicates] on the table they act on *)

Lemma mapM_Ok {A B : Type} (f : A → result B) (l : list A) (k : list B) :
  mapM f l = Ok k ↔ Forall2 (λ x y, f x = Ok y) l k.
Proof.
  revert k. induction l as [|x l IH]; intros k; simpl.
  - split; [intros [= <-]; constructor|by inv 1].
  - split.
    + destruct (f x) as [y|e] eqn:Hx; simpl; [|done].
      destruct (mapM f l) as [k'|e] eqn:Hl; simpl; [|done].
      intros [= <-]. constructor; [done|]. by apply IH.
    + intros Hall. inversion Hall as [|? y ? k' Hy Hk]; subst.
      rewrite Hy. simpl. apply IH in Hk. by rewrite Hk.
Qed.

Lemma apply_Ok (f : pystr → pystr) (s s' : Series) :
  apply f s = Ok s' ↔
  (∀ c, c ∈ s → ∃ x, c = Str x) ∧
  s' = (λ c, match c with Str x => Str (f x) | _ => c end) <$> s.
Proof.
  unfold apply. rewrite mapM_Ok. split.
  - intros HF. induction HF as [|c c' s s' Hc _ [IH1 IH2]].
    { split; [by intros ? ?%elem_of_nil|done]. }
    destruct c; try done. injection Hc as <-. split.
    + intros c [->|?]%elem_of_cons; [by eexists|auto].
    + rewrite fmap_cons. by f_equal.
  - intros [Hstr ->]. induction s as [|c s IH]; [constructor|].
    rewrite fmap_cons. constructor.
    + destruct (Hstr c) as [x ->]; [by left|done].
    + apply IH. intros c' ?. apply Hstr. by right.
Qed.

Lemma setitem_existing (df : DataFrame) (name : colname) (p : nat) (g : list cell → cell) :
  get_loc name (columns df) = Some p →
  setitem df name (g <$> values df)
  = {| columns := columns df; values := (λ r, <[p := g r]> r) <$> values df |}.
Proof.
  intros Hp. unfold setitem, reindex, shape0. rewrite Hp. f_equal.
  rewrite take_app_length' by (by rewrite length_fmap).
  by rewrite zip_with_fmap_r, zip_with_diag.
Qed.

Lemma nth_insert_eq (p : nat) (c : cell) (r : list cell) :
  nth p r NaN ≠ NaN → nth p (<[p := c]> r) NaN = c.
Proof.
  intros Hne. apply nth_lookup_Some, list_lookup_insert_eq.
  destruct (nth_lookup_or_length r p NaN) as [?|Hge]; [by eapply lookup_lt_Some|].
  exfalso. apply Hne. by apply nth_overflow.
Qed.

Lemma nth_insert_ne (p q : nat) (c : cell) (r : list cell) :
  p ≠ q → nth q (<[p := c]> r) NaN = nth q r NaN.
Proof. intros Hne. by rewrite !nth_lookup, list_lookup_insert_ne. Qed.

Section folding.
Context `{UnidecodeTables}.

Lemma fold_column_Ok (df df' : DataFrame) (name : colname) :
  fold_column df name = Ok df' ↔
  ∃ p, get_loc name (columns df) = Some p ∧
       (∀ r, r ∈ values df → ∃ x, nth p r NaN = Str x) ∧
       df' = {| columns := columns df;
                values := (λ r, <[p := fold_cell (nth p r NaN)]> r) <$> values df |}.
Proof.
  unfold fold_column. split.
  - destruct (getitem df name) as [s|] eqn:Hs; [|done]. simpl.
    apply getitem_Ok in Hs as (p & Hp & ->).
    destruct (apply unidecode _) as [s'|] eqn:Hs'; [|done]. simpl.
    apply apply_Ok in Hs' as [Hstr ->]. intros [= <-].
    exists p. split; [done|]. split.
    + intros r Hr. apply (Hstr (nth p r NaN)).
      by apply (list_elem_of_fmap_2 (λ r, nth p r NaN)).
    + rewrite <- list_fmap_compose. by rewrite (setitem_existing _ _ p).
  - intros (p & Hp & Hstr & ->).
    assert (getitem df name = Ok ((λ r, nth p r NaN) <$> values df)) as ->
      by (apply getitem_Ok; eauto).
    simpl.
    assert (apply unidecode ((λ r, nth p r NaN) <$> values df)
            = Ok (fold_cell <$> ((λ r, nth p r NaN) <$> values df))) as ->.
    { apply apply_Ok. split; [|done].
      intros c (r & -> & Hr)%list_elem_of_fmap. auto. }
    simpl. rewrite <- list_fmap_compose. by rewrite (setitem_existing _ _ p).
Qed.

Lemma fold_diacritics_Ok (df df' : DataFrame) :
  fold_diacritics df = Ok df' ↔
  ∃ pa pt, get_loc "Authors" (columns df) = Some pa ∧
           get_loc "Title" (columns df) = Some pt ∧
           (∀ r, r ∈ values df →
              (∃ x, nth pa r NaN = Str x) ∧ (∃ x, nth pt r NaN = Str x)) ∧
           df' = {| columns := columns df; values := fold_row pa pt <$> values df |}.
Proof.
  unfold fold_diacritics. split.
  - destruct (fold_column df "Authors") as [df1|] eqn:H1; [|done]. simpl.
    apply fold_column_Ok in H1 as (pa & Hpa & Hsa & ->).
    intros (pt & Hpt & Hst & ->)%fold_column_Ok. simpl in *.
    assert (pa ≠ pt) as Hne.
    { intros ->. apply get_loc_Some in Hpa, Hpt. congruence. }
    exists pa, pt. do 2 (split; [done|]). split.
    + intros r Hr. split; [auto|].
      destruct (Hst (<[pa := fold_cell (nth pa r NaN)]> r)) as [x Hx].
      { by apply (list_elem_of_fmap_2 (λ r0, <[pa := fold_cell (nth pa r0 NaN)]> r0)). }
      exists x. by rewrite <- Hx, nth_insert_ne.
    + f_equal. rewrite <- list_fmap_compose. apply list_fmap_ext.
      intros i r _. unfold fold_row. simpl. by rewrite nth_insert_ne.
  - intros (pa & pt & Hpa & Hpt & Hstr & ->).
    assert (pa ≠ pt) as Hne.
    { intros ->. apply get_loc_Some in Hpa, Hpt. congruence. }
    assert (fold_column df "Authors"
            = Ok {| columns := columns df;
                    values := (λ r, <[pa := fold_cell (nth pa r NaN)]> r) <$> values df |})
      as ->.
    { apply fold_column_Ok. exists pa. split; [done|]. split; [|done].
      intros r Hr. by apply Hstr. }
    simpl. apply fold_column_Ok. exists pt. simpl. split; [done|]. split.
    + intros r' (r & -> & Hr)%list_elem_of_fmap.
      rewrite nth_insert_ne by done. by apply Hstr.
    + f_equal. rewrite <- list_fmap_compose. apply list_fmap_ext.
      intros i r _. unfold fold_row. simpl. by rewrite nth_insert_ne.
Qed.

(** The cells of a folded row, label by label. *)
Lemma cell_at_fold_row (cols : list colname) (pa pt : nat) (r : list cell) (n : colname) :
  get_loc "Authors" cols = Some pa → get_loc "Title" cols = Some pt →
  nth pa r NaN ≠ NaN → nth pt r NaN ≠ NaN →
  cell_at cols n (fold_row pa pt r)
  = if decide (n = "Authors" ∨ n = "Title") then fold_cell (cell_at cols n r)
    else cell_at cols n r.
Proof.
  intros Hpa Hpt Ha Ht.
  assert (pa ≠ pt) as Hne.
  { intros ->. apply get_loc_Some in Hpa, Hpt. congruence. }
  unfold cell_at, fold_row.
  destruct (decide (n = "Authors" ∨ n = "Title")) as [[->| ->]|Hn].
  - rewrite Hpa. rewrite nth_insert_ne by done. by rewrite nth_insert_eq.
  - rewrite Hpt. rewrite nth_insert_eq; [done|]. by rewrite nth_insert_ne.
  - destruct (get_loc n cols) as [q|] eqn:Hq; [|done].
    assert (pa ≠ q ∧ pt ≠ q) as [? ?].
    { apply get_loc_Some in Hpa, Hpt, Hq.
      split; intros ->; apply Hn; [left|right]; congruence. }
    by rewrite !nth_insert_ne.
Qed.

End folding.

(** ** Sorted tables *)

Lemma filter_bool_Permutation {A : Type} (f : A → bool) (l : list A) :
  filter (λ x, f x = false) l ++ filter (λ x, f x = true) l ≡ₚ l.
Proof.
  induction l as [|x l IH]; [done|].
  rewrite !filter_cons. destruct (f x) eqn:Hx; simpl.
  - rewrite <- Permutation_middle. by constructor.
  - by constructor.
Qed.

Section sort_values.
Context `{Argsort}.
Hypothesis sorts : argsort_sorts.

Lemma sort_values_Ok (df df' : DataFrame) (label : colname) (ascending : bool) :
  sort_values df label ascending = Ok df' →
  ∃ p present,
    get_loc label (columns df) = Some p ∧
    columns df' = columns df ∧
    values df' = present ++ filter (λ r, isna (nth p r NaN) = true) (values df) ∧
    present ≡ₚ filter (λ r, isna (nth p r NaN) = false) (values df) ∧
    StronglySorted (λ r r', sorted_as ascending (nth p r NaN) (nth p r' NaN)) present ∧
    comparable (filter (λ c, isna c = false) ((λ r, nth p r NaN) <$> values df)) = true.
Proof.
  unfold sort_values.
  destruct (getitem df label) as [k|] eqn:Hk; [|done]. simpl.
  apply getitem_Ok in Hk as (p & Hp & ->).
  destruct (nargsort _ ascending) as [indexer|] eqn:Hidx; [|done]. simpl.
  intros [= <-]. simpl.
  apply (nargsort_Ok sorts) in Hidx as (present & -> & Hperm & Hsorted & Hcmp).
  rewrite length_fmap in Hperm |- *.
  exists p, ((λ i, nth i (values df) []) <$> present).
  split; [done|]. split; [done|].
  assert (∀ b, filter (λ i, isna (nth i ((λ r, nth p r NaN) <$> values df) NaN) = b)
                 (seq 0 (length (values df)))
               = filter (λ i, isna (nth p (nth i (values df) []) NaN) = b)
                   (seq 0 (length (values df)))) as Hfilter.
  { intros b. apply list_filter_iff. intros i. by rewrite nth_column. }
  split; [|split; [|split; [|done]]].
  - rewrite fmap_app. f_equal. rewrite Hfilter.
    exact (filter_nth_seq [] (λ r, isna (nth p r NaN) = true) (values df)).
  - rewrite Hperm, Hfilter.
    pose proof (filter_nth_seq [] (λ r, isna (nth p r NaN) = false) (values df)) as E.
    cbv beta in E. by rewrite E.
  - apply (StronglySorted_fmap_inv (λ r, nth p r NaN)).
    rewrite <- list_fmap_compose.
    erewrite list_fmap_ext; [exact Hsorted|].
    intros i j _. simpl. by rewrite nth_column.
Qed.

Lemma sort_values_is_Ok (df : DataFrame) (label : colname) (ascending : bool) (p : nat) :
  get_loc label (columns df) = Some p →
  comparable (filter (λ c, isna c = false) ((λ r, nth p r NaN) <$> values df)) = true →
  ∃ df', sort_values df label ascending = Ok df'.
Proof.
  intros Hp Hcmp. unfold sort_values, getitem, nargsort. rewrite Hp. simpl.
  rewrite Hcmp. simpl. by eexists.
Qed.

Lemma sort_values_Permutation (df df' : DataFrame) (label : colname) (ascending : bool) :
  sort_values df label ascending = Ok df' → values df' ≡ₚ values df.
Proof.
  intros (p & present & _ & _ & -> & Hperm & _)%sort_values_Ok.
  rewrite Hperm. apply (filter_bool_Permutation (λ r, isna (nth p r NaN))).
Qed.

End sort_values.

(** ** Running [rem_duplicates] *)

Lemma drop_duplicates_Ok (df df' : DataFrame) (subset : list colname) :
  drop_duplicates df subset = Ok df' ↔
  subset ⊆ columns df ∧
  df' = {| columns := columns df;
           values := keep_first (row_at (columns df) subset) [] (values df) |}.
Proof.
  unfold drop_duplicates.
  destruct (filter (λ n, n ∉ columns df) subset) as [|m ms] eqn:Hf.
  - split.
    + intros [= <-]. split; [|done]. intros n Hn.
      destruct (decide (n ∈ columns df)) as [|Hnot]; [done|].
      assert (n ∈ filter (λ n, n ∉ columns df) subset) as Hin
        by (by apply list_elem_of_filter).
      rewrite Hf in Hin. by apply elem_of_nil in Hin.
    + by intros [_ ->].
  - split; [done|]. intros [Hsub _].
    assert (m ∈ filter (λ n, n ∉ columns df) subset) as Hin by (rewrite Hf; left).
    apply list_elem_of_filter in Hin as [Hnot Hin]. by apply Hsub in Hin.
Qed.

Section running.
Context `{UnidecodeTables, Argsort}.

(** The call on an object that holds the table [d]: the object is left
    with its folded columns, also when a later statement raises, and the
    result is that of the remaining statements on the folded table. *)
Lemma rem_duplicates_run (σ : gmap nat DataFrame) (l : nat) (d : DataFrame) :
  σ !! l = Some d →
  rem_duplicates l σ =
  match fold_column d "Authors" with
  | Ok d1 =>
      match fold_column d1 "Title" with
      | Ok d2 => (sort_and_drop d2, <[l := d2]> σ)
      | Raise e => (Raise e, <[l := d1]> σ)
      end
  | Raise e => (Raise e, σ)
  end.
Proof.
  intros Hl.
  unfold rem_duplicates, fold_column, getitem_at, setitem_at, load, lift.
  unfold mbind, M_bind, result_bind, mret, M_ret, result_ret. simpl. rewrite Hl.
  destruct (getitem d "Authors") as [a|]; simpl; [|done].
  destruct (apply unidecode a) as [a'|]; simpl; [|done].
  rewrite Hl. simpl. rewrite !lookup_insert_eq.
  destruct (getitem (setitem d "Authors" a') "Title") as [t|]; simpl; [|done].
  destruct (apply unidecode t) as [t'|]; simpl; [|done].
  repeat (first [rewrite lookup_insert_eq | rewrite insert_insert_eq]; simpl).
  unfold sort_and_drop, mbind, result_bind, mret, result_ret.
  destruct (sort_values _ "Citations" false) as [d3|]; simpl; [|done].
  destruct (drop_duplicates d3 _) as [d4|]; simpl; [|done].
  destruct (select d4 _) as [d5|]; simpl; [|done].
  by destruct (sort_values d5 "Title" true) as [d6|]; simpl.
Qed.

Lemma rem_duplicates_Ok (σ σ' : gmap nat DataFrame) (l : nat) (d : DataFrame)
    (out : DataFrame * nat * nat) :
  σ !! l = Some d →
  rem_duplicates l σ = (Ok out, σ') ↔
  ∃ d2, fold_diacritics d = Ok d2 ∧ sort_and_drop d2 = Ok out ∧ σ' = <[l := d2]> σ.
Proof.
  intros Hl. rewrite (rem_duplicates_run σ l d Hl). unfold fold_diacritics.
  destruct (fold_column d "Authors") as [d1|]; simpl.
  - destruct (fold_column d1 "Title") as [d2|]; simpl.
    + split.
      * intros [= ? <-]. by exists d2.
      * by intros (? & [= <-] & -> & ->).
    + split; [done|]. by intros (? & ? & _).
  - split; [done|]. by intros (? & ? & _).
Qed.

Hypothesis sorts : argsort_sorts.

Lemma sort_and_drop_Ok (d u : DataFrame) (n m : nat) :
  sort_and_drop d = Ok (u, n, m) →
  ∃ pc present,
    get_loc "Citations" (columns d) = Some pc ∧
    comparable (filter (λ c, isna c = false) ((λ r, nth pc r NaN) <$> values d)) = true ∧
    present ≡ₚ filter (λ r, isna (nth pc r NaN) = false) (values d) ∧
    StronglySorted (λ r r', cell_le (nth pc r' NaN) (nth pc r NaN)) present ∧
    ["Authors"; "Title"; "Year"] ⊆ columns d ∧
    "Title" ∈ columns d ∧
    columns u = "Title" :: filter (λ c, c ≠ "Title") (columns d) ∧
    values u ≡ₚ
      row_at (columns d) (columns u) <$>
        keep_first (key d) []
          (present ++ filter (λ r, isna (nth pc r NaN) = true) (values d)) ∧
    n = length (values u) ∧ m = length (values d).
Proof.
  unfold sort_and_drop.
  destruct (sort_values d "Citations" false) as [d3|] eqn:H3; [|done]. simpl.
  pose proof (sort_values_Permutation sorts _ _ _ _ H3) as Hperm3.
  apply (sort_values_Ok sorts) in H3
    as (pc & present & Hpc & Hc3 & Hv3 & Hpres & Hsorted & Hcmp).
  destruct (drop_duplicates d3 _) as [d4|] eqn:H4; [|done]. simpl.
  apply drop_duplicates_Ok in H4 as [Hsub ->]. simpl.
  destruct (select _ _) as [d5|] eqn:H5; [|done]. simpl.
  apply select_Ok in H5 as [Hsub5 ->]. simpl in *.
  destruct (sort_values _ "Title" true) as [d6|] eqn:H6; [|done]. simpl.
  pose proof (sort_values_Permutation sorts _ _ _ _ H6) as Hperm6.
  apply (sort_values_Ok sorts) in H6 as (pt & _ & _ & Hc6 & _).
  intros [= <- <- <-]. simpl in *.
  rewrite Hc3 in *.
  exists pc, present. do 4 (split; [done|]).
  split; [done|]. split; [apply Hsub; set_solver|].
  split; [done|]. split.
  - rewrite Hperm6, Hc6, Hv3. done.
  - unfold shape0. by rewrite Hperm3.
Qed.

End running.

(** ** The rows of the deduplicated table *)

Lemma StronglySorted_impl_elem_of {A : Type} (R R' : relation A) (l : list A) :
  (∀ x y, x ∈ l → y ∈ l → R x y → R' x y) →
  StronglySorted R l → StronglySorted R' l.
Proof.
  intros Himpl Hl. induction Hl as [|x l Hl IH Hx]; [constructor|].
  constructor.
  - apply IH. intros y z ??. apply Himpl; by right.
  - rewrite Forall_forall in Hx |- *. intros y Hy.
    apply Himpl; [by left|by right|auto].
Qed.

Lemma StronglySorted_trivial {A : Type} (R : relation A) (l : list A) :
  (∀ x y, x ∈ l → y ∈ l → R x y) → StronglySorted R l.
Proof.
  induction l as [|x l IH]; intros HR; [constructor|].
  constructor.
  - apply IH. intros y z ??. apply HR; by right.
  - apply Forall_forall. intros y Hy. apply HR; [by left|by right].
Qed.

Lemma filter_key_nil {A K : Type} `{EqDecision K} (f : A → K) (l : list A) (y : K) :
  y ∉ f <$> l → filter (λ x, f x = y) l = [].
Proof.
  induction l as [|x l IH]; [done|].
  rewrite fmap_cons, not_elem_of_cons. intros [Hne Hy].
  rewrite filter_cons, decide_False by done. auto.
Qed.

Lemma filter_key_length {A K : Type} `{EqDecision K} (f : A → K) (l : list A) (y : K) :
  NoDup (f <$> l) → y ∈ f <$> l → length (filter (λ x, f x = y) l) = 1%nat.
Proof.
  induction l as [|x l IH]; [by intros _ ?%elem_of_nil|].
  rewrite fmap_cons. intros [Hx Hl]%NoDup_cons Hy. rewrite filter_cons.
  destruct (decide (f x = y)) as [<-|Hne]; simpl.
  - by rewrite filter_key_nil.
  - apply IH; [done|]. by apply elem_of_cons in Hy as [?|?].
Qed.

Section rows.
Context `{UnidecodeTables, Argsort}.
Hypothesis sorts : argsort_sorts.

Lemma key_fold_row (d : DataFrame) (pa pt : nat) (r : list cell) :
  get_loc "Authors" (columns d) = Some pa → get_loc "Title" (columns d) = Some pt →
  nth pa r NaN ≠ NaN → nth pt r NaN ≠ NaN →
  ∀ c, cell_at (columns d) c (fold_row pa pt r) = folded d r c.
Proof. intros. by apply cell_at_fold_row. Qed.

(** What a successful call has done, row by row: [sorted] lists the folded
    rows by citation count, the best first and the missing ones last; the
    result holds, in some order, the first row of every key of [sorted],
    read under the new header. *)
Lemma rem_duplicates_rows (σ σ' : gmap nat DataFrame) (l : nat) (d u : DataFrame)
    (n m : nat) :
  σ !! l = Some d →
  rem_duplicates l σ = (Ok (u, n, m), σ') →
  ∃ pa pt pc sorted,
    let d2 := {| columns := columns d; values := fold_row pa pt <$> values d |} in
    get_loc "Authors" (columns d) = Some pa ∧
    get_loc "Title" (columns d) = Some pt ∧
    get_loc "Citations" (columns d) = Some pc ∧
    ["Authors"; "Title"; "Year"] ⊆ columns d ∧
    (∀ r, r ∈ values d → (∃ x, nth pa r NaN = Str x) ∧ (∃ x, nth pt r NaN = Str x)) ∧
    σ' = <[l := d2]> σ ∧
    comparable (filter (λ c, isna c = false) ((λ r, nth pc r NaN) <$> values d2)) = true ∧
    sorted ≡ₚ values d2 ∧
    StronglySorted (λ r r', citation_le (nth pc r' NaN) (nth pc r NaN)) sorted ∧
    columns u = "Title" :: filter (λ c, c ≠ "Title") (columns d) ∧
    values u ≡ₚ row_at (columns d) (columns u) <$> keep_first (key d2) [] sorted ∧
    n = length (values u) ∧ m = length (values d).
Proof.
  intros Hl Hrun.
  apply (rem_duplicates_Ok σ σ' l d _ Hl) in Hrun as (d2 & Hfold & Hdrop & ->).
  apply fold_diacritics_Ok in Hfold as (pa & pt & Hpa & Hpt & Hstr & ->).
  apply (sort_and_drop_Ok sorts) in Hdrop
    as (pc & present & Hpc & Hcmp & Hpres & Hsorted & Hsub & _ & Hcols & Hvals & -> & ->).
  simpl in *.
  set (rows := fold_row pa pt <$> values d) in *.
  exists pa, pt, pc, (present ++ filter (λ r, isna (nth pc r NaN) = true) rows).
  simpl. do 7 (split; [done|]).
  split; [|split; [|split; [done|split; [done|split; [done|]]]]].
  - rewrite Hpres. apply (filter_bool_Permutation (λ r, isna (nth pc r NaN))).
  - assert (∀ r, r ∈ present → r ∈ rows ∧ isna (nth pc r NaN) = false) as Hin.
    { intros r Hr. rewrite Hpres in Hr. by apply list_elem_of_filter in Hr as [? ?]. }
    rewrite comparable_kind in Hcmp.
    apply StronglySorted_app_2.
    + intros r r' _ [Hna _]%list_elem_of_filter. left.
      by destruct (nth pc r' NaN).
    + eapply StronglySorted_impl_elem_of; [|exact Hsorted].
      intros r r' [Hr Hna]%Hin [Hr' Hna']%Hin Hle. right. split; [|done].
      apply Hcmp; apply list_elem_of_filter; (split; [done|]);
        by apply (list_elem_of_fmap_2 (λ r, nth pc r NaN)).
    + apply StronglySorted_trivial.
      intros r r' _ [Hna _]%list_elem_of_filter. left.
      by destruct (nth pc r' NaN).
  - unfold rows. by rewrite length_fmap.
Qed.

End rows.

Lemma cell_at_not_elem_of (cols : list colname) (c : colname) (r : list cell) :
  c ∉ cols → cell_at cols c r = NaN.
Proof. intros Hc%get_loc_None. unfold cell_at. by rewrite Hc. Qed.

Lemma cell_at_nth (cols : list colname) (c : colname) (p : nat) (r : list cell) :
  get_loc c cols = Some p → cell_at cols c r = nth p r NaN.
Proof. intros Hc. unfold cell_at. by rewrite Hc. Qed.

(** The header [rem_duplicates] gives its result keeps every label. *)
Lemma title_first_elem_of (cols : list colname) (c : colname) :
  "Title" ∈ cols → c ∈ "Title" :: filter (λ c', c' ≠ "Title") cols ↔ c ∈ cols.
Proof.
  intros HT. rewrite elem_of_cons, list_elem_of_filter.
  destruct (decide (c = "Title")) as [->|Hne].
  - split; [done|by left].
  - split; [by intros [?|[_ ?]]|]. intros ?. by right.
Qed.

Lemma title_first_idemp (cols : list colname) :
  let cols' := "Title" :: filter (λ c, c ≠ "Title") cols in
  "Title" :: filter (λ c, c ≠ "Title") cols' = cols'.
Proof.
  simpl. f_equal. rewrite filter_cons, decide_False by (by intros []).
  apply list_filter_filter_l. done.
Qed.

Lemma normalized_key_fold_row `{UnidecodeTables} (d : DataFrame) (pa pt : nat) (r : list cell) :
  get_loc "Authors" (columns d) = Some pa → get_loc "Title" (columns d) = Some pt →
  nth pa r NaN ≠ NaN → nth pt r NaN ≠ NaN →
  row_at (columns d) ["Authors"; "Title"; "Year"] (fold_row pa pt r) = normalized_key d r.
Proof.
  intros Hpa Hpt Ha Ht. unfold row_at, normalized_key.
  rewrite !fmap_cons, !(cell_at_fold_row (columns d) pa pt r) by done.
  done.
Qed.

Lemma key_row_at (cols header : list colname) (k : list cell) :
  "Title" ∈ cols → ["Authors"; "Title"; "Year"] ⊆ cols →
  header = "Title" :: filter (λ c, c ≠ "Title") cols →
  row_at header ["Authors"; "Title"; "Year"] (row_at cols header k)
  = row_at cols ["Authors"; "Title"; "Year"] k.
Proof.
  intros HT Hsub ->. apply row_at_row_at.
  intros c Hc. apply title_first_elem_of; [done|by apply Hsub].
Qed.

Section deduplicated.
Context `{UnidecodeTables, Argsort}.
Hypothesis sorts : argsort_sorts.
Variables (σ σ' : gmap nat DataFrame) (l : nat) (d u : DataFrame) (n m : nat).
Hypothesis held : σ !! l = Some d.
Hypothesis run : rem_duplicates l σ = (Ok (u, n, m), σ').

Lemma dedup_origin (k : list cell) :
  k ∈ values u →
  ∃ r, r ∈ values d ∧ k = folded d r <$> columns u ∧
       key u k = normalized_key d r ∧
       ∀ c, cell_at (columns u) c k = folded d r c.
Proof.
  destruct (rem_duplicates_rows sorts _ _ _ _ _ _ _ held run)
    as (pa & pt & pc & sorted & Hpa & Hpt & Hpc & Hsub & Hstr & _ & _ & Hperm & _
        & Hcols & Hvals & _).
  simpl in *. intros Hk. rewrite Hvals in Hk.
  apply list_elem_of_fmap in Hk as (k4 & -> & Hk4).
  apply keep_first_elem_of in Hk4 as [Hk4 _]. rewrite Hperm in Hk4.
  apply list_elem_of_fmap in Hk4 as (r & -> & Hr).
  destruct (Hstr r Hr) as [[xa Hxa] [xt Hxt]].
  assert ("Title" ∈ columns d) as HT by (by eapply get_loc_Some_elem_of).
  assert (∀ c, cell_at (columns u) c (row_at (columns d) (columns u) (fold_row pa pt r))
               = folded d r c) as Hcells.
  { intros c. rewrite <- (key_fold_row d pa pt r) by (rewrite ?Hxa, ?Hxt; done).
    destruct (decide (c ∈ columns d)) as [Hc|Hc].
    - apply cell_at_row_at. rewrite Hcols. by apply title_first_elem_of.
    - rewrite !cell_at_not_elem_of; [done|done|].
      rewrite Hcols. by rewrite title_first_elem_of. }
  exists r. split; [done|]. split; [|split; [|done]].
  - unfold row_at. apply list_fmap_ext. intros i c _.
    apply key_fold_row; rewrite ?Hxa, ?Hxt; done.
  - unfold key, normalized_key. unfold row_at at 1. rewrite !fmap_cons, !Hcells.
    done.
Qed.

Lemma dedup_keys : NoDup (key u <$> values u).
Proof.
  destruct (rem_duplicates_rows sorts _ _ _ _ _ _ _ held run)
    as (pa & pt & pc & sorted & Hpa & Hpt & Hpc & Hsub & Hstr & _ & _ & Hperm & _
        & Hcols & Hvals & _).
  simpl in *. rewrite Hvals, <- list_fmap_compose.
  erewrite list_fmap_ext; [apply keep_first_NoDup|].
  intros i r _. simpl. unfold key. apply key_row_at; [|done..].
  apply Hsub. by right; left.
Qed.

Lemma dedup_covers (r : list cell) :
  r ∈ values d → normalized_key d r ∈ key u <$> values u.
Proof.
  destruct (rem_duplicates_rows sorts _ _ _ _ _ _ _ held run)
    as (pa & pt & pc & sorted & Hpa & Hpt & Hpc & Hsub & Hstr & _ & _ & Hperm & _
        & Hcols & Hvals & _).
  simpl in *. intros Hr.
  destruct (Hstr r Hr) as [[xa Hxa] [xt Hxt]].
  set (key2 := row_at (columns d) ["Authors"; "Title"; "Year"]).
  assert (normalized_key d r = key2 (fold_row pa pt r)) as ->.
  { symmetry. apply normalized_key_fold_row; rewrite ?Hxa, ?Hxt; done. }
  assert (key2 (fold_row pa pt r) ∈ key2 <$> keep_first key2 [] sorted) as Hin.
  { apply keep_first_covers; [|by apply not_elem_of_nil].
    rewrite Hperm. by apply list_elem_of_fmap_2. }
  apply list_elem_of_fmap in Hin as (k4 & Hk4 & Hin).
  apply list_elem_of_fmap.
  exists (row_at (columns d) (columns u) k4). split.
  - rewrite Hk4. unfold key, key2. symmetry. apply key_row_at; [|done..].
    apply Hsub. by right; left.
  - rewrite Hvals. by apply list_elem_of_fmap_2.
Qed.

Lemma dedup_best (r k : list cell) :
  r ∈ values d → k ∈ values u → key u k = normalized_key d r →
  citation_le (citations d r) (citations u k).
Proof.
  destruct (rem_duplicates_rows sorts _ _ _ _ _ _ _ held run)
    as (pa & pt & pc & sorted & Hpa & Hpt & Hpc & Hsub & Hstr & _ & _ & Hperm & Hsorted
        & Hcols & Hvals & _).
  simpl in *. intros Hr Hk Hkey.
  set (key2 := row_at (columns d) ["Authors"; "Title"; "Year"]) in *.
  assert ("Title" ∈ columns d) as HT by (by eapply get_loc_Some_elem_of).
  assert ("Citations" ∈ columns d) as HC by (by eapply get_loc_Some_elem_of).
  rewrite Hvals in Hk. apply list_elem_of_fmap in Hk as (k4 & -> & Hk4).
  destruct (Hstr r Hr) as [[xa Hxa] [xt Hxt]].
  assert (key u (row_at (columns d) (columns u) k4) = key2 k4) as Hku.
  { unfold key, key2. by apply key_row_at. }
  assert (key2 k4 = key2 (fold_row pa pt r)) as Hkey2.
  { rewrite <- Hku, Hkey. symmetry.
    apply normalized_key_fold_row; rewrite ?Hxa, ?Hxt; done. }
  assert (citations u (row_at (columns d) (columns u) k4) = nth pc k4 NaN) as ->.
  { unfold citations. rewrite cell_at_row_at.
    - by apply cell_at_nth.
    - rewrite Hcols. by apply title_first_elem_of. }
  assert (citations d r = nth pc (fold_row pa pt r) NaN) as ->.
  { unfold citations. rewrite <- (cell_at_nth _ _ _ _ Hpc).
    rewrite (key_fold_row d pa pt r) by (rewrite ?Hxa, ?Hxt; done).
    unfold folded. by rewrite decide_False by (by intros [|]). }
  destruct (keep_first_first key2 [] sorted k4 Hk4) as (l1 & l2 & Hsplit & Hl1).
  assert (fold_row pa pt r ∈ sorted) as Hin.
  { rewrite Hperm. by apply list_elem_of_fmap_2. }
  rewrite Hsplit in Hin, Hsorted.
  apply elem_of_app in Hin as [Hin|Hin].
  { exfalso. by apply (Hl1 _ Hin). }
  apply StronglySorted_app_1_r, StronglySorted_cons in Hsorted as [Hk4all _].
  apply elem_of_cons in Hin as [->|Hin]; [apply citation_le_refl|].
  rewrite Forall_forall in Hk4all. by apply Hk4all.
Qed.

Lemma dedup_counts : n = length (values u) ∧ m = length (values d).
Proof.
  destruct (rem_duplicates_rows sorts _ _ _ _ _ _ _ held run)
    as (pa & pt & pc & sorted & _ & _ & _ & _ & _ & _ & _ & _ & _ & _ & _ & ? & ?).
  done.
Qed.

End deduplicated.

(** ** When [rem_duplicates] returns *)

Lemma comparable_Str (l : list cell) :
  (∀ c, c ∈ l → ∃ x, c = Str x) → comparable l = true.
Proof.
  intros Hstr. apply comparable_kind. intros a b Ha Hb.
  destruct (Hstr a Ha) as [? ->], (Hstr b Hb) as [? ->]. done.
Qed.

Lemma comparable_subseteq (l l' : list cell) :
  l' ⊆ l → comparable l = true → comparable l' = true.
Proof.
  rewrite !comparable_kind. intros Hsub Hl a b Ha Hb. apply Hl; by apply Hsub.
Qed.

Section returns.
Context `{UnidecodeTables, Argsort}.
Hypothesis sorts : argsort_sorts.

Lemma sort_and_drop_is_Ok (d : DataFrame) (pc : nat) :
  get_loc "Citations" (columns d) = Some pc →
  ["Authors"; "Title"; "Year"] ⊆ columns d →
  (∀ r, r ∈ values d → ∃ x, cell_at (columns d) "Title" r = Str x) →
  comparable (filter (λ c, isna c = false) ((λ r, nth pc r NaN) <$> values d)) = true →
  ∃ out, sort_and_drop d = Ok out.
Proof.
  intros Hpc Hsub Htitle Hcmp. unfold sort_and_drop.
  assert ("Title" ∈ columns d) as HT by (apply Hsub; by right; left).
  destruct (sort_values_is_Ok d "Citations" false pc Hpc Hcmp) as [d3 H3].
  rewrite H3. simpl.
  pose proof (sort_values_Permutation sorts _ _ _ _ H3) as Hperm3.
  apply (sort_values_Ok sorts) in H3 as (_ & _ & _ & Hc3 & _).
  assert (drop_duplicates d3 ["Authors"; "Title"; "Year"]
          = Ok {| columns := columns d3;
                  values := keep_first (row_at (columns d3) ["Authors"; "Title"; "Year"]) []
                              (values d3) |}) as ->.
  { apply drop_duplicates_Ok. by rewrite Hc3. }
  simpl. rewrite Hc3.
  set (header := "Title" :: filter (λ c, c ≠ "Title") (columns d)).
  set (kept := keep_first _ [] (values d3)).
  assert (select {| columns := columns d; values := kept |} header
          = Ok {| columns := header; values := row_at (columns d) header <$> kept |}) as ->.
  { apply select_Ok. split; [|done]. intros c Hc. simpl.
    by apply (title_first_elem_of (columns d) c HT). }
  simpl.
  destruct (sort_values_is_Ok
              {| columns := header; values := row_at (columns d) header <$> kept |}
              "Title" true 0) as [d6 H6].
  - done.
  - simpl. apply comparable_Str.
    intros c [_ (k & -> & Hk)%list_elem_of_fmap]%list_elem_of_filter.
    apply list_elem_of_fmap in Hk as (r & -> & Hr).
    apply keep_first_elem_of in Hr as [Hr _]. rewrite Hperm3 in Hr.
    destruct (Htitle r Hr) as [x Hx]. exists x.
    rewrite <- Hx. apply (cell_at_row_at (columns d) header "Title"). by left.
  - rewrite H6. simpl. by eexists.
Qed.

Lemma rem_duplicates_returns (σ : gmap nat DataFrame) (l : nat) (d : DataFrame)
    (pa pt pc : nat) :
  σ !! l = Some d →
  get_loc "Authors" (columns d) = Some pa →
  get_loc "Title" (columns d) = Some pt →
  get_loc "Citations" (columns d) = Some pc →
  "Year" ∈ columns d →
  (∀ r, r ∈ values d → (∃ x, nth pa r NaN = Str x) ∧ (∃ x, nth pt r NaN = Str x)) →
  comparable (filter (λ c, isna c = false) ((λ r, nth pc r NaN) <$> values d)) = true →
  ∃ u n m,
    rem_duplicates l σ
    = (Ok (u, n, m), <[l := {| columns := columns d; values := fold_row pa pt <$> values d |}]> σ).
Proof.
  intros Hl Hpa Hpt Hpc HY Hstr Hcmp.
  set (d2 := {| columns := columns d; values := fold_row pa pt <$> values d |}).
  assert (pa ≠ pc ∧ pt ≠ pc) as [Hac Htc].
  { apply get_loc_Some in Hpa, Hpt, Hpc. split; intros ->; congruence. }
  destruct (sort_and_drop_is_Ok d2 pc) as [[[u n] m] Hout].
  - done.
  - simpl. intros c [->|[->|[->|[]%elem_of_nil]%elem_of_cons]%elem_of_cons]%elem_of_cons;
      [by eapply get_loc_Some_elem_of|by eapply get_loc_Some_elem_of|done].
  - simpl. intros r2 (r & -> & Hr)%list_elem_of_fmap.
    destruct (Hstr r Hr) as [[xa Hxa] [xt Hxt]].
    rewrite (cell_at_fold_row (columns d) pa pt r) by (rewrite ?Hxa, ?Hxt; done).
    rewrite (cell_at_nth _ _ _ _ Hpt), Hxt. simpl. by eexists.
  - simpl. rewrite <- list_fmap_compose.
    erewrite list_fmap_ext; [exact Hcmp|].
    intros i r _. simpl. unfold fold_row. by rewrite !nth_insert_ne.
  - exists u, n, m. apply (rem_duplicates_Ok σ _ l d _ Hl).
    exists d2. split; [|done]. apply fold_diacritics_Ok. by exists pa, pt.
Qed.

End returns.

(** ** Example tables *)

Lemma example_tables_ascii : @ascii_tables example_tables.
Proof. intros c. simpl. by destruct (c =? 233)%N. Qed.

Lemma example_run :
  @rem_duplicates example_tables insertion_argsort 0%nat {[0%nat := example_merged]}
  = (Ok (example_unique, 2%nat, 5%nat), {[0%nat := example_folded]}).
Proof. vm_compute. reflexivity. Qed.

(** ** The deduplicator keeps one row per key *)

(** C2.  For a sorting kernel that meets numpy's contract.  On a merged
    table [d] that has the columns [Authors], [Title], [Year] and
    [Citations], a string for every author and title and citation counts
    that can be compared, [rem_duplicates] returns.  Whenever it returns the
    table [u]: no two rows of [u] have the same (Authors, Title, Year); for
    every row of [d] there is exactly one row of [u] with its key as it is
    after diacritic folding; every row of [u] is a row of [d], folded and
    read under the new header, so that rows of different keys are never
    merged; and [u] has as many rows as [d] has distinct folded keys. *)
Theorem deduplicated_keys_unique `{UnidecodeTables, Argsort}
    (σ : gmap nat DataFrame) (l : nat) (d : DataFrame) :
  argsort_sorts →
  σ !! l = Some d →
  (["Authors"; "Title"; "Year"; "Citations"] ⊆ columns d →
   (∀ r, r ∈ values d →
      ∃ a t, cell_at (columns d) "Authors" r = Str a ∧ cell_at (columns d) "Title" r = Str t) →
   comparable (filter (λ c, isna c = false) (citations d <$> values d)) = true →
   ∃ u n m σ', rem_duplicates l σ = (Ok (u, n, m), σ')) ∧
  (∀ (u : DataFrame) (n m : nat) (σ' : gmap nat DataFrame),
     rem_duplicates l σ = (Ok (u, n, m), σ') →
     NoDup (key u <$> values u) ∧
     (∀ r, r ∈ values d →
        length (filter (λ k, key u k = normalized_key d r) (values u)) = 1%nat) ∧
     (∀ k, k ∈ values u →
        ∃ r, r ∈ values d ∧ k = folded d r <$> columns u ∧ key u k = normalized_key d r) ∧
     n = length (remove_dups (normalized_key d <$> values d))).
Proof.
  intros sorts held. split.
  { intros Hsub Hstr Hcmp.
    destruct (get_loc_elem_of "Authors" (columns d)) as [pa Hpa]; [apply Hsub; by left|].
    destruct (get_loc_elem_of "Title" (columns d)) as [pt Hpt];
      [apply Hsub; by right; left|].
    destruct (get_loc_elem_of "Citations" (columns d)) as [pc Hpc];
      [apply Hsub; by do 3 right; left|].
    destruct (rem_duplicates_returns sorts σ l d pa pt pc) as (u & n & m & run);
      [done|done|done|done| | | |].
    - apply Hsub. by do 2 right; left.
    - intros r Hr. destruct (Hstr r Hr) as (a & t & Ha & Ht).
      rewrite (cell_at_nth _ _ _ _ Hpa) in Ha. rewrite (cell_at_nth _ _ _ _ Hpt) in Ht.
      split; by eexists.
    - rewrite <- Hcmp. do 2 f_equal. apply list_fmap_ext. intros i r _.
      unfold citations. by rewrite (cell_at_nth _ _ _ _ Hpc).
    - by exists u, n, m, (<[l := {| columns := columns d;
                                     values := fold_row pa pt <$> values d |}]> σ). }
  intros u n m σ' run.
  pose proof (dedup_keys sorts _ _ _ _ _ _ _ held run) as Hnodup.
  split; [done|]. split; [|split].
  - intros r Hr. apply filter_key_length; [done|].
    by apply (dedup_covers sorts _ _ _ _ _ _ _ held run).
  - intros k Hk.
    destruct (dedup_origin sorts _ _ _ _ _ _ _ held run k Hk) as (r & ? & ? & ? & _).
    by exists r.
  - destruct (dedup_counts sorts _ _ _ _ _ _ _ held run) as [-> _].
    rewrite <- (length_fmap (key u)). apply Permutation_length.
    apply NoDup_Permutation; [done|apply NoDup_remove_dups|].
    intros κ. rewrite elem_of_remove_dups. split.
    + intros (k & -> & Hk)%list_elem_of_fmap.
      destruct (dedup_origin sorts _ _ _ _ _ _ _ held run k Hk) as (r & Hr & _ & -> & _).
      by apply list_elem_of_fmap_2.
    + intros (r & -> & Hr)%list_elem_of_fmap.
      by apply (dedup_covers sorts _ _ _ _ _ _ _ held run).
Qed.

Lemma deduplicated_keys_unique_witness :
  (∃ u n m σ',
     @rem_duplicates example_tables insertion_argsort 0%nat {[0%nat := example_merged]}
     = (Ok (u, n, m), σ')) ∧
  NoDup (key example_unique <$> values example_unique) ∧
  (∀ r, r ∈ values example_merged →
     length (filter (λ k, key example_unique k = @normalized_key example_tables example_merged r)
               (values example_unique)) = 1%nat) ∧
  (∀ k, k ∈ values example_unique →
     ∃ r, r ∈ values example_merged ∧
          k = @folded example_tables example_merged r <$> columns example_unique ∧
          key example_unique k = @normalized_key example_tables example_merged r) ∧
  2%nat = length (remove_dups (@normalized_key example_tables example_merged
                                 <$> values example_merged)).
Proof.
  assert (({[0%nat := example_merged]} : gmap nat DataFrame) !! 0%nat = Some example_merged)
    as held by reflexivity.
  destruct (@deduplicated_keys_unique example_tables insertion_argsort
              {[0%nat := example_merged]} 0%nat example_merged
              insertion_argsort_sorts held) as [returns unique].
  split.
  - apply returns.
    + intros c Hc.
      repeat (apply elem_of_cons in Hc as [->|Hc]; [by repeat constructor|]).
      by apply elem_of_nil in Hc.
    + intros r Hr.
      repeat (apply elem_of_cons in Hr as [->|Hr]; [by eexists _, _|]).
      by apply elem_of_nil in Hr.
    + reflexivity.
  - apply (unique example_unique 2%nat 5%nat {[0%nat := example_folded]}).
    exact example_run.
Defined.

(** ** The deduplicator keeps the most cited row *)

Lemma singleton_of_NoDup {A K : Type} (f : A → K) (l : list A) (x : A) :
  (∀ y, y ∈ l → y = x) → NoDup (f <$> l) → l ≠ [] → l = [x].
Proof.
  intros Hall Hnodup Hne. destruct l as [|a [|b l]]; [done| |].
  - f_equal. apply Hall. by left.
  - exfalso. rewrite !fmap_cons in Hnodup.
    apply NoDup_cons in Hnodup as [Hnotin _]. apply Hnotin.
    rewrite (Hall a), (Hall b); [by left|by right; left|by left].
Qed.

(** C1, as the code has it.  For a sorting kernel that meets numpy's
    contract.  After a call of [rem_duplicates] that returns [u] for the
    merged table [d], every group of rows of [d] with one folded key has
    exactly one row in [u]; that row is a row of the group, folded and read
    under the new header, and its citation count is at least as high as
    that of every row of the group: it is a maximum of the group, a missing
    count being below every number.  Which of several rows with that count
    is kept is the choice of the sorting kernel.  In particular three
    sources of one record each, with the key (smith, x, 2020) and the
    counts 5, 10 and 2, are deduplicated to the single record with the
    count 10; the call reports 1 row kept out of 3. *)
Theorem citation_priority `{UnidecodeTables, Argsort} :
  argsort_sorts →
  (∀ (σ σ' : gmap nat DataFrame) (l : nat) (d u : DataFrame) (n m : nat),
     σ !! l = Some d →
     rem_duplicates l σ = (Ok (u, n, m), σ') →
     (∀ r, r ∈ values d →
        ∃ k best,
          filter (λ k', key u k' = normalized_key d r) (values u) = [k] ∧
          best ∈ values d ∧
          normalized_key d best = normalized_key d r ∧
          k = folded d best <$> columns u ∧
          citations u k = citations d best ∧
          ∀ r', r' ∈ values d → normalized_key d r' = normalized_key d r →
                citation_le (citations d r') (citations d best)) ∧
     (∀ r k, r ∈ values d → k ∈ values u → key u k = normalized_key d r →
             citation_le (citations d r) (citations u k))) ∧
  (∀ (σ : gmap nat DataFrame) (l : nat) (db1 db2 db3 : cell),
     σ !! l = Some (merge_dfs (one_record db1 5) (one_record db2 10) (one_record db3 2)) →
     ∃ σ',
       rem_duplicates l σ
       = (Ok ({| columns := ["Title"; "Authors"; "Year"; "Database"; "Citations"];
                 values := [[Str (str "x"); Str (str "smith"); Num 2020; db2; Num 10]] |},
              1%nat, 3%nat), σ')).
Proof.
  intros sorts. split.
  { intros σ σ' l d u n m held run. split; [|intros r k; by eapply dedup_best].
    intros r Hr.
    pose proof (dedup_keys sorts _ _ _ _ _ _ _ held run) as Hnodup.
    pose proof (dedup_covers sorts _ _ _ _ _ _ _ held run r Hr) as Hcov.
    pose proof (filter_key_length (key u) (values u) _ Hnodup Hcov) as Hone.
    destruct (filter _ (values u)) as [|k [|k' ks]] eqn:Hfilter; try done.
    assert (key u k = normalized_key d r ∧ k ∈ values u) as [Hkey Hk].
    { apply (list_elem_of_filter (λ k', key u k' = normalized_key d r)).
      rewrite Hfilter. by left. }
    destruct (dedup_origin sorts _ _ _ _ _ _ _ held run k Hk)
      as (best & Hbest & Hfolded & Hkey' & Hcells).
    assert (citations u k = citations d best) as Hcount.
    { unfold citations. rewrite Hcells. unfold folded.
      by rewrite decide_False by (by intros [|]). }
    exists k, best. split; [done|]. split; [done|]. split; [congruence|].
    split; [done|]. split; [done|].
    intros r' Hr' Hsame. rewrite <- Hcount.
    apply (dedup_best sorts _ _ _ _ _ _ _ held run r' k Hr' Hk). congruence. }
  intros σ l db1 db2 db3 held.
  set (d := merge_dfs _ _ _) in *.
  set (r1 := [Str (str "smith"); Str (str "x"); Num 2020; db1; Num 5]).
  set (r2 := [Str (str "smith"); Str (str "x"); Num 2020; db2; Num 10]).
  set (r3 := [Str (str "smith"); Str (str "x"); Num 2020; db3; Num 2]).
  assert (d = {| columns := unified_header; values := [r1; r2; r3] |}) as Hd
    by (vm_compute; reflexivity).
  assert (∀ r, r ∈ values d → r = r1 ∨ r = r2 ∨ r = r3) as Hrows.
  { rewrite Hd. simpl.
    intros r [->|[->|[->|[]%elem_of_nil]%elem_of_cons]%elem_of_cons]%elem_of_cons; auto. }
  destruct (rem_duplicates_returns sorts σ l d 0 1 4) as (u & n & m & run);
    [done|by rewrite Hd|by rewrite Hd|by rewrite Hd| | | |].
  { by rewrite Hd; right; right; left. }
  { intros r [->|[->| ->]]%Hrows; split; by eexists. }
  { by rewrite Hd. }
  eexists. rewrite run. do 2 f_equal.
  destruct (rem_duplicates_rows sorts _ _ _ _ _ _ _ held run)
    as (pa & pt & pc & sorted & _ & _ & _ & _ & _ & _ & _ & _ & _ & Hcols & _).
  rewrite Hd in Hcols. simpl in Hcols.
  destruct (dedup_counts sorts _ _ _ _ _ _ _ held run) as [-> ->].
  assert (r2 ∈ values d) as Hr2 by (rewrite Hd; by right; left).
  pose proof (dedup_covers sorts _ _ _ _ _ _ _ held run r2 Hr2) as Hcov.
  assert (values u = [[Str (str "x"); Str (str "smith"); Num 2020; db2; Num 10]])
    as Hvals.
  { apply (singleton_of_NoDup (key u)).
    - intros k Hk.
      destruct (dedup_origin sorts _ _ _ _ _ _ _ held run k Hk)
        as (r & Hr & Hkr & Hkey & _).
      assert (key u k = normalized_key d r2) as Hkey2.
      { rewrite Hkey. by destruct (Hrows r Hr) as [->|[->| ->]]. }
      pose proof (dedup_best sorts _ _ _ _ _ _ _ held run r2 k Hr2 Hk Hkey2) as Hbest.
      unfold citations in Hbest. rewrite Hkr, Hcols in Hbest |- *.
      destruct (Hrows r Hr) as [->|[->| ->]]; vm_compute in Hbest |- *;
        [by destruct Hbest as [?|[_ ?]]|done|by destruct Hbest as [?|[_ ?]]].
    - by eapply dedup_keys.
    - intros Hnil. rewrite Hnil in Hcov. by apply elem_of_nil in Hcov. }
  rewrite Hvals. rewrite Hd at 1. clear run Hcov.
  destruct u as [cols vals]. simpl in *. by subst cols vals.
Qed.

Lemma citation_priority_witness :
  (∃ k best,
     filter (λ k', key example_unique k'
                   = @normalized_key example_tables example_merged
                       [Str (str "smith"); Str (str "x"); Num 2020; Str (str "ProQuest"); Num 2])
       (values example_unique) = [k] ∧
     best ∈ values example_merged ∧
     @normalized_key example_tables example_merged best
     = @normalized_key example_tables example_merged
         [Str (str "smith"); Str (str "x"); Num 2020; Str (str "ProQuest"); Num 2] ∧
     k = @folded example_tables example_merged best <$> columns example_unique ∧
     citations example_unique k = citations example_merged best ∧
     ∀ r', r' ∈ values example_merged →
           @normalized_key example_tables example_merged r'
           = @normalized_key example_tables example_merged
               [Str (str "smith"); Str (str "x"); Num 2020; Str (str "ProQuest"); Num 2] →
           citation_le (citations example_merged r') (citations example_merged best)) ∧
  citation_le (Num 2) (Num 10) ∧
  ∃ σ',
    @rem_duplicates example_tables insertion_argsort 7%nat
      {[7%nat := merge_dfs (one_record (Str (str "Web of Science")) 5)
                   (one_record (Str (str "Scopus")) 10)
                   (one_record (Str (str "ProQuest")) 2)]}
    = (Ok ({| columns := ["Title"; "Authors"; "Year"; "Database"; "Citations"];
              values := [[Str (str "x"); Str (str "smith"); Num 2020;
                          Str (str "Scopus"); Num 10]] |},
           1%nat, 3%nat), σ').
Proof.
  destruct (@citation_priority example_tables insertion_argsort insertion_argsort_sorts)
    as [kept scenario].
  destruct (kept {[0%nat := example_merged]} {[0%nat := example_folded]} 0%nat
              example_merged example_unique 2%nat 5%nat) as [group best].
  { reflexivity. }
  { exact example_run. }
  split; [|split].
  - apply group. by do 3 right; left.
  - assert (citations example_merged
              [Str (str "smith"); Str (str "x"); Num 2020; Str (str "ProQuest"); Num 2]
            = Num 2) as <- by reflexivity.
    assert (citations example_unique
              [Str (str "x"); Str (str "smith"); Num 2020; Str (str "Scopus"); Num 10]
            = Num 10) as <- by reflexivity.
    apply best.
    + by do 3 right; left.
    + by right; left.
    + reflexivity.
  - apply (scenario _ 7%nat (Str (str "Web of Science")) (Str (str "Scopus"))
             (Str (str "ProQuest"))).
    reflexivity.
Defined.

(** C1, as it is stated, fails where it says which of the rows tied for the
    maximum is kept.  The insertion sort that moves an element past its
    equals meets numpy's contract for the default kind of sort.  With it,
    of the four records of one key in [tied_counts], merged from the three
    sources, the ProQuest record is kept: it has the highest count, 2, but
    the Scopus record with the same count comes before it in the merged
    table. *)
Lemma kept_row_not_first_seen :
  @argsort_sorts eager_insertion_argsort ∧
  merge_dfs wos_twice (one_record (Str (str "Scopus")) 2) (one_record (Str (str "ProQuest")) 2)
  = tied_counts ∧
  @normalized_key example_tables tied_counts <$> values tied_counts
  = replicate 4 [Str (str "smith"); Str (str "x"); Num 2020] ∧
  citations tied_counts <$> values tied_counts = [Num 1; Num 1; Num 2; Num 2] ∧
  (λ r, cell_at (columns tied_counts) "Database" r) <$> values tied_counts
  = [Str (str "Web of Science"); Str (str "Web of Science"); Str (str "Scopus");
     Str (str "ProQuest")] ∧
  (@rem_duplicates example_tables eager_insertion_argsort 0%nat {[0%nat := tied_counts]}).1
  = Ok ({| columns := ["Title"; "Authors"; "Year"; "Database"; "Citations"];
           values :=
             [ [Str (str "x"); Str (str "smith"); Num 2020; Str (str "ProQuest"); Num 2] ] |},
        1%nat, 4%nat).
Proof.
  split; [exact eager_insertion_argsort_sorts|].
  repeat split; vm_compute; reflexivity.
Qed.

(** ** The sort by citation count *)

Lemma sort_values_descending `{Argsort} (df df' : DataFrame) (label : colname) :
  argsort_sorts →
  sort_values df label false = Ok df' →
  ∃ p present,
    get_loc label (columns df) = Some p ∧
    columns df' = columns df ∧
    values df' = present ++ filter (λ r, isna (nth p r NaN) = true) (values df) ∧
    present ≡ₚ filter (λ r, isna (nth p r NaN) = false) (values df) ∧
    StronglySorted (λ r r', citation_le (nth p r' NaN) (nth p r NaN)) (values df').
Proof.
  intros sorts (p & present & Hp & Hcols & Hvals & Hpres & Hsorted & Hcmp)%(sort_values_Ok sorts).
  exists p, present. do 4 (split; [done|]). rewrite Hvals.
  assert (∀ r, r ∈ present → r ∈ values df ∧ isna (nth p r NaN) = false) as Hin.
  { intros r Hr. rewrite Hpres in Hr. by apply list_elem_of_filter in Hr as [? ?]. }
  rewrite comparable_kind in Hcmp.
  apply StronglySorted_app_2.
  - intros r r' _ [Hna _]%list_elem_of_filter. left. by destruct (nth p r' NaN).
  - eapply StronglySorted_impl_elem_of; [|exact Hsorted].
    intros r r' [Hr Hna]%Hin [Hr' Hna']%Hin Hle. right. split; [|done].
    apply Hcmp; apply list_elem_of_filter; (split; [done|]);
      by apply (list_elem_of_fmap_2 (λ r, nth p r NaN)).
  - apply StronglySorted_trivial.
    intros r r' _ [Hna _]%list_elem_of_filter. left. by destruct (nth p r' NaN).
Qed.

(** C3, as the code has it.  For a sorting kernel that meets numpy's
    contract, [sort_values(by="Citations", ascending=False)] returns on a
    table whose citation counts can be compared, and it returns the rows of
    the table in an order in which no row has a lower citation count than a
    later one, the rows without a count coming last, in the order they had
    in the table.  The order of rows with equal counts is the kernel's. *)
Theorem citations_sorted_missing_last `{Argsort} (df : DataFrame) :
  argsort_sorts →
  ("Citations" ∈ columns df →
   comparable (filter (λ c, isna c = false) (citations df <$> values df)) = true →
   ∃ df', sort_values df "Citations" false = Ok df') ∧
  (∀ df' : DataFrame,
     sort_values df "Citations" false = Ok df' →
     ∃ present,
       values df' = present ++ filter (λ r, isna (citations df r) = true) (values df) ∧
       present ≡ₚ filter (λ r, isna (citations df r) = false) (values df) ∧
       StronglySorted (λ r r', citation_le (citations df r') (citations df r)) (values df')).
Proof.
  intros sorts. split.
  { intros [p Hp]%get_loc_elem_of Hcmp.
    apply (sort_values_is_Ok df "Citations" false p Hp).
    rewrite <- Hcmp. do 2 f_equal. apply list_fmap_ext. intros i r _.
    unfold citations. by rewrite (cell_at_nth _ _ _ _ Hp). }
  intros df' (p & present & Hp & _ & Hvals & Hpres & Hsorted)%(sort_values_descending _ _ _ sorts).
  assert (∀ r, citations df r = nth p r NaN) as Hcit.
  { intros r. by apply cell_at_nth. }
  exists present. split; [|split].
  - rewrite Hvals. f_equal. apply list_filter_iff. intros r. cbv beta. by rewrite Hcit.
  - rewrite Hpres. erewrite list_filter_iff; [done|]. intros r. cbv beta. by rewrite Hcit.
  - eapply StronglySorted_impl_elem_of; [|exact Hsorted].
    intros r r' _ _. by rewrite !Hcit.
Qed.

Lemma citations_sorted_missing_last_witness :
  (∃ df', @sort_values insertion_argsort example_merged "Citations" false = Ok df') ∧
  ∃ present,
    [ [Str (str "smith"); Str (str "x"); Num 2020; Str (str "Scopus"); Num 10];
      [Str (str "andr" ++ [233%N]); Str (str "a"); Num 2019; Str (str "Scopus"); Num 7];
      [Str (str "smith"); Str (str "x"); Num 2020; Str (str "Web of Science"); Num 5];
      [Str (str "smith"); Str (str "x"); Num 2020; Str (str "ProQuest"); Num 2];
      [Str (str "andre"); Str (str "a"); Num 2019; Str (str "ProQuest"); NaN] ]
    = present ++ filter (λ r, isna (citations example_merged r) = true) (values example_merged) ∧
    present ≡ₚ filter (λ r, isna (citations example_merged r) = false) (values example_merged) ∧
    StronglySorted
      (λ r r', citation_le (citations example_merged r') (citations example_merged r))
      [ [Str (str "smith"); Str (str "x"); Num 2020; Str (str "Scopus"); Num 10];
        [Str (str "andr" ++ [233%N]); Str (str "a"); Num 2019; Str (str "Scopus"); Num 7];
        [Str (str "smith"); Str (str "x"); Num 2020; Str (str "Web of Science"); Num 5];
        [Str (str "smith"); Str (str "x"); Num 2020; Str (str "ProQuest"); Num 2];
        [Str (str "andre"); Str (str "a"); Num 2019; Str (str "ProQuest"); NaN] ].
Proof.
  destruct (@citations_sorted_missing_last insertion_argsort example_merged
              insertion_argsort_sorts) as [returns sorted].
  split.
  - apply returns; [|reflexivity]. by do 4 right; left.
  - apply (sorted
             {| columns := unified_header;
                values :=
                  [ [Str (str "smith"); Str (str "x"); Num 2020; Str (str "Scopus"); Num 10];
                    [Str (str "andr" ++ [233%N]); Str (str "a"); Num 2019; Str (str "Scopus");
                     Num 7];
                    [Str (str "smith"); Str (str "x"); Num 2020; Str (str "Web of Science");
                     Num 5];
                    [Str (str "smith"); Str (str "x"); Num 2020; Str (str "ProQuest"); Num 2];
                    [Str (str "andre"); Str (str "a"); Num 2019; Str (str "ProQuest");
                     NaN] ] |}).
    vm_compute. reflexivity.
Defined.

(** C3, as it is stated, fails: the insertion sort that moves an element
    past its equals meets numpy's contract for the default kind of sort,
    and with it the sort of [tied_counts] by citation count puts the
    ProQuest record before the Scopus record, which has the same count and
    comes first in the table, so that the record seen later is the one
    [rem_duplicates] keeps. *)
Lemma sort_by_citations_not_stable :
  @argsort_sorts eager_insertion_argsort ∧
  @sort_values eager_insertion_argsort tied_counts "Citations" false
  = Ok {| columns := unified_header;
          values :=
            [ [Str (str "smith"); Str (str "x"); Num 2020; Str (str "ProQuest"); Num 2];
              [Str (str "smith"); Str (str "x"); Num 2020; Str (str "Scopus"); Num 2];
              [Str (str "smith"); Str (str "x"); Num 2020; Str (str "Web of Science"); Num 1];
              [Str (str "smith"); Str (str "x"); Num 2020; Str (str "Web of Science");
               Num 1] ] |} ∧
  (@rem_duplicates example_tables eager_insertion_argsort 0%nat {[0%nat := tied_counts]}).1
  = Ok ({| columns := ["Title"; "Authors"; "Year"; "Database"; "Citations"];
           values :=
             [ [Str (str "x"); Str (str "smith"); Num 2020; Str (str "ProQuest"); Num 2] ] |},
        1%nat, 4%nat).
Proof.
  split; [exact eager_insertion_argsort_sorts|].
  split; vm_compute; reflexivity.
Qed.

(** ** What [rem_duplicates] does to the table it is given *)

(** C8, as the code has it.  A call of [rem_duplicates] on the object [l]
    leaves every other object of the store as it was, whether it returns or
    raises.  When it returns, the object [l] holds a table with the header,
    the number of rows and the order of rows it had, in which the [Authors]
    and [Title] cells of every row are replaced by their folded values and
    the other cells are unchanged. *)
Theorem rem_duplicates_rewrites_columns `{UnidecodeTables, Argsort}
    (σ σ' : gmap nat DataFrame) (l : nat) (d : DataFrame)
    (res : result (DataFrame * nat * nat)) :
  σ !! l = Some d →
  rem_duplicates l σ = (res, σ') →
  (∀ l', l' ≠ l → σ' !! l' = σ !! l') ∧
  (∀ out, res = Ok out →
     ∃ d', σ' !! l = Some d' ∧ columns d' = columns d ∧
           Forall2 (λ r r', length r' = length r ∧
                            ∀ c, cell_at (columns d) c r' = folded d r c)
             (values d) (values d')).
Proof.
  intros held run. split.
  - intros l' Hne. rewrite (rem_duplicates_run σ l d held) in run.
    destruct (fold_column d "Authors") as [d1|]; [|by injection run as _ <-].
    destruct (fold_column d1 "Title") as [d2|]; injection run as _ <-;
      by rewrite lookup_insert_ne.
  - intros out ->.
    apply (rem_duplicates_Ok σ σ' l d out held) in run as (d2 & Hfold & _ & ->).
    apply fold_diacritics_Ok in Hfold as (pa & pt & Hpa & Hpt & Hstr & ->).
    eexists. split; [apply lookup_insert_eq|]. split; [done|]. simpl.
    apply Forall2_fmap_r, Forall_Forall2_diag, Forall_forall. intros r Hr.
    destruct (Hstr r Hr) as [[xa Hxa] [xt Hxt]]. split.
    + unfold fold_row. by rewrite !length_insert.
    + intros c. apply key_fold_row; rewrite ?Hxa, ?Hxt; done.
Qed.

Lemma rem_duplicates_rewrites_columns_witness :
  (∀ l', l' ≠ 0%nat →
     ({[0%nat := example_folded]} : gmap nat DataFrame) !! l'
     = ({[0%nat := example_merged]} : gmap nat DataFrame) !! l') ∧
  (∀ out, Ok (example_unique, 2%nat, 5%nat) = Ok out →
     ∃ d', ({[0%nat := example_folded]} : gmap nat DataFrame) !! 0%nat = Some d' ∧
           columns d' = columns example_merged ∧
           Forall2 (λ r r', length r' = length r ∧
                            ∀ c, cell_at (columns example_merged) c r'
                                 = @folded example_tables example_merged r c)
             (values example_merged) (values d')).
Proof.
  apply (@rem_duplicates_rewrites_columns example_tables insertion_argsort
           {[0%nat := example_merged]} {[0%nat := example_folded]} 0%nat example_merged
           (Ok (example_unique, 2%nat, 5%nat))).
  - reflexivity.
  - vm_compute. reflexivity.
Defined.

(** C8, as it is stated, fails: after the call the caller's table holds
    [andre] where it held [andré]. *)
Lemma rem_duplicates_changes_its_input :
  let σ' := (@rem_duplicates example_tables insertion_argsort 0%nat
               {[0%nat := example_merged]}).2 in
  σ' !! 0%nat = Some example_folded ∧
  example_folded ≠ example_merged ∧
  getitem example_merged "Authors"
  = Ok [Str (str "smith"); Str (str "smith"); Str (str "andr" ++ [233%N]);
        Str (str "smith"); Str (str "andre")] ∧
  getitem example_folded "Authors"
  = Ok [Str (str "smith"); Str (str "smith"); Str (str "andre");
        Str (str "smith"); Str (str "andre")].
Proof.
  split; [vm_compute; reflexivity|].
  split; [|split; vm_compute; reflexivity].
  intros Heq. apply (f_equal values) in Heq. vm_compute in Heq. discriminate Heq.
Qed.

(** ** Folding twice *)

Section unidecode.
Context `{UnidecodeTables}.
Hypothesis tables : ascii_tables.

Lemma forallb_bind {A B : Type} (p : B → bool) (f : A → list B) (l : list A) :
  (∀ x, forallb p (f x) = true) → forallb p (l ≫= f) = true.
Proof.
  intros Hf. induction l as [|x l IH]; [done|].
  rewrite bind_cons, forallb_app, Hf, IH. done.
Qed.

Lemma unidecode_ascii (s : pystr) : forallb is_ascii (unidecode s) = true.
Proof.
  unfold unidecode. destruct (forallb is_ascii s) eqn:Hs; [done|].
  apply forallb_bind. intros c. destruct (is_ascii c) eqn:Hc.
  - simpl. by rewrite Hc.
  - apply tables.
Qed.

Lemma unidecode_idemp (s : pystr) : unidecode (unidecode s) = unidecode s.
Proof. unfold unidecode at 1. by rewrite unidecode_ascii. Qed.

Lemma fold_cell_idemp (c : cell) : fold_cell (fold_cell c) = fold_cell c.
Proof. destruct c; simpl; try done. by rewrite unidecode_idemp. Qed.

End unidecode.

Lemma insert_nth_id (p : nat) (r : list cell) : <[p := nth p r NaN]> r = r.
Proof.
  apply list_insert_id'. intros Hlt.
  destruct (nth_lookup_or_length r p NaN) as [?|?]; [done|lia].
Qed.

Lemma cell_le_antisym (a b : cell) : cell_le a b → cell_le b a → a = b.
Proof.
  unfold cell_le. destruct a, b; simpl; try done.
  - rewrite !Z.leb_le. intros. f_equal. lia.
  - rewrite (compare_antisym s s0).
    destruct (PyStr.compare s s0) eqn:Hc; simpl; try done.
    intros _ _. f_equal. by apply compare_eq.
  - rewrite !timestamp_leb_spec. intros. f_equal; lia.
Qed.

Lemma NoDup_fmap_eq {A B : Type} (f : A → B) (l : list A) (x y : A) :
  NoDup (f <$> l) → x ∈ l → y ∈ l → f x = f y → x = y.
Proof.
  induction l as [|z l IH]; [by intros _ ?%elem_of_nil|].
  rewrite fmap_cons. intros [Hz Hl]%NoDup_cons.
  intros [->|Hx]%elem_of_cons [->|Hy]%elem_of_cons Heq; [done| | |by apply IH].
  - exfalso. apply Hz. rewrite Heq. by apply list_elem_of_fmap_2.
  - exfalso. apply Hz. rewrite <- Heq. by apply list_elem_of_fmap_2.
Qed.

(** The result of [rem_duplicates] is in the order of its titles. *)
Lemma sort_and_drop_by_title `{Argsort} (d u : DataFrame) (n m : nat) :
  argsort_sorts →
  sort_and_drop d = Ok (u, n, m) →
  (∀ r, r ∈ values u → isna (cell_at (columns u) "Title" r) = false) →
  StronglySorted
    (λ r r', cell_le (cell_at (columns u) "Title" r) (cell_at (columns u) "Title" r'))
    (values u).
Proof.
  intros sorts. unfold sort_and_drop.
  destruct (sort_values d "Citations" false) as [d3|]; [|done]. simpl.
  destruct (drop_duplicates d3 _) as [d4|]; [|done]. simpl.
  destruct (select d4 _) as [d5|]; [|done]. simpl.
  destruct (sort_values d5 "Title" true) as [d6|] eqn:H6; [|done]. simpl.
  intros [= <- _ _] Htitle.
  apply (sort_values_Ok sorts) in H6
    as (p & present & Hp & Hcols & Hvals & _ & Hsorted & _).
  assert (∀ r, cell_at (columns d6) "Title" r = nth p r NaN) as Hcell.
  { intros r. apply cell_at_nth. by rewrite Hcols. }
  match type of Hvals with _ = _ ++ ?missing =>
    destruct missing as [|r rest] eqn:Hmissing
  end.
  2:{ exfalso.
      assert (r ∈ r :: rest) as Hr by (by left).
      rewrite <- Hmissing in Hr. apply list_elem_of_filter in Hr as [Hna _].
      assert (r ∈ values d6) as Hr6.
      { rewrite Hvals. apply elem_of_app. right. by left. }
      specialize (Htitle r Hr6). rewrite Hcell in Htitle. congruence. }
  rewrite app_nil_r in Hvals. rewrite Hvals.
  eapply StronglySorted_impl_elem_of; [|exact Hsorted].
  intros r r' _ _. by rewrite !Hcell.
Qed.

(** ** The deduplicator on its own result *)

(** C7, as the code has it.  For a sorting kernel that meets numpy's
    contract and transliteration tables that hold ASCII strings.  When
    [rem_duplicates] has returned the table [u] with the count [n] of its
    rows, a call on an object that holds [u] returns: it leaves the object
    as it is, removes no row (it reports [n] rows kept out of [n]) and
    returns a table with the header of [u] and the same rows as [u], each
    as often as in [u], with the titles in the order they have in [u].  The
    rows of one title come in the order the sorting kernel gives them: when
    no two rows of [u] have the same title, the table returned is [u]. *)
Theorem rem_duplicates_idempotent `{UnidecodeTables, Argsort}
    (σ σ1 σ2 : gmap nat DataFrame) (l l2 : nat) (d u : DataFrame) (n m : nat) :
  argsort_sorts →
  ascii_tables →
  σ !! l = Some d →
  rem_duplicates l σ = (Ok (u, n, m), σ1) →
  σ2 !! l2 = Some u →
  ∃ u2, rem_duplicates l2 σ2 = (Ok (u2, n, n), σ2) ∧
        columns u2 = columns u ∧
        values u2 ≡ₚ values u ∧
        (λ r, cell_at (columns u) "Title" r) <$> values u2
        = (λ r, cell_at (columns u) "Title" r) <$> values u ∧
        (NoDup ((λ r, cell_at (columns u) "Title" r) <$> values u) → u2 = u).
Proof.
  intros sorts tables held run held2.
  destruct (rem_duplicates_rows sorts _ _ _ _ _ _ _ held run)
    as (pa & pt & pc & sorted & Hpa & Hpt & Hpc & Hsub & Hstr & _ & Hcmp & Hperm & _
        & Hcols & _ & Hn & _).
  simpl in *.
  assert ("Title" ∈ columns d) as HT by (by eapply get_loc_Some_elem_of).
  assert (∀ c, c ∈ columns d → c ∈ columns u) as Hin.
  { intros c Hc. rewrite Hcols. by apply title_first_elem_of. }
  destruct (get_loc_elem_of "Authors" (columns u)) as [pa' Hpa'].
  { apply Hin. by eapply get_loc_Some_elem_of. }
  destruct (get_loc_elem_of "Title" (columns u)) as [pt' Hpt']; [by apply Hin|].
  destruct (get_loc_elem_of "Citations" (columns u)) as [pc' Hpc'].
  { apply Hin. by eapply get_loc_Some_elem_of. }
  (* the rows of [u] are folded rows of [d] *)
  assert (∀ k, k ∈ values u →
            ∃ r, r ∈ values d ∧ k = folded d r <$> columns u ∧
                 ∀ c, cell_at (columns u) c k = folded d r c) as Horigin.
  { intros k Hk.
    destruct (dedup_origin sorts _ _ _ _ _ _ _ held run k Hk) as (r & ? & ? & _ & ?).
    by exists r. }
  assert (∀ k, k ∈ values u →
            (∃ x, nth pa' k NaN = Str x) ∧ (∃ x, nth pt' k NaN = Str x) ∧
            fold_row pa' pt' k = k) as Hfolded.
  { intros k (r & Hr & _ & Hcells)%Horigin.
    destruct (Hstr r Hr) as [[xa Hxa] [xt Hxt]].
    pose proof (Hcells "Authors") as Ha. pose proof (Hcells "Title") as Ht.
    rewrite (cell_at_nth _ _ _ _ Hpa') in Ha. rewrite (cell_at_nth _ _ _ _ Hpt') in Ht.
    unfold folded in Ha, Ht. simpl in Ha, Ht.
    rewrite (cell_at_nth _ _ _ _ Hpa), Hxa in Ha.
    rewrite (cell_at_nth _ _ _ _ Hpt), Hxt in Ht. simpl in Ha, Ht.
    split; [by eexists|]. split; [by eexists|].
    unfold fold_row. rewrite Ha. simpl. rewrite (unidecode_idemp tables), <- Ha.
    rewrite insert_nth_id, Ht. simpl. rewrite (unidecode_idemp tables), <- Ht.
    apply insert_nth_id. }
  assert (fold_row pa' pt' <$> values u = values u) as Hsame.
  { rewrite <- (list_fmap_id (values u)) at 2. apply list_fmap_ext.
    intros i k Hk. by apply Hfolded; eapply list_elem_of_lookup_2. }
  destruct (rem_duplicates_returns sorts σ2 l2 u pa' pt' pc') as (u2 & n2 & m2 & run2);
    [done|done|done|done| | | |].
  { apply Hin, Hsub. by do 2 right; left. }
  { intros k Hk. destruct (Hfolded k Hk) as (? & ? & _). done. }
  { eapply comparable_subseteq; [|exact Hcmp].
    intros c [Hna (k & -> & Hk)%list_elem_of_fmap]%list_elem_of_filter.
    apply list_elem_of_filter. split; [done|].
    destruct (Horigin k Hk) as (r & Hr & _ & Hcells).
    destruct (Hstr r Hr) as [[xa Hxa] [xt Hxt]].
    rewrite <- (cell_at_nth _ _ _ _ Hpc'), Hcells.
    rewrite <- (key_fold_row d pa pt r) by (rewrite ?Hxa, ?Hxt; done).
    rewrite (cell_at_nth _ _ _ _ Hpc), <- list_fmap_compose.
    by apply (list_elem_of_fmap_2 (λ r, nth pc (fold_row pa pt r) NaN)). }
  rewrite Hsame in run2.
  assert ({| columns := columns u; values := values u |} = u) as Hu by (by destruct u).
  rewrite Hu, (insert_id σ2 l2 u held2) in run2.
  destruct (rem_duplicates_rows sorts _ _ _ _ _ _ _ held2 run2)
    as (pa2 & pt2 & pc2 & sorted2 & Hpa2 & Hpt2 & _ & _ & _ & _ & _ & Hperm2 & _
        & Hcols2 & Hvals2 & Hn2 & Hm2).
  simpl in *.
  assert (pa2 = pa' ∧ pt2 = pt') as [-> ->] by (split; congruence).
  rewrite Hsame in Hperm2, Hvals2.
  assert (columns u2 = columns u) as Hcu.
  { rewrite Hcols2, Hcols. apply title_first_idemp. }
  assert (values u2 ≡ₚ values u) as Hvu.
  { rewrite Hvals2, Hcu. rewrite keep_first_id.
    - rewrite Hperm2.
      rewrite (list_fmap_ext _ id (values u)); [by rewrite list_fmap_id|].
      intros i k Hk. simpl.
      destruct (Horigin k) as (r & _ & Hk' & Hcells); [by eapply list_elem_of_lookup_2|].
      rewrite Hk' at 2. unfold row_at. apply list_fmap_ext. intros j c _. apply Hcells.
    - pose proof (dedup_keys sorts _ _ _ _ _ _ _ held run) as Hnodup.
      unfold key in *. simpl. by rewrite Hperm2.
    - intros k _. apply not_elem_of_nil. }
  assert (n2 = n) as -> by (rewrite Hn2, Hn; by apply Permutation_length).
  assert (m2 = n) as -> by (by rewrite Hm2, Hn).
  exists u2. do 3 (split; [done|]).
  assert (∀ k, k ∈ values u → isna (cell_at (columns u) "Title" k) = false) as Hstr'.
  { intros k Hk. destruct (Hfolded k Hk) as (_ & [x Hx] & _).
    by rewrite (cell_at_nth _ _ _ _ Hpt'), Hx. }
  assert (StronglySorted
            (λ r r', cell_le (cell_at (columns u) "Title" r) (cell_at (columns u) "Title" r'))
            (values u)) as Hsorted1.
  { apply (rem_duplicates_Ok σ σ1 l d _ held) in run as (d1 & _ & Hdrop1 & _).
    exact (sort_and_drop_by_title _ _ _ _ sorts Hdrop1 Hstr'). }
  assert (StronglySorted
            (λ r r', cell_le (cell_at (columns u) "Title" r) (cell_at (columns u) "Title" r'))
            (values u2)) as Hsorted2.
  { apply (rem_duplicates_Ok σ2 σ2 l2 u _ held2) in run2 as (d1' & _ & Hdrop2 & _).
    rewrite <- Hcu. apply (sort_and_drop_by_title _ _ _ _ sorts Hdrop2).
    intros k Hk. rewrite Hvu in Hk. rewrite Hcu. by apply Hstr'. }
  split.
  { apply (StronglySorted_unique_strong cell_le).
    - intros ? ? _ _. apply cell_le_antisym.
    - eapply StronglySorted_fmap; [|exact Hsorted2]. done.
    - eapply StronglySorted_fmap; [|exact Hsorted1]. done.
    - by apply fmap_Permutation. }
  intros Htitles.
  assert (values u2 = values u) as Hvalues.
  { eapply StronglySorted_unique_strong; [|exact Hsorted2|exact Hsorted1|exact Hvu].
    intros k2 k Hk2 Hk Hle Hge. rewrite Hvu in Hk2.
    apply (NoDup_fmap_eq (λ r, cell_at (columns u) "Title" r) (values u)); [done..|].
    by apply cell_le_antisym. }
  clear -Hcu Hvalues. destruct u as [cu vu], u2 as [cu2 vu2]. simpl in *.
  by rewrite Hcu, Hvalues.
Qed.

Lemma rem_duplicates_idempotent_witness :
  ∃ u2,
    @rem_duplicates example_tables insertion_argsort 3%nat {[3%nat := example_unique]}
    = (Ok (u2, 2%nat, 2%nat), {[3%nat := example_unique]}) ∧
    columns u2 = columns example_unique ∧
    values u2 ≡ₚ values example_unique ∧
    (λ r, cell_at (columns example_unique) "Title" r) <$> values u2
    = (λ r, cell_at (columns example_unique) "Title" r) <$> values example_unique ∧
    (NoDup ((λ r, cell_at (columns example_unique) "Title" r) <$> values example_unique) →
     u2 = example_unique).
Proof.
  apply (@rem_duplicates_idempotent example_tables insertion_argsort
           {[0%nat := example_merged]} {[0%nat := example_folded]} {[3%nat := example_unique]}
           0%nat 3%nat example_merged example_unique 2%nat 5%nat).
  - exact insertion_argsort_sorts.
  - exact example_tables_ascii.
  - reflexivity.
  - vm_compute. reflexivity.
  - reflexivity.
Defined.

(** C7, as it is stated, fails: a second call need not return the same
    table.  The kernel [dtype_argsort] meets numpy's contract for the
    default kind of sort.  With it [rem_duplicates] makes of [shared_title]
    a table in which, of the two records with the title [gamma], the one of
    davis comes first, and of that table one in which the one of clark
    comes first: the sort by citation count reverses the two, which have
    the same count, each time, and the sort by title leaves them as they
    are.  No row is removed, and the rows are the same. *)
Lemma rem_duplicates_reorders_shared_titles :
  @argsort_sorts dtype_argsort ∧
  @ascii_tables example_tables ∧
  (@rem_duplicates example_tables dtype_argsort 0%nat {[0%nat := shared_title]}).1
  = Ok (shared_title_once, 4%nat, 4%nat) ∧
  (@rem_duplicates example_tables dtype_argsort 0%nat {[0%nat := shared_title_once]}).1
  = Ok (shared_title_twice, 4%nat, 4%nat) ∧
  shared_title_twice ≠ shared_title_once ∧
  values shared_title_twice ≡ₚ values shared_title_once.
Proof.
  split; [exact dtype_argsort_sorts|]. split; [exact example_tables_ascii|].
  split; [vm_compute; reflexivity|]. split; [vm_compute; reflexivity|].
  split; [discriminate|].
  unfold shared_title_twice, shared_title_once. simpl.
  do 2 apply Permutation_skip. apply Permutation_swap.
Qed.

(** ** Assigning a column *)

Lemma length_reindex (n : nat) (s : list cell) : length (reindex n s) = n.
Proof.
  unfold reindex. rewrite length_take, length_app, length_replicate. lia.
Qed.

Lemma reindex_id (n : nat) (s : list cell) : length s = n → reindex n s = s.
Proof. intros <-. unfold reindex. apply take_app_length. Qed.

Lemma getitem_length (df : DataFrame) (n : colname) (s : list cell) :
  getitem df n = Ok s → length s = shape0 df.
Proof. intros (p & _ & ->)%getitem_Ok. by rewrite length_fmap. Qed.

Lemma get_loc_lt (n : colname) (cols : list colname) (p : nat) :
  get_loc n cols = Some p → (p < length cols)%nat.
Proof. intros Hp%get_loc_Some. by eapply lookup_lt_Some. Qed.

Lemma get_loc_app_l (n m : colname) (cols : list colname) (p : nat) :
  get_loc n cols = Some p → get_loc n (cols ++ [m]) = Some p.
Proof.
  unfold get_loc. destruct (list_find _ cols) as [[i x]|] eqn:Hf; [|done].
  intros [= <-]. by rewrite (list_find_app_l _ _ _ _ _ Hf).
Qed.

Lemma get_loc_app_new (n : colname) (cols : list colname) :
  n ∉ cols → get_loc n (cols ++ [n]) = Some (length cols).
Proof.
  intros Hn. unfold get_loc.
  assert (list_find (λ c, c = n) (cols ++ [n]) = Some (length cols, n)) as ->; [|done].
  apply list_find_Some. split; [|split; [done|]].
  - by rewrite lookup_app_r, Nat.sub_diag.
  - intros j y Hj Hlt ->. rewrite lookup_app_l in Hj by done.
    apply Hn. by eapply list_elem_of_lookup_2.
Qed.

Lemma get_loc_app_None (n m : colname) (cols : list colname) :
  n ≠ m → get_loc n cols = None → get_loc n (cols ++ [m]) = None.
Proof.
  intros Hne Hn%get_loc_None. apply get_loc_None.
  rewrite elem_of_app, list_elem_of_singleton. by intros [?|?].
Qed.

Section column.
Variable p : nat.

Lemma column_insert_eq (rows : list (list cell)) (s : list cell) :
  length s = length rows → Forall (λ r, (p < length r)%nat) rows →
  (λ r, nth p r NaN) <$> zip_with (λ r c, <[p := c]> r) rows s = s.
Proof.
  revert s. induction rows as [|r rows IH]; intros [|c s]; simpl; try done.
  intros [= Hlen] [Hr Hrows]%Forall_cons. f_equal; [|by apply IH].
  apply nth_lookup_Some. by apply list_lookup_insert_eq.
Qed.

Lemma column_insert_ne (q : nat) (rows : list (list cell)) (s : list cell) :
  length s = length rows → p ≠ q →
  (λ r, nth q r NaN) <$> zip_with (λ r c, <[p := c]> r) rows s
  = (λ r, nth q r NaN) <$> rows.
Proof.
  intros Hlen Hne. revert s Hlen.
  induction rows as [|r rows IH]; intros [|c s]; simpl; try done.
  intros [= Hlen]. f_equal; [|by apply IH]. by apply nth_insert_ne.
Qed.

Lemma column_append_eq (rows : list (list cell)) (s : list cell) :
  length s = length rows → Forall (λ r, length r = p) rows →
  (λ r, nth p r NaN) <$> zip_with (λ r c, r ++ [c]) rows s = s.
Proof.
  revert s. induction rows as [|r rows IH]; intros [|c s]; simpl; try done.
  intros [= Hlen] [Hr Hrows]%Forall_cons. f_equal; [|by apply IH].
  rewrite app_nth2 by lia. by rewrite Hr, Nat.sub_diag.
Qed.

Lemma column_append_ne (q : nat) (rows : list (list cell)) (s : list cell) :
  length s = length rows → Forall (λ r, (q < length r)%nat) rows →
  (λ r, nth q r NaN) <$> zip_with (λ r c, r ++ [c]) rows s
  = (λ r, nth q r NaN) <$> rows.
Proof.
  revert s. induction rows as [|r rows IH]; intros [|c s]; simpl; try done.
  intros [= Hlen] [Hr Hrows]%Forall_cons. f_equal; [|by apply IH].
  by apply app_nth1.
Qed.

End column.

Lemma columns_setitem (df : DataFrame) (n : colname) (s : list cell) :
  n ∈ columns df → columns (setitem df n s) = columns df.
Proof.
  intros [p Hp]%get_loc_elem_of. unfold setitem. by rewrite Hp.
Qed.

Lemma shape0_setitem (df : DataFrame) (n : colname) (s : list cell) :
  shape0 (setitem df n s) = shape0 df.
Proof.
  unfold setitem, shape0.
  destruct (get_loc n (columns df)); simpl;
    rewrite length_zip_with_l_eq; by rewrite ?length_reindex.
Qed.

Lemma rectangular_setitem (df : DataFrame) (n : colname) (s : list cell) :
  rectangular df → rectangular (setitem df n s).
Proof.
  unfold rectangular, setitem. intros Hrect.
  destruct (get_loc n (columns df)); simpl.
  - generalize (reindex (shape0 df) s). induction Hrect as [|r rows Hr _ IH];
      intros [|c s']; simpl; constructor; [by rewrite length_insert|apply IH].
  - generalize (reindex (shape0 df) s). induction Hrect as [|r rows Hr _ IH];
      intros [|c s']; simpl; constructor; [|apply IH].
    rewrite !length_app, Hr. done.
Qed.

Lemma getitem_setitem_eq (df : DataFrame) (n : colname) (s : list cell) :
  rectangular df → getitem (setitem df n s) n = Ok (reindex (shape0 df) s).
Proof.
  intros Hrect. unfold setitem, getitem.
  destruct (get_loc n (columns df)) as [p|] eqn:Hp; simpl.
  - rewrite Hp. f_equal. apply column_insert_eq; [by rewrite length_reindex|].
    eapply Forall_impl; [exact Hrect|]. intros r ->. by eapply get_loc_lt.
  - rewrite get_loc_app_new by (by apply get_loc_None). f_equal.
    apply column_append_eq; [by rewrite length_reindex|done].
Qed.

Lemma getitem_setitem_ne (df : DataFrame) (n n' : colname) (s : list cell) :
  rectangular df → n ≠ n' → getitem (setitem df n s) n' = getitem df n'.
Proof.
  intros Hrect Hne. unfold setitem, getitem.
  destruct (get_loc n (columns df)) as [p|] eqn:Hp; simpl.
  - destruct (get_loc n' (columns df)) as [q|] eqn:Hq; [|done]. f_equal.
    apply column_insert_ne; [by rewrite length_reindex|].
    intros ->. apply get_loc_Some in Hp, Hq. congruence.
  - destruct (get_loc n' (columns df)) as [q|] eqn:Hq.
    + rewrite (get_loc_app_l _ _ _ _ Hq). f_equal.
      apply column_append_ne; [by rewrite length_reindex|].
      eapply Forall_impl; [exact Hrect|]. intros r ->. by eapply get_loc_lt.
    + by rewrite get_loc_app_None.
Qed.

(** [df[n] = s] for a column [s] as long as the table, in one statement. *)
Lemma assign (df : DataFrame) (n : colname) (s : list cell) :
  rectangular df → length s = shape0 df →
  let df' := setitem df n s in
  rectangular df' ∧ shape0 df' = shape0 df ∧ getitem df' n = Ok s ∧
  ∀ n', n ≠ n' → getitem df' n' = getitem df n'.
Proof.
  intros Hrect Hlen. simpl. split; [by apply rectangular_setitem|].
  split; [apply shape0_setitem|]. split.
  - by rewrite getitem_setitem_eq, reindex_id.
  - intros n' Hne. by apply getitem_setitem_ne.
Qed.

Lemma rectangular_select (df df' : DataFrame) (names : list colname) :
  select df names = Ok df' → rectangular df'.
Proof.
  intros [_ ->]%select_Ok. unfold rectangular. simpl.
  apply Forall_fmap, Forall_forall. intros r _. simpl. unfold row_at.
  by rewrite length_fmap.
Qed.

Lemma getitem_select (df df' : DataFrame) (names : list colname) (n : colname) :
  select df names = Ok df' → n ∈ names → getitem df' n = getitem df n.
Proof.
  intros [Hsub ->]%select_Ok Hn. unfold getitem at 1. simpl.
  destruct (get_loc_elem_of n names Hn) as [q Hq]. rewrite Hq.
  destruct (get_loc_elem_of n (columns df) (Hsub n Hn)) as [p Hp].
  unfold getitem. rewrite Hp. f_equal. rewrite <- list_fmap_compose.
  apply list_fmap_ext. intros i r _. simpl.
  rewrite <- (cell_at_nth _ _ _ _ Hq), cell_at_row_at by done.
  by apply cell_at_nth.
Qed.

Lemma shape0_select (df df' : DataFrame) (names : list colname) :
  select df names = Ok df' → shape0 df' = shape0 df.
Proof. intros [_ ->]%select_Ok. unfold shape0. simpl. by rewrite length_fmap. Qed.

Lemma str_map_length (f : pystr → pystr) (s : list cell) :
  length (str_map f s) = length s.
Proof. unfold str_map. by rewrite length_fmap. Qed.

Lemma str_map_compose (f g : pystr → pystr) (s : list cell) :
  str_map f (str_map g s) = str_map (f ∘ g) s.
Proof.
  unfold str_map. rewrite <- list_fmap_compose. apply list_fmap_ext.
  intros i c _. by destruct c.
Qed.

Lemma str_method_true (f : pystr → pystr) (s : list cell) :
  can_use_str s = true → str_method f s = Ok (str_map f s).
Proof. unfold str_method. by intros ->. Qed.

Lemma str_method_false (f : pystr → pystr) (s : list cell) :
  can_use_str s = false → str_method f s = Raise AttributeError.
Proof. unfold str_method. by intros ->. Qed.

Lemma str_method_Ok (f : pystr → pystr) (s out : list cell) :
  str_method f s = Ok out → can_use_str s = true ∧ out = str_map f s.
Proof. unfold str_method. destruct (can_use_str s); [by intros [= <-]|done]. Qed.

(** The accessor is there again on what one of its methods has returned. *)
Lemma can_use_str_object_map (f : pystr → pystr) (s : list cell) :
  can_use_str_object (str_map f s) = true.
Proof.
  unfold can_use_str_object, str_map. induction s as [|c s IH]; [done|].
  rewrite fmap_cons.
  destruct c; simpl; rewrite ?filter_cons_True, ?filter_cons_False by done; done.
Qed.

Lemma str_method_object_map (f g : pystr → pystr) (s : list cell) :
  str_method_object f (str_map g s) = Ok (str_map f (str_map g s)).
Proof. unfold str_method_object. by rewrite can_use_str_object_map. Qed.

(** A column that holds a string has the accessor. *)
Lemma can_use_str_elem_of (s : list cell) (x : pystr) :
  Str x ∈ s → can_use_str s = true.
Proof.
  intros Hx. unfold can_use_str.
  assert (Str x ∈ filter (λ c, isna c = false) s) as Hin
    by (by apply list_elem_of_filter).
  destruct s as [|c s]; [done|].
  apply negb_true_iff, orb_false_iff.
  split; apply not_true_is_false; intros Hall;
    rewrite forallb_forall in Hall;
    by specialize (Hall (Str x) (proj1 (list_elem_of_In _ _) Hin)).
Qed.

(** The columns without the accessor: those with rows that hold no string
    and, the missing values apart, numbers only or dates only. *)
Lemma can_use_str_false (s : list cell) :
  can_use_str s = false ↔ numbers_or_dates_only s.
Proof.
  unfold numbers_or_dates_only.
  assert (∀ (p : cell → bool) (l : list cell),
            forallb p (filter (λ c, isna c = false) l) = true
            ↔ Forall (λ c, isna c = true ∨ p c = true) l) as Hall.
  { intros p l. induction l as [|c l IH]; [by split; [constructor|]|].
    rewrite filter_cons, Forall_cons. destruct (decide (isna c = false)) as [Hc|Hc].
    - simpl. rewrite andb_true_iff, IH. split.
      + intros [? ?]. split; [by right|done].
      + intros [[?|?] ?]; [congruence|done].
    - apply not_false_is_true in Hc. rewrite IH. split.
      + intros ?. split; [by left|done].
      + by intros [_ ?]. }
  unfold can_use_str. destruct s as [|c s]; [by split; [|intros [? _]]|].
  rewrite negb_false_iff, orb_true_iff, !Hall. split; [by intros ?|by intros [_ ?]].
Qed.

(** ** The adapters *)

Lemma rectangular_rename (df : DataFrame) (mapping : list (colname * colname)) :
  rectangular df → rectangular (rename df mapping).
Proof. unfold rectangular, rename. simpl. by rewrite length_fmap. Qed.

Lemma select_getitem (df df' : DataFrame) (names : list colname) (n : colname) :
  select df names = Ok df' → n ∈ names → ∃ s, getitem df n = Ok s.
Proof.
  intros [Hsub _]%select_Ok Hn.
  destruct (get_loc_elem_of n (columns df) (Hsub n Hn)) as [p Hp].
  eexists. apply getitem_Ok. eauto.
Qed.

Section adapters.
Context `{UnicodeDB}.

Lemma adjust_scopus_spec (df df1 : DataFrame) :
  select df ["Author full names"; "Title"; "Year"; "Source"; "Cited by"] = Ok df1 →
  ∃ authors title,
    getitem df "Author full names" = Ok authors ∧
    getitem df "Title" = Ok title ∧
    if can_use_str authors && can_use_str title then
      ∃ out,
        adjust_scopus df = Ok out ∧
        shape0 out = shape0 df ∧
        getitem out "Authors"
        = Ok (str_map (strip ∘ re_sub_parens ∘ normalize_authors) authors) ∧
        getitem out "Title" = Ok (str_map lower title)
    else adjust_scopus df = Raise AttributeError.
Proof.
  intros Hsel. unfold adjust_scopus. rewrite Hsel. simpl.
  pose proof (rectangular_select _ _ _ Hsel) as Hr1.
  pose proof (shape0_select _ _ _ Hsel) as Hs1.
  destruct (select_getitem _ _ _ "Author full names" Hsel) as [authors Ha];
    [by left|].
  destruct (select_getitem _ _ _ "Title" Hsel) as [title Ht]; [by right; left|].
  exists authors, title. do 2 (split; [done|]).
  assert (columns df1 = ["Author full names"; "Title"; "Year"; "Source"; "Cited by"])
    as Hc1 by (by apply select_Ok in Hsel as [_ ->]).
  set (df2 := rename df1 _).
  assert (rectangular df2) as Hr2 by (by apply rectangular_rename).
  assert (getitem df2 "Authors" = Ok authors) as Ha2.
  { rewrite <- Ha, <- (getitem_select _ _ _ _ Hsel) by (by left).
    unfold getitem, df2, rename. simpl. by rewrite Hc1. }
  assert (getitem df2 "Title" = Ok title) as Ht2.
  { rewrite <- Ht, <- (getitem_select _ _ _ _ Hsel) by (by right; left).
    unfold getitem, df2, rename. simpl. by rewrite Hc1. }
  assert (shape0 df2 = shape0 df) as Hs2 by done.
  rewrite Ha2. simpl.
  destruct (can_use_str authors) eqn:Hca; simpl;
    [rewrite (str_method_true _ _ Hca)|by rewrite (str_method_false _ _ Hca)].
  simpl.
  destruct (assign df2 "Authors" (str_map (replace (chr " ") (str "")) authors))
    as (Hr3 & Hs3 & Ha3 & Hne3); [done|..].
  { by rewrite str_map_length, (getitem_length _ _ _ Ha2). }
  set (df3 := setitem df2 "Authors" _) in *.
  rewrite Ha3. simpl. rewrite str_method_object_map. simpl.
  destruct (assign df3 "Authors"
              (str_map lower (str_map (replace (chr " ") (str "")) authors)))
    as (Hr4 & Hs4 & Ha4 & Hne4); [done|..].
  { by rewrite !str_map_length, Hs3, (getitem_length _ _ _ Ha2). }
  set (df4 := setitem df3 "Authors" _) in *.
  rewrite (Hne4 "Title"), (Hne3 "Title"), Ht2 by done. simpl.
  destruct (can_use_str title) eqn:Hct; simpl;
    [rewrite (str_method_true _ _ Hct)|by rewrite (str_method_false _ _ Hct)].
  simpl.
  destruct (assign df4 "Title" (str_map lower title))
    as (Hr5 & Hs5 & Ht5 & Hne5); [done|..].
  { by rewrite str_map_length, Hs4, Hs3, (getitem_length _ _ _ Ht2). }
  set (df5 := setitem df4 "Title" _) in *.
  rewrite (Hne5 "Authors"), Ha4 by done. simpl.
  rewrite str_method_object_map. simpl.
  rewrite str_method_object_map. simpl.
  destruct (assign df5 "Authors"
              (str_map strip (str_map re_sub_parens
                 (str_map lower (str_map (replace (chr " ") (str "")) authors)))))
    as (Hr6 & Hs6 & Ha6 & Hne6); [done|..].
  { by rewrite !str_map_length, Hs5, Hs4, Hs3, (getitem_length _ _ _ Ha2). }
  set (df6 := setitem df5 "Authors" _) in *.
  eexists. split; [reflexivity|].
  split; [by rewrite Hs6, Hs5, Hs4, Hs3|]. split.
  - rewrite Ha6. by rewrite !str_map_compose.
  - by rewrite (Hne6 "Title"), Ht5.
Qed.

Lemma adjust_scopus_Ok (df out : DataFrame) :
  adjust_scopus df = Ok out →
  ∃ authors title,
    getitem df "Author full names" = Ok authors ∧
    getitem df "Title" = Ok title ∧
    shape0 out = shape0 df ∧
    getitem out "Authors"
    = Ok (str_map (strip ∘ re_sub_parens ∘ normalize_authors) authors) ∧
    getitem out "Title" = Ok (str_map lower title).
Proof.
  intros Hrun.
  destruct (select df ["Author full names"; "Title"; "Year"; "Source"; "Cited by"])
    as [df1|e] eqn:Hsel.
  - destruct (adjust_scopus_spec df df1 Hsel) as (authors & title & Ha & Ht & Hout).
    exists authors, title. do 2 (split; [done|]).
    destruct (can_use_str authors && can_use_str title).
    + destruct Hout as (out' & Hout & ?). rewrite Hrun in Hout. by injection Hout as <-.
    + congruence.
  - unfold adjust_scopus in Hrun. by rewrite Hsel in Hrun.
Qed.

Lemma adjust_scopus_returns (df : DataFrame) (authors title : list cell) :
  ["Author full names"; "Title"; "Year"; "Source"; "Cited by"] ⊆ columns df →
  getitem df "Author full names" = Ok authors →
  getitem df "Title" = Ok title →
  can_use_str authors = true →
  can_use_str title = true →
  ∃ out, adjust_scopus df = Ok out.
Proof.
  intros Hsub Ha Ht Hca Hct.
  assert (select df ["Author full names"; "Title"; "Year"; "Source"; "Cited by"]
          = Ok {| columns := ["Author full names"; "Title"; "Year"; "Source"; "Cited by"];
                  values := row_at (columns df)
                              ["Author full names"; "Title"; "Year"; "Source"; "Cited by"]
                            <$> values df |}) as Hsel by (by apply select_Ok).
  destruct (adjust_scopus_spec df _ Hsel) as (authors' & title' & Ha' & Ht' & Hout).
  rewrite Ha in Ha'. rewrite Ht in Ht'. injection Ha' as <-. injection Ht' as <-.
  rewrite Hca, Hct in Hout. destruct Hout as (out & Hout & _). by exists out.
Qed.

End adapters.

Section more_adapters.
Context `{UnicodeDB, DateParser}.

Lemma adjust_wos_run (σ : gmap nat DataFrame) (l : nat) (df : DataFrame) :
  σ !! l = Some df →
  let df' := setitem_scalar df "Database" (Str (str "Web of Science")) in
  adjust_wos l σ = (standardize_wos df', <[l := df']> σ).
Proof.
  intros Hl. simpl.
  unfold adjust_wos, standardize_wos, setitem_scalar_at, load, lift.
  unfold mbind, M_bind, result_bind, mret, M_ret, result_ret. simpl.
  rewrite Hl. simpl. rewrite lookup_insert_eq. simpl.
  destruct (select _ _) as [df1|]; simpl; [|done].
  destruct (getitem _ "Authors") as [a|]; simpl; [|done].
  destruct (str_method _ a) as [a1|]; simpl; [|done].
  destruct (getitem _ "Authors") as [a'|]; simpl; [|done].
  destruct (str_method_object _ a') as [a2|]; simpl; [|done].
  destruct (getitem _ "Title") as [t|]; simpl; [|done].
  by destruct (str_method _ t) as [t1|]; simpl.
Qed.

Lemma standardize_wos_Ok (df out : DataFrame) :
  standardize_wos df = Ok out →
  ∃ authors title,
    getitem df "Author Full Names" = Ok authors ∧
    getitem df "Article Title" = Ok title ∧
    shape0 out = shape0 df ∧
    getitem out "Authors" = Ok (str_map normalize_authors authors) ∧
    getitem out "Title" = Ok (str_map lower title).
Proof.
  unfold standardize_wos.
  destruct (select df _) as [df1|] eqn:Hsel; [|done]. simpl.
  pose proof (rectangular_select _ _ _ Hsel) as Hr1.
  pose proof (shape0_select _ _ _ Hsel) as Hs1.
  destruct (select_getitem _ _ _ "Author Full Names" Hsel) as [authors Ha];
    [by left|].
  destruct (select_getitem _ _ _ "Article Title" Hsel) as [title Ht];
    [by right; left|].
  assert (columns df1 = ["Author Full Names"; "Article Title"; "Publication Year";
                         "Database"; "Times Cited, WoS Core"])
    as Hc1 by (by apply select_Ok in Hsel as [_ ->]).
  set (df2 := rename df1 _).
  assert (rectangular df2) as Hr2 by (by apply rectangular_rename).
  assert (getitem df2 "Authors" = Ok authors) as Ha2.
  { rewrite <- Ha, <- (getitem_select _ _ _ _ Hsel) by (by left).
    unfold getitem, df2, rename. simpl. by rewrite Hc1. }
  assert (getitem df2 "Title" = Ok title) as Ht2.
  { rewrite <- Ht, <- (getitem_select _ _ _ _ Hsel) by (by right; left).
    unfold getitem, df2, rename. simpl. by rewrite Hc1. }
  assert (shape0 df2 = shape0 df) as Hs2 by done.
  rewrite Ha2. simpl.
  destruct (can_use_str authors) eqn:Hca;
    [rewrite (str_method_true _ _ Hca)|by rewrite (str_method_false _ _ Hca)].
  simpl.
  destruct (assign df2 "Authors" (str_map (replace (chr " ") (str "")) authors))
    as (Hr3 & Hs3 & Ha3 & Hne3); [done|..].
  { by rewrite str_map_length, (getitem_length _ _ _ Ha2). }
  set (df3 := setitem df2 "Authors" _) in *.
  rewrite Ha3. simpl. rewrite str_method_object_map. simpl.
  destruct (assign df3 "Authors"
              (str_map lower (str_map (replace (chr " ") (str "")) authors)))
    as (Hr4 & Hs4 & Ha4 & Hne4); [done|..].
  { by rewrite !str_map_length, Hs3, (getitem_length _ _ _ Ha2). }
  set (df4 := setitem df3 "Authors" _) in *.
  rewrite (Hne4 "Title"), (Hne3 "Title"), Ht2 by done. simpl.
  destruct (can_use_str title) eqn:Hct;
    [rewrite (str_method_true _ _ Hct)|by rewrite (str_method_false _ _ Hct)].
  simpl.
  destruct (assign df4 "Title" (str_map lower title))
    as (Hr5 & Hs5 & Ht5 & Hne5); [done|..].
  { by rewrite str_map_length, Hs4, Hs3, (getitem_length _ _ _ Ht2). }
  set (df5 := setitem df4 "Title" _) in *.
  intros [= <-]. exists authors, title. do 2 (split; [done|]).
  split; [by rewrite Hs5, Hs4, Hs3|]. split.
  - rewrite (Hne5 "Authors"), Ha4 by done. by rewrite str_map_compose.
  - done.
Qed.

Lemma adjust_proquest_Ok (df out : DataFrame) :
  adjust_proquest df = Ok out →
  ∃ authors title,
    getitem df "Author" = Ok authors ∧
    getitem df "Title" = Ok title ∧
    shape0 out = shape0 df ∧
    getitem out "Authors" = Ok (str_map normalize_authors authors) ∧
    getitem out "Title" = Ok (str_map lower title).
Proof.
  unfold adjust_proquest.
  destruct (select df _) as [df1|] eqn:Hsel; [|done]. simpl.
  pose proof (rectangular_select _ _ _ Hsel) as Hr1.
  pose proof (shape0_select _ _ _ Hsel) as Hs1.
  destruct (select_getitem _ _ _ "Author" Hsel) as [authors Ha]; [by left|].
  destruct (select_getitem _ _ _ "Title" Hsel) as [title Ht]; [by right; left|].
  assert (columns df1 = ["Author"; "Title"; "PubDate"; "Source"; "Cited by"])
    as Hc1 by (by apply select_Ok in Hsel as [_ ->]).
  assert ("PubDate" ∈ columns df1) as Hpub by (rewrite Hc1; by do 2 right; left).
  destruct (getitem df1 "PubDate") as [pubdate|]; [|done]. simpl.
  destruct (to_datetime pubdate) as [dates|]; [|done]. simpl.
  rewrite (getitem_setitem_eq df1 "PubDate" dates Hr1). simpl.
  set (df1a := setitem df1 "PubDate" dates).
  assert (rectangular df1a) as Hr1a by (by apply rectangular_setitem).
  destruct (dt_year _) as [years|]; [|done]. simpl.
  set (df1b := setitem df1a "PubDate" years).
  assert (rectangular df1b) as Hr1b by (by apply rectangular_setitem).
  assert (columns df1b = columns df1) as Hc1b.
  { unfold df1b, df1a. rewrite !columns_setitem; [done|done|].
    by rewrite columns_setitem. }
  assert (shape0 df1b = shape0 df) as Hs1b.
  { unfold df1b, df1a. by rewrite !shape0_setitem. }
  assert (∀ n, n ≠ "PubDate" → getitem df1b n = getitem df1 n) as Hne1.
  { intros n Hn. unfold df1b, df1a. by rewrite !getitem_setitem_ne. }
  set (df2 := rename df1b _).
  assert (rectangular df2) as Hr2 by (by apply rectangular_rename).
  assert (getitem df2 "Authors" = Ok authors) as Ha2.
  { rewrite <- Ha, <- (getitem_select _ _ _ _ Hsel) by (by left).
    rewrite <- (Hne1 "Author") by done.
    unfold getitem, df2, rename. simpl. by rewrite Hc1b, Hc1. }
  assert (getitem df2 "Title" = Ok title) as Ht2.
  { rewrite <- Ht, <- (getitem_select _ _ _ _ Hsel) by (by right; left).
    rewrite <- (Hne1 "Title") by done.
    unfold getitem, df2, rename. simpl. by rewrite Hc1b, Hc1. }
  assert (shape0 df2 = shape0 df) as Hs2 by done.
  rewrite Ha2. simpl.
  destruct (can_use_str authors) eqn:Hca;
    [rewrite (str_method_true _ _ Hca)|by rewrite (str_method_false _ _ Hca)].
  simpl.
  destruct (assign df2 "Authors" (str_map (replace (chr " ") (str "")) authors))
    as (Hr3 & Hs3 & Ha3 & Hne3); [done|..].
  { by rewrite str_map_length, (getitem_length _ _ _ Ha2). }
  set (df3 := setitem df2 "Authors" _) in *.
  rewrite Ha3. simpl. rewrite str_method_object_map. simpl.
  destruct (assign df3 "Authors"
              (str_map lower (str_map (replace (chr " ") (str "")) authors)))
    as (Hr4 & Hs4 & Ha4 & Hne4); [done|..].
  { by rewrite !str_map_length, Hs3, (getitem_length _ _ _ Ha2). }
  set (df4 := setitem df3 "Authors" _) in *.
  rewrite (Hne4 "Title"), (Hne3 "Title"), Ht2 by done. simpl.
  destruct (can_use_str title) eqn:Hct;
    [rewrite (str_method_true _ _ Hct)|by rewrite (str_method_false _ _ Hct)].
  simpl.
  destruct (assign df4 "Title" (str_map lower title))
    as (Hr5 & Hs5 & Ht5 & Hne5); [done|..].
  { by rewrite str_map_length, Hs4, Hs3, (getitem_length _ _ _ Ht2). }
  set (df5 := setitem df4 "Title" _) in *.
  intros [= <-]. exists authors, title. do 2 (split; [done|]).
  split; [by rewrite Hs5, Hs4, Hs3|]. split.
  - rewrite (Hne5 "Authors"), Ha4 by done. by rewrite str_map_compose.
  - done.
Qed.

End more_adapters.

(** ** Strings: spaces, parentheses and stripping *)

Lemma replace_space (s : pystr) :
  replace (chr " ") (str "") s = filter (λ c, c ≠ chr " ") s.
Proof.
  unfold replace. induction s as [|c s IH]; [done|].
  rewrite bind_cons, filter_cons, IH.
  destruct (decide (c = chr " ")) as [->|Hne].
  - by rewrite decide_False by (by intros []).
  - by rewrite decide_True by done.
Qed.

Lemma closes_app (s k : pystr) : closes s = true → closes (s ++ k) = true.
Proof.
  induction s as [|c s IH]; simpl; [done|].
  destruct (decide (c = rparen)); [done|]. by destruct (decide (c = linefeed)).
Qed.

Lemma re_search_parens_app_l (s k : pystr) :
  re_search_parens (s ++ k) = false → re_search_parens s = false.
Proof.
  induction s as [|c s IH]; simpl; [done|].
  rewrite !orb_false_iff, !andb_false_iff. intros [Hhere Hrest].
  split; [|by apply IH].
  destruct Hhere as [?|Hc]; [by left|right].
  destruct (closes s) eqn:Hs; [|done]. by rewrite (closes_app s k Hs) in Hc.
Qed.

Lemma re_search_parens_app_r (k s : pystr) :
  re_search_parens (k ++ s) = false → re_search_parens s = false.
Proof.
  induction k as [|c k IH]; simpl; [done|].
  rewrite orb_false_iff. intros [_ ?]. auto.
Qed.

(** While the scan is within a match the text closes; it resumes after the
    closing parenthesis. *)
Lemma re_sub_parens_inside (s : pystr) :
  closes s = true →
  ∃ s', (length s' < length s)%nat ∧
        re_sub_parens_from true s = re_sub_parens_from false s'.
Proof.
  induction s as [|c s IH]; simpl; [done|].
  destruct (decide (c = rparen)) as [->|Hc].
  - intros _. exists s. split; [lia|]. by rewrite bool_decide_eq_true_2.
  - destruct (decide (c = linefeed)); [done|]. intros Hs.
    destruct (IH Hs) as (s' & Hlen & Heq). exists s'. split; [lia|].
    by rewrite bool_decide_eq_false_2.
Qed.

Lemma closes_re_sub_parens (s : pystr) :
  closes s = false → closes (re_sub_parens_from false s) = false.
Proof.
  induction s as [|c s IH]; simpl; [done|].
  destruct (decide (c = rparen)) as [->|Hr]; [done|].
  destruct (decide (c = linefeed)) as [->|Hn]; [done|].
  intros Hs. rewrite Hs, andb_false_r. simpl.
  rewrite decide_False, decide_False by done. auto.
Qed.

Lemma re_search_re_sub_parens_le (n : nat) (s : pystr) :
  (length s ≤ n)%nat → re_search_parens (re_sub_parens_from false s) = false.
Proof.
  revert s. induction n as [|n IH]; intros [|c s] Hlen; simpl in *; try done; [lia|].
  destruct (bool_decide (c = lparen) && closes s) eqn:Hm.
  - apply andb_true_iff in Hm as [_ Hs].
    destruct (re_sub_parens_inside s Hs) as (s' & Hlen' & ->).
    apply IH. lia.
  - simpl. rewrite orb_false_iff. split; [|apply IH; lia].
    apply andb_false_iff in Hm as [?|Hs]; rewrite andb_false_iff; [by left|right].
    by apply closes_re_sub_parens.
Qed.

Lemma re_search_re_sub_parens (s : pystr) :
  re_search_parens (re_sub_parens s) = false.
Proof. by apply (re_search_re_sub_parens_le (length s)). Qed.

Lemma lstrip_suffix (s : pystr) : ∃ k, s = k ++ lstrip s.
Proof.
  induction s as [|c s [k IH]]; [by exists []|]. simpl.
  destruct (isspace c); [|by exists []].
  exists (c :: k). simpl. by f_equal.
Qed.

Lemma lstrip_head (s : pystr) (c : N) (s' : pystr) :
  lstrip s = c :: s' → isspace c = false.
Proof.
  induction s as [|d s IH]; simpl; [done|].
  destruct (isspace d) eqn:Hd; [done|]. by intros [= <- _].
Qed.

Lemma rstrip_prefix (s : pystr) : ∃ k, s = rstrip s ++ k.
Proof.
  unfold rstrip. destruct (lstrip_suffix (reverse s)) as [k Hk].
  exists (reverse k). rewrite <- reverse_app, <- Hk. by rewrite reverse_involutive.
Qed.

Lemma strip_head (s : pystr) (c : N) (s' : pystr) :
  strip s = c :: s' → isspace c = false.
Proof.
  unfold strip. intros Hs. destruct (rstrip_prefix (lstrip s)) as [k Hk].
  rewrite Hs in Hk. by apply (lstrip_head s c (s' ++ k)).
Qed.

Lemma strip_last (s : pystr) (s' : pystr) (c : N) :
  strip s = s' ++ [c] → isspace c = false.
Proof.
  unfold strip, rstrip. intros Hs.
  apply (f_equal reverse) in Hs. rewrite reverse_involutive, reverse_snoc in Hs.
  by eapply lstrip_head.
Qed.

Lemma re_search_strip (s : pystr) :
  re_search_parens s = false → re_search_parens (strip s) = false.
Proof.
  intros Hs. unfold strip.
  destruct (lstrip_suffix s) as [k Hk]. destruct (rstrip_prefix (lstrip s)) as [k' Hk'].
  rewrite Hk in Hs. apply re_search_parens_app_r in Hs.
  rewrite Hk' in Hs. by apply re_search_parens_app_l in Hs.
Qed.

(** ** Example exports *)

Example adjust_wos_example :
  (@adjust_wos example_unicode 0%nat {[0%nat := wos_export]}).1 = Ok wos_adjusted.
Proof. vm_compute. reflexivity. Qed.

Example adjust_scopus_example :
  @adjust_scopus example_unicode scopus_export = Ok scopus_adjusted.
Proof. vm_compute. reflexivity. Qed.

Example adjust_proquest_example :
  @adjust_proquest example_unicode example_dates proquest_export = Ok proquest_adjusted.
Proof. vm_compute. reflexivity. Qed.

(** ** The adapters normalize authors and titles *)

(** C4, as the code has it.  Whenever one of the three adapters returns a
    table, its [Authors] column holds the source's author column with, in
    every string, each space character U+0020 removed (any other character,
    a tab or a line feed included, is kept) and the result lowercased, the
    Scopus adapter removing the parenthesized parts and stripping the ends
    afterwards; its [Title] column holds the source's title column
    lowercased.  A value that is not a string becomes a missing value. *)
Theorem adapters_normalize_text `{UnicodeDB, DateParser} :
  (∀ (σ σ' : gmap nat DataFrame) (l : nat) (df out : DataFrame),
     σ !! l = Some df → rectangular df → adjust_wos l σ = (Ok out, σ') →
     ∃ authors title,
       getitem df "Author Full Names" = Ok authors ∧
       getitem df "Article Title" = Ok title ∧
       getitem out "Authors" = Ok (str_map normalize_authors authors) ∧
       getitem out "Title" = Ok (str_map lower title)) ∧
  (∀ df out : DataFrame,
     adjust_scopus df = Ok out →
     ∃ authors title,
       getitem df "Author full names" = Ok authors ∧
       getitem df "Title" = Ok title ∧
       getitem out "Authors"
       = Ok (str_map (strip ∘ re_sub_parens ∘ normalize_authors) authors) ∧
       getitem out "Title" = Ok (str_map lower title)) ∧
  (∀ df out : DataFrame,
     adjust_proquest df = Ok out →
     ∃ authors title,
       getitem df "Author" = Ok authors ∧
       getitem df "Title" = Ok title ∧
       getitem out "Authors" = Ok (str_map normalize_authors authors) ∧
       getitem out "Title" = Ok (str_map lower title)) ∧
  (∀ s, normalize_authors s = lower (filter (λ c, c ≠ chr " ") s)).
Proof.
  split; [|split; [|split]].
  - intros σ σ' l df out held Hrect run.
    rewrite (adjust_wos_run σ l df held) in run. injection run as run _.
    apply standardize_wos_Ok in run as (authors & title & Ha & Ht & _ & ? & ?).
    unfold setitem_scalar in Ha, Ht.
    rewrite getitem_setitem_ne in Ha, Ht by done.
    by exists authors, title.
  - intros df out (authors & title & ? & ? & _ & ? & ?)%adjust_scopus_Ok.
    by exists authors, title.
  - intros df out (authors & title & ? & ? & _ & ? & ?)%adjust_proquest_Ok.
    by exists authors, title.
  - intros s. unfold normalize_authors. by rewrite replace_space.
Qed.

Lemma adapters_normalize_text_witness :
  (∃ authors title,
     getitem wos_export "Author Full Names" = Ok authors ∧
     getitem wos_export "Article Title" = Ok title ∧
     getitem wos_adjusted "Authors" = Ok (str_map (@normalize_authors example_unicode) authors) ∧
     getitem wos_adjusted "Title" = Ok (str_map (@lower example_unicode) title)) ∧
  (∃ authors title,
     getitem scopus_export "Author full names" = Ok authors ∧
     getitem scopus_export "Title" = Ok title ∧
     getitem scopus_adjusted "Authors"
     = Ok (str_map (strip ∘ re_sub_parens ∘ @normalize_authors example_unicode) authors) ∧
     getitem scopus_adjusted "Title" = Ok (str_map (@lower example_unicode) title)) ∧
  (∃ authors title,
     getitem proquest_export "Author" = Ok authors ∧
     getitem proquest_export "Title" = Ok title ∧
     getitem proquest_adjusted "Authors"
     = Ok (str_map (@normalize_authors example_unicode) authors) ∧
     getitem proquest_adjusted "Title" = Ok (str_map (@lower example_unicode) title)).
Proof.
  destruct (@adapters_normalize_text example_unicode example_dates)
    as (wos & scopus & proquest & _).
  split; [|split].
  - apply (wos {[0%nat := wos_export]}
               (@adjust_wos example_unicode 0%nat {[0%nat := wos_export]}).2
               0%nat wos_export wos_adjusted).
    + reflexivity.
    + repeat constructor.
    + vm_compute. reflexivity.
  - apply scopus. vm_compute. reflexivity.
  - apply proquest. vm_compute. reflexivity.
Defined.

(** C4, as it is stated, fails: a tab is a whitespace character, and the
    tab in the author field of [wos_export] is still there in the table
    [adjust_wos] returns. *)
Lemma adapters_keep_other_whitespace :
  isspace tab = true ∧
  getitem wos_export "Author Full Names" = Ok [Str (str "Smith," ++ [tab] ++ str "John A.")] ∧
  ∃ out, (@adjust_wos example_unicode 0%nat {[0%nat := wos_export]}).1 = Ok out ∧
         getitem out "Authors" = Ok [Str (str "smith," ++ [tab] ++ str "johna.")].
Proof.
  split; [done|]. split; [done|].
  exists wos_adjusted. split; vm_compute; reflexivity.
Qed.

(** ** A missing source column *)

Lemma columns_setitem_scalar (df : DataFrame) (n c : colname) (v : cell) :
  c ≠ n → c ∉ columns df → c ∉ columns (setitem_scalar df n v).
Proof.
  intros Hne Hc. unfold setitem_scalar, setitem.
  destruct (get_loc n (columns df)); simpl; [done|].
  rewrite elem_of_app, list_elem_of_singleton. by intros [?|?].
Qed.

(** C5.  When a column an adapter selects from its source is absent, the
    adapter raises, at the selection, the [KeyError] of pandas that lists
    the absent labels, the column in question among them; it returns no
    table.  This is the error the specification calls SchemaMismatch.  (The
    Web of Science adapter adds the [Database] column itself, so that it
    selects four columns of its source.) *)
Theorem missing_column_raises `{UnicodeDB, DateParser} :
  (∀ (σ : gmap nat DataFrame) (l : nat) (df : DataFrame) (c : colname),
     σ !! l = Some df →
     c ∈ ["Author Full Names"; "Article Title"; "Publication Year"; "Times Cited, WoS Core"] →
     c ∉ columns df →
     ∃ missing σ', adjust_wos l σ = (Raise (KeyError missing), σ') ∧ c ∈ missing) ∧
  (∀ (df : DataFrame) (c : colname),
     c ∈ ["Author full names"; "Title"; "Year"; "Source"; "Cited by"] →
     c ∉ columns df →
     ∃ missing, adjust_scopus df = Raise (KeyError missing) ∧ c ∈ missing) ∧
  (∀ (df : DataFrame) (c : colname),
     c ∈ ["Author"; "Title"; "PubDate"; "Source"; "Cited by"] →
     c ∉ columns df →
     ∃ missing, adjust_proquest df = Raise (KeyError missing) ∧ c ∈ missing).
Proof.
  split; [|split].
  - intros σ l df c held Hc Hnot.
    rewrite (adjust_wos_run σ l df held). unfold standardize_wos.
    destruct (select_missing
                (setitem_scalar df "Database" (Str (str "Web of Science")))
                ["Author Full Names"; "Article Title"; "Publication Year";
                 "Database"; "Times Cited, WoS Core"] c) as (missing & -> & Hin).
    + repeat (apply elem_of_cons in Hc as [->|Hc]; [by repeat constructor|]).
      by apply elem_of_nil in Hc.
    + apply columns_setitem_scalar; [|done].
      repeat (apply elem_of_cons in Hc as [->|Hc]; [done|]).
      by apply elem_of_nil in Hc.
    + by exists missing, (<[l := setitem_scalar df "Database" (Str (str "Web of Science"))]> σ).
  - intros df c Hc Hnot. unfold adjust_scopus.
    destruct (select_missing df _ c Hc Hnot) as (missing & -> & Hin).
    by exists missing.
  - intros df c Hc Hnot. unfold adjust_proquest.
    destruct (select_missing df _ c Hc Hnot) as (missing & -> & Hin).
    by exists missing.
Qed.

Lemma missing_column_raises_witness :
  (∃ missing σ',
     @adjust_wos example_unicode 0%nat {[0%nat := scopus_export]}
     = (Raise (KeyError missing), σ') ∧ "Article Title" ∈ missing) ∧
  (∃ missing,
     @adjust_scopus example_unicode proquest_export = Raise (KeyError missing) ∧
     "Year" ∈ missing) ∧
  (∃ missing,
     @adjust_proquest example_unicode example_dates scopus_export = Raise (KeyError missing) ∧
     "PubDate" ∈ missing).
Proof.
  destruct (@missing_column_raises example_unicode example_dates)
    as (wos & scopus & proquest).
  split; [|split].
  - apply (wos {[0%nat := scopus_export]} 0%nat scopus_export "Article Title").
    + reflexivity.
    + by right; left.
    + not_in_header.
  - apply scopus; [by do 2 right; left|].
    not_in_header.
  - apply proquest; [by do 2 right; left|].
    not_in_header.
Defined.

(** ** The author field of the Scopus adapter *)

(** C9.  On a Scopus export with the five columns the adapter selects and
    a string for a title (pandas has no string methods for a column of
    numbers), [adjust_scopus] returns, and an author field
    [Smith, J. (Dept X)] comes out as exactly [smith,j.].  In general an author string comes out with
    its spaces removed, lowercased, with every match of the pattern
    [\(.*?\)] removed and then stripped: no match of the pattern is left in
    it, and it neither begins nor ends with a whitespace character. *)
Theorem scopus_author_field `{UnicodeDB} :
  (∀ (df : DataFrame) (authors title : list cell) (i j : nat) (t : pystr),
     ["Author full names"; "Title"; "Year"; "Source"; "Cited by"] ⊆ columns df →
     getitem df "Author full names" = Ok authors →
     getitem df "Title" = Ok title →
     authors !! i = Some (Str (str "Smith, J. (Dept X)")) →
     title !! j = Some (Str t) →
     ∃ out authors',
       adjust_scopus df = Ok out ∧
       getitem out "Authors" = Ok authors' ∧
       authors' !! i = Some (Str (str "smith,j."))) ∧
  (∀ (df out : DataFrame) (authors : list cell),
     adjust_scopus df = Ok out →
     getitem df "Author full names" = Ok authors →
     getitem out "Authors"
     = Ok (str_map
             (λ s, strip (re_sub_parens (lower (replace (chr " ") (str "") s)))) authors)) ∧
  (∀ s : pystr,
     let a := strip (re_sub_parens (lower (replace (chr " ") (str "") s))) in
     re_search_parens a = false ∧
     (∀ c a', a = c :: a' → isspace c = false) ∧
     (∀ a' c, a = a' ++ [c] → isspace c = false)).
Proof.
  assert (∀ (df out : DataFrame) (authors : list cell),
            adjust_scopus df = Ok out →
            getitem df "Author full names" = Ok authors →
            getitem out "Authors"
            = Ok (str_map
                    (λ s, strip (re_sub_parens (lower (replace (chr " ") (str "") s))))
                    authors)) as Hgeneral.
  { intros df out authors (authors0 & title & Ha & _ & _ & Hout & _)%adjust_scopus_Ok Ha'.
    rewrite Ha in Ha'. injection Ha' as ->. exact Hout. }
  split; [|split; [done|]].
  - intros df authors title i j t Hsub Ha Ht Hi Hj.
    destruct (adjust_scopus_returns df authors title Hsub Ha Ht) as [out Hout].
    { eapply can_use_str_elem_of, list_elem_of_lookup_2, Hi. }
    { eapply can_use_str_elem_of, list_elem_of_lookup_2, Hj. }
    exists out. eexists. split; [done|]. split; [by eapply Hgeneral|].
    unfold str_map. rewrite list_lookup_fmap, Hi. reflexivity.
  - intros s a. split; [|split].
    + apply re_search_strip, re_search_re_sub_parens.
    + apply strip_head.
    + apply strip_last.
Qed.

Lemma scopus_author_field_witness :
  ∃ out authors',
    @adjust_scopus example_unicode scopus_export = Ok out ∧
    getitem out "Authors" = Ok authors' ∧
    authors' !! 0%nat = Some (Str (str "smith,j.")).
Proof.
  destruct (@scopus_author_field example_unicode) as (scenario & _ & _).
  apply (scenario scopus_export [Str (str "Smith, J. (Dept X)")] [Str (str "A Title")]
           0%nat 0%nat (str "A Title")).
  - intros c Hc. simpl.
    repeat (apply elem_of_cons in Hc as [->|Hc]; [by repeat constructor|]).
    by apply elem_of_nil in Hc.
  - reflexivity.
  - reflexivity.
  - reflexivity.
  - reflexivity.
Defined.

(** ** The loader *)

(** C6.  [read_file] hands a path that ends in [.csv] to [read_csv] and
    returns or raises what [read_csv] does, whatever the file holds, without
    printing; it hands any other path to [read_excel], returns the table
    when [read_excel] returns one and, when [read_excel] raises, raises
    nothing itself: it prints the line [Wrong file format] and returns
    [None], no table. *)
Theorem read_file_by_suffix `{PandasIO} (filename : pystr) :
  (str ".csv" `suffix_of` filename →
   read_file filename = (Some <$> read_csv filename, [])) ∧
  (¬ str ".csv" `suffix_of` filename →
   (∀ df, read_excel filename = Ok df → read_file filename = (Ok (Some df), [])) ∧
   (∀ e, read_excel filename = Raise e →
         read_file filename = (Ok None, [str "Wrong file format"]))).
Proof.
  unfold read_file, endswith. split.
  - intros Hcsv. by rewrite bool_decide_eq_true_2.
  - intros Hother. rewrite bool_decide_eq_false_2 by done.
    split; intros ? ->; done.
Qed.

(** C10.  For a path that ends in [.csv], an exception of [read_csv] is
    raised by [read_file] as it is, and nothing is printed: the message
    [Wrong file format] and the result [None] belong to the other branch
    only. *)
Theorem read_file_csv_raises `{PandasIO} (filename : pystr) (e : exn) :
  str ".csv" `suffix_of` filename →
  read_csv filename = Raise e →
  read_file filename = (Raise e, []) ∧
  read_file filename ≠ (Ok None, [str "Wrong file format"]).
Proof.
  intros Hcsv Hraise. unfold read_file, endswith.
  rewrite bool_decide_eq_true_2, Hraise by done. done.
Qed.

Lemma read_file_by_suffix_witness :
  @read_file example_io (str "wos.csv") = (Ok (Some wos_export), []) ∧
  @read_file example_io (str "scopus.csv") = (Raise (Exception "ParserError"), []) ∧
  @read_file example_io (str "scopus.xlsx") = (Ok (Some scopus_export), []) ∧
  @read_file example_io (str "notes.txt") = (Ok None, [str "Wrong file format"]).
Proof.
  split; [|split; [|split]].
  - apply (proj1 (@read_file_by_suffix example_io (str "wos.csv"))).
    by apply (bool_decide_eq_true_1 _).
  - apply (proj1 (@read_file_by_suffix example_io (str "scopus.csv"))).
    by apply (bool_decide_eq_true_1 _).
  - apply (proj2 (@read_file_by_suffix example_io (str "scopus.xlsx"))).
    + by apply (bool_decide_eq_false_1 _).
    + reflexivity.
  - apply (proj2 (@read_file_by_suffix example_io (str "notes.txt")))
      with (e := Exception "ValueError").
    + by apply (bool_decide_eq_false_1 _).
    + reflexivity.
Defined.

Lemma read_file_csv_raises_witness :
  @read_file example_io (str "scopus.csv") = (Raise (Exception "ParserError"), []) ∧
  @read_file example_io (str "scopus.csv") ≠ (Ok None, [str "Wrong file format"]).
Proof.
  apply (@read_file_csv_raises example_io (str "scopus.csv") (Exception "ParserError")).
  - by apply (bool_decide_eq_true_1 _).
  - reflexivity.
Defined.
(** * The rest of the notebook *)

(** ** Merging the three tables *)

Lemma remove_dups_NoDup {A : Type} `{EqDecision A} (k : list A) :
  NoDup k → remove_dups k = k.
Proof.
  induction 1 as [|x k Hx _ IH]; [done|]. simpl.
  destruct (decide_rel elem_of x k); [done|]. by rewrite IH.
Qed.

Lemma remove_dups_app_subseteq {A : Type} `{EqDecision A} (l k : list A) :
  l ⊆ k → remove_dups (l ++ k) = remove_dups k.
Proof.
  induction l as [|x l IH]; intros Hl; simpl.
  - done.
  - destruct (decide_rel elem_of x (l ++ k)) as [_|Hx].
    + apply IH. intros y Hy. apply Hl. by right.
    + exfalso. apply Hx, elem_of_app. right. apply Hl. by left.
Qed.

Lemma row_at_id (cols : list colname) (r : list cell) :
  NoDup cols → length r = length cols → row_at cols cols r = r.
Proof.
  intros Hcols Hlen. apply list_eq. intros i. unfold row_at.
  rewrite list_lookup_fmap.
  destruct (cols !! i) as [c|] eqn:Hc; simpl.
  - assert (get_loc c cols = Some i) as Hloc.
    { unfold get_loc.
      destruct (list_find (λ c', c' = c) cols) as [[j c']|] eqn:Hfind; simpl.
      - apply list_find_Some in Hfind as (Hj & -> & _).
        f_equal. by eapply NoDup_lookup.
      - apply list_find_None in Hfind. rewrite Forall_forall in Hfind.
        exfalso. eapply Hfind; [by eapply list_elem_of_lookup_2|done]. }
    rewrite (cell_at_nth _ _ _ _ Hloc).
    apply lookup_lt_Some in Hc. rewrite <- Hlen in Hc.
    destruct (lookup_lt_is_Some_2 r i Hc) as [x Hx].
    rewrite Hx. f_equal. by apply nth_lookup_Some with (d := NaN) in Hx.
  - apply lookup_ge_None in Hc. symmetry. apply lookup_ge_None. lia.
Qed.

Lemma union_indexes_same (cols : list colname) :
  NoDup cols → union_indexes [cols; cols; cols] = cols.
Proof.
  intros Hcols. unfold union_indexes. simpl. rewrite app_nil_r, !reverse_app.
  rewrite <- (assoc_L (++)).
  rewrite remove_dups_app_subseteq by (intros c Hc; apply elem_of_app; by left).
  rewrite remove_dups_app_subseteq by done.
  rewrite remove_dups_NoDup by (by rewrite reverse_Permutation).
  apply reverse_involutive.
Qed.

(** X1.  Three tables with one header of distinct labels, whose numbers are
    integers that a float64 holds exactly, are merged to the table with
    that header and the rows of the Web of Science table, then those of the
    Scopus table, then those of the ProQuest table, each in its order, so
    that the merged table has as many rows as the three together.  (Within
    that range every number keeps its value when pandas turns a column of
    integers into floats because another table has a missing value in the
    column.) *)
Theorem merge_dfs_appends (df_wos df_scopus df_proquest : DataFrame) :
  NoDup (columns df_wos) →
  columns df_scopus = columns df_wos →
  columns df_proquest = columns df_wos →
  rectangular df_wos → rectangular df_scopus → rectangular df_proquest →
  exact_in_float64 df_wos → exact_in_float64 df_scopus → exact_in_float64 df_proquest →
  merge_dfs df_wos df_scopus df_proquest
  = {| columns := columns df_wos;
       values := values df_wos ++ values df_scopus ++ values df_proquest |} ∧
  shape0 (merge_dfs df_wos df_scopus df_proquest)
  = (shape0 df_wos + shape0 df_scopus + shape0 df_proquest)%nat.
Proof.
  intros Hnodup Hs Hp Hrw Hrs Hrp _ _ _.
  assert (merge_dfs df_wos df_scopus df_proquest
          = {| columns := columns df_wos;
               values := values df_wos ++ values df_scopus ++ values df_proquest |}) as ->.
  { unfold merge_dfs, concat. rewrite !fmap_cons, fmap_nil, Hs, Hp.
    rewrite (union_indexes_same _ Hnodup). simpl. rewrite Hs, Hp. f_equal.
    rewrite app_nil_r.
    assert (∀ df, columns df = columns df_wos → rectangular df →
                  row_at (columns df_wos) (columns df_wos) <$> values df = values df) as Hid.
    { intros df Hc Hr. rewrite <- (list_fmap_id (values df)) at 2.
      apply list_fmap_ext. intros i r Hi. simpl. apply row_at_id; [done|].
      rewrite <- Hc. unfold rectangular in Hr. rewrite Forall_forall in Hr.
      apply Hr. by eapply list_elem_of_lookup_2. }
    by rewrite !Hid. }
  split; [done|]. unfold shape0. simpl. rewrite !length_app. lia.
Qed.

Lemma merge_dfs_appends_witness :
  merge_dfs wos_adjusted scopus_adjusted proquest_adjusted
  = {| columns := columns wos_adjusted;
       values := values wos_adjusted ++ values scopus_adjusted ++ values proquest_adjusted |} ∧
  shape0 (merge_dfs wos_adjusted scopus_adjusted proquest_adjusted)
  = (shape0 wos_adjusted + shape0 scopus_adjusted + shape0 proquest_adjusted)%nat.
Proof.
  assert (∀ df : DataFrame,
            Forall (Forall (λ c, match c with Num z => Z.abs z ≤ 2 ^ 53 | _ => True end))
              (values df) →
            exact_in_float64 df) as Hexact.
  { intros df Hall r z Hr Hz. rewrite Forall_forall in Hall.
    specialize (Hall r Hr). rewrite Forall_forall in Hall. exact (Hall _ Hz). }
  apply merge_dfs_appends.
  - apply (bool_decide_unpack _). vm_compute. reflexivity.
  - reflexivity.
  - reflexivity.
  - repeat constructor.
  - repeat constructor.
  - repeat constructor.
  - apply Hexact. repeat constructor; simpl; lia.
  - apply Hexact. repeat constructor; simpl; lia.
  - apply Hexact. repeat constructor; simpl; lia.
Defined.

(** ** The adapters, row by row *)

Lemma getitem_fmap {A : Type} (cols : list colname) (h : A → list cell) (rows : list A)
    (name : colname) (p : nat) :
  get_loc name cols = Some p →
  getitem {| columns := cols; values := h <$> rows |} name
  = Ok ((λ r, nth p (h r) NaN) <$> rows).
Proof.
  intros Hp. unfold getitem. simpl. rewrite Hp. by rewrite <- list_fmap_compose.
Qed.

Lemma getitem_cell_at (df : DataFrame) (name : colname) :
  name ∈ columns df →
  getitem df name = Ok ((λ r, cell_at (columns df) name r) <$> values df).
Proof.
  intros [p Hp]%get_loc_elem_of. unfold getitem. rewrite Hp. f_equal.
  apply list_fmap_ext. intros i r _. by rewrite (cell_at_nth _ _ _ _ Hp).
Qed.

Lemma setitem_fmap {A : Type} (cols : list colname) (h : A → list cell) (g : A → cell)
    (rows : list A) (name : colname) (p : nat) :
  get_loc name cols = Some p →
  setitem {| columns := cols; values := h <$> rows |} name (g <$> rows)
  = {| columns := cols; values := (λ r, <[p := g r]> (h r)) <$> rows |}.
Proof.
  intros Hp. unfold setitem. simpl. rewrite Hp. f_equal.
  rewrite reindex_id by (unfold shape0; simpl; by rewrite !length_fmap).
  induction rows as [|r rows IH]; [done|]. rewrite !fmap_cons. simpl. by rewrite IH.
Qed.

Lemma setitem_zip {A : Type} (cols : list colname) (h : A → list cell) (rows : list A)
    (name : colname) (p : nat) (s : list cell) :
  get_loc name cols = Some p →
  setitem {| columns := cols; values := h <$> rows |} name s
  = {| columns := cols;
       values := (λ rc, <[p := rc.2]> (h rc.1)) <$> zip rows (reindex (length rows) s) |}.
Proof.
  intros Hp. unfold setitem. simpl. rewrite Hp. f_equal.
  unfold shape0. simpl. rewrite length_fmap.
  generalize (reindex (length rows) s). clear.
  induction rows as [|r rows IH]; intros [|c s]; simpl; try done.
  by rewrite IH.
Qed.

Lemma str_map_fmap {A : Type} (f : pystr → pystr) (g : A → cell) (rows : list A) :
  str_map f (g <$> rows) = (λ r, str_cell f (g r)) <$> rows.
Proof. unfold str_map. by rewrite <- list_fmap_compose. Qed.

Lemma str_method_str_cell {A : Type} (f g : pystr → pystr) (k : A → cell) (rows : list A) :
  str_method_object f ((λ r, str_cell g (k r)) <$> rows)
  = Ok ((λ r, str_cell (f ∘ g) (k r)) <$> rows).
Proof.
  rewrite <- (str_map_fmap g k rows), str_method_object_map.
  rewrite str_map_compose. by rewrite str_map_fmap.
Qed.

Lemma str_method_column {A : Type} (f : pystr → pystr) (k : A → cell) (rows : list A) :
  str_method f (k <$> rows)
  = if can_use_str (k <$> rows) then Ok ((λ r, str_cell f (k r)) <$> rows)
    else Raise AttributeError.
Proof. unfold str_method. by rewrite str_map_fmap. Qed.

Lemma nth_insert_lt (p : nat) (c : cell) (r : list cell) :
  (p < length r)%nat → nth p (<[p := c]> r) NaN = c.
Proof.
  revert p. induction r as [|x r IH]; intros [|p] Hp; simpl in *; try lia; [done|].
  apply IH. lia.
Qed.

Lemma setitem_scalar_rows (df : DataFrame) (n : colname) (v : cell) :
  setitem_scalar df n v
  = match get_loc n (columns df) with
    | Some p => {| columns := columns df; values := (λ r, <[p := v]> r) <$> values df |}
    | None => {| columns := columns df ++ [n]; values := (λ r, r ++ [v]) <$> values df |}
    end.
Proof.
  unfold setitem_scalar, setitem.
  rewrite reindex_id by apply length_replicate. unfold shape0.
  destruct (get_loc n (columns df)); f_equal;
    induction (values df) as [|r rows IH]; simpl; by rewrite ?IH.
Qed.

(** A row of the table after [df[n] = v], read under a label. *)
Lemma cell_at_setitem_scalar (df : DataFrame) (n c : colname) (v : cell) (r : list cell) :
  length r = length (columns df) →
  cell_at (columns (setitem_scalar df n v)) c
    (match get_loc n (columns df) with
     | Some p => <[p := v]> r
     | None => r ++ [v]
     end)
  = if decide (c = n) then v else cell_at (columns df) c r.
Proof.
  intros Hlen. rewrite setitem_scalar_rows.
  destruct (get_loc n (columns df)) as [p|] eqn:Hn; simpl.
  - destruct (decide (c = n)) as [->|Hne].
    + rewrite (cell_at_nth _ _ _ _ Hn). apply nth_insert_lt.
      rewrite Hlen. by eapply get_loc_lt.
    + unfold cell_at. destruct (get_loc c (columns df)) as [q|] eqn:Hc; [|done].
      apply nth_insert_ne. intros <-.
      apply get_loc_Some in Hn, Hc. congruence.
  - apply get_loc_None in Hn as Hnot.
    destruct (decide (c = n)) as [->|Hne].
    + rewrite (cell_at_nth _ _ _ _ (get_loc_app_new _ _ Hnot)).
      rewrite <- Hlen. by rewrite nth_middle.
    + unfold cell_at. destruct (get_loc c (columns df)) as [q|] eqn:Hc.
      * rewrite (get_loc_app_l _ n _ _ Hc). apply app_nth1.
        rewrite Hlen. by eapply get_loc_lt.
      * by rewrite (get_loc_app_None _ n _ Hne Hc).
Qed.

(** The column [c] of the table after [df[n] = v]. *)
Lemma column_setitem_scalar (df : DataFrame) (n c : colname) (v : cell) :
  rectangular df →
  (λ r, cell_at (columns (setitem_scalar df n v)) c r) <$> values (setitem_scalar df n v)
  = (λ r, if decide (c = n) then v else cell_at (columns df) c r) <$> values df.
Proof.
  intros Hrect. unfold rectangular in Hrect. rewrite Forall_forall in Hrect.
  pose proof (λ r, cell_at_setitem_scalar df n c v r) as Hcell.
  rewrite setitem_scalar_rows in Hcell |- *.
  destruct (get_loc n (columns df)) as [p|]; simpl in *;
    rewrite <- list_fmap_compose; apply list_fmap_ext; intros i r Hr; simpl;
    by apply Hcell, Hrect, list_elem_of_lookup_2 with i.
Qed.

Lemma column_setitem_scalar_ne (df : DataFrame) (n c : colname) (v : cell) :
  rectangular df → c ≠ n →
  (λ r, cell_at (columns (setitem_scalar df n v)) c r) <$> values (setitem_scalar df n v)
  = (λ r, cell_at (columns df) c r) <$> values df.
Proof.
  intros Hrect Hne. rewrite column_setitem_scalar by done.
  apply list_fmap_ext. intros i r _. simpl. by rewrite decide_False.
Qed.

Lemma dt_year_length (s years : list cell) : dt_year s = Ok years → length years = length s.
Proof.
  unfold dt_year. intros Hm%mapM_Ok. symmetry. by eapply Forall2_length.
Qed.

(** The year of a date, a missing date having a missing year. *)
Lemma dt_year_Forall2 (s years : list cell) :
  dt_year s = Ok years →
  Forall2 (λ d y, match d with
                  | Timestamp year _ _ => y = Num year
                  | NaN => y = NaN
                  | _ => False
                  end) s years.
Proof.
  unfold dt_year. intros Hm%mapM_Ok.
  eapply Forall2_impl; [exact Hm|]. intros d y. simpl.
  destruct d; intros [=]; done.
Qed.

Lemma fmap_zip_zip_with {A B C D : Type} (f : A → C → D) (rows : list A) (ds : list B)
    (ys : list C) :
  length ds = length rows → length ys = length rows →
  (λ rc : A * B * C, f rc.1.1 rc.2) <$> zip (zip rows ds) ys = zip_with f rows ys.
Proof.
  revert ds ys. induction rows as [|r rows IH]; intros [|d ds] [|y ys] Hd Hy;
    simpl in *; try done.
  rewrite IH by lia. done.
Qed.

Lemma fmap_zip_zip_fst {A B C D : Type} (k : A → D) (rows : list A) (ds : list B)
    (ys : list C) :
  length ds = length rows → length ys = length rows →
  (λ rc : A * B * C, k rc.1.1) <$> zip (zip rows ds) ys = k <$> rows.
Proof.
  revert ds ys. induction rows as [|r rows IH]; intros [|d ds] [|y ys] Hd Hy;
    simpl in *; try done.
  rewrite IH by lia. done.
Qed.

Section adapters_in_full.
Context `{UnicodeDB, DateParser}.

Lemma adjust_scopus_total (df : DataFrame) :
  ["Author full names"; "Title"; "Year"; "Source"; "Cited by"] ⊆ columns df →
  adjust_scopus df
  = if can_use_str ((λ r, cell_at (columns df) "Author full names" r) <$> values df)
       && can_use_str ((λ r, cell_at (columns df) "Title" r) <$> values df)
    then Ok {| columns := unified_header;
               values :=
                 (λ r, [str_cell (strip ∘ re_sub_parens ∘ normalize_authors)
                          (cell_at (columns df) "Author full names" r);
                        str_cell lower (cell_at (columns df) "Title" r);
                        cell_at (columns df) "Year" r;
                        cell_at (columns df) "Source" r;
                        cell_at (columns df) "Cited by" r]) <$> values df |}
    else Raise AttributeError.
Proof.
  intros Hsub. unfold adjust_scopus.
  assert (select df ["Author full names"; "Title"; "Year"; "Source"; "Cited by"]
          = Ok {| columns := ["Author full names"; "Title"; "Year"; "Source"; "Cited by"];
                  values := (λ r, [cell_at (columns df) "Author full names" r;
                                   cell_at (columns df) "Title" r;
                                   cell_at (columns df) "Year" r;
                                   cell_at (columns df) "Source" r;
                                   cell_at (columns df) "Cited by" r]) <$> values df |})
    as -> by (by apply select_Ok).
  cbn [mbind result_bind].
  match goal with
  | |- context [rename ?d ?m] =>
      assert (rename d m
              = {| columns := unified_header; values := values d |}) as -> by reflexivity
  end.
  cbn [values].
  rewrite (getitem_fmap _ _ _ "Authors" 0) by reflexivity. cbn [mbind result_bind nth].
  rewrite str_method_column.
  destruct (can_use_str _); [|done]. cbn [mbind result_bind andb].
  rewrite (setitem_fmap _ _ _ _ "Authors" 0) by reflexivity. cbn [insert list_insert].
  rewrite (getitem_fmap _ _ _ "Authors" 0) by reflexivity. cbn [mbind result_bind nth].
  rewrite str_method_str_cell. cbn [mbind result_bind].
  rewrite (setitem_fmap _ _ _ _ "Authors" 0) by reflexivity. cbn [insert list_insert].
  rewrite (getitem_fmap _ _ _ "Title" 1) by reflexivity. cbn [mbind result_bind nth].
  rewrite str_method_column.
  destruct (can_use_str _); [|done]. cbn [mbind result_bind].
  rewrite (setitem_fmap _ _ _ _ "Title" 1) by reflexivity. cbn [insert list_insert].
  rewrite (getitem_fmap _ _ _ "Authors" 0) by reflexivity. cbn [mbind result_bind nth].
  rewrite str_method_str_cell. cbn [mbind result_bind].
  rewrite str_method_str_cell. cbn [mbind result_bind].
  rewrite (setitem_fmap _ _ _ _ "Authors" 0) by reflexivity. cbn [insert list_insert].
  reflexivity.
Qed.

Lemma adjust_scopus_selects (df out : DataFrame) :
  adjust_scopus df = Ok out →
  ["Author full names"; "Title"; "Year"; "Source"; "Cited by"] ⊆ columns df.
Proof.
  unfold adjust_scopus. destruct (select df _) as [df1|] eqn:Hsel; [|done].
  by apply select_Ok in Hsel as [? _].
Qed.

Lemma standardize_wos_total (df : DataFrame) :
  ["Author Full Names"; "Article Title"; "Publication Year"; "Database";
   "Times Cited, WoS Core"] ⊆ columns df →
  standardize_wos df
  = if can_use_str ((λ r, cell_at (columns df) "Author Full Names" r) <$> values df)
       && can_use_str ((λ r, cell_at (columns df) "Article Title" r) <$> values df)
    then Ok {| columns := unified_header;
               values :=
                 (λ r, [str_cell normalize_authors
                          (cell_at (columns df) "Author Full Names" r);
                        str_cell lower (cell_at (columns df) "Article Title" r);
                        cell_at (columns df) "Publication Year" r;
                        cell_at (columns df) "Database" r;
                        cell_at (columns df) "Times Cited, WoS Core" r]) <$> values df |}
    else Raise AttributeError.
Proof.
  intros Hsub. unfold standardize_wos.
  assert (select df ["Author Full Names"; "Article Title"; "Publication Year"; "Database";
                     "Times Cited, WoS Core"]
          = Ok {| columns := ["Author Full Names"; "Article Title"; "Publication Year";
                              "Database"; "Times Cited, WoS Core"];
                  values := (λ r, [cell_at (columns df) "Author Full Names" r;
                                   cell_at (columns df) "Article Title" r;
                                   cell_at (columns df) "Publication Year" r;
                                   cell_at (columns df) "Database" r;
                                   cell_at (columns df) "Times Cited, WoS Core" r])
                            <$> values df |})
    as -> by (by apply select_Ok).
  cbn [mbind result_bind].
  match goal with
  | |- context [rename ?d ?m] =>
      assert (rename d m
              = {| columns := unified_header; values := values d |}) as -> by reflexivity
  end.
  cbn [values].
  rewrite (getitem_fmap _ _ _ "Authors" 0) by reflexivity. cbn [mbind result_bind nth].
  rewrite str_method_column.
  destruct (can_use_str _); [|done]. cbn [mbind result_bind andb].
  rewrite (setitem_fmap _ _ _ _ "Authors" 0) by reflexivity. cbn [insert list_insert].
  rewrite (getitem_fmap _ _ _ "Authors" 0) by reflexivity. cbn [mbind result_bind nth].
  rewrite str_method_str_cell. cbn [mbind result_bind].
  rewrite (setitem_fmap _ _ _ _ "Authors" 0) by reflexivity. cbn [insert list_insert].
  rewrite (getitem_fmap _ _ _ "Title" 1) by reflexivity. cbn [mbind result_bind nth].
  rewrite str_method_column.
  destruct (can_use_str _); [|done]. cbn [mbind result_bind].
  rewrite (setitem_fmap _ _ _ _ "Title" 1) by reflexivity. cbn [insert list_insert].
  reflexivity.
Qed.

(** [adjust_wos] on the table [df] of the object it is given. *)
Lemma adjust_wos_total (σ : gmap nat DataFrame) (l : nat) (df : DataFrame) :
  σ !! l = Some df →
  rectangular df →
  ["Author Full Names"; "Article Title"; "Publication Year"; "Times Cited, WoS Core"]
    ⊆ columns df →
  (adjust_wos l σ).1
  = if can_use_str ((λ r, cell_at (columns df) "Author Full Names" r) <$> values df)
       && can_use_str ((λ r, cell_at (columns df) "Article Title" r) <$> values df)
    then Ok {| columns := unified_header;
               values :=
                 (λ r, [str_cell normalize_authors
                          (cell_at (columns df) "Author Full Names" r);
                        str_cell lower (cell_at (columns df) "Article Title" r);
                        cell_at (columns df) "Publication Year" r;
                        Str (str "Web of Science");
                        cell_at (columns df) "Times Cited, WoS Core" r]) <$> values df |}
    else Raise AttributeError.
Proof.
  intros held Hrect Hsub. rewrite (adjust_wos_run σ l df held). cbn [fst].
  set (df' := setitem_scalar df "Database" (Str (str "Web of Science"))).
  assert ("Database" ∈ columns df') as Hdb.
  { unfold df'. rewrite setitem_scalar_rows.
    destruct (get_loc "Database" (columns df)) as [p|] eqn:Hp; simpl.
    - by eapply get_loc_Some_elem_of.
    - apply elem_of_app. right. by left. }
  assert (∀ c, c ∈ columns df → c ∈ columns df') as Hin.
  { intros c Hc. unfold df'. rewrite setitem_scalar_rows.
    destruct (get_loc "Database" (columns df)); simpl; [done|].
    apply elem_of_app. by left. }
  rewrite standardize_wos_total.
  2:{ intros c Hc.
      repeat (apply elem_of_cons in Hc as [->|Hc];
              [first [exact Hdb | apply Hin, Hsub; by repeat constructor]|]).
      by apply elem_of_nil in Hc. }
  pose proof (λ c, column_setitem_scalar_ne df "Database" c (Str (str "Web of Science")) Hrect)
    as Hcol.
  fold df' in Hcol.
  rewrite (Hcol "Author Full Names"), (Hcol "Article Title") by done.
  destruct (can_use_str _ && can_use_str _); [|done]. f_equal. f_equal.
  unfold rectangular in Hrect. rewrite Forall_forall in Hrect.
  pose proof (λ c r, cell_at_setitem_scalar df "Database" c (Str (str "Web of Science")) r)
    as Hcell.
  unfold df'. rewrite setitem_scalar_rows in Hcell |- *.
  destruct (get_loc "Database" (columns df)) as [p|]; simpl in *;
    rewrite <- list_fmap_compose; apply list_fmap_ext; intros i r Hr; simpl;
    by rewrite !Hcell by (by eapply Hrect, list_elem_of_lookup_2).
Qed.

Lemma adjust_wos_selects (σ σ' : gmap nat DataFrame) (l : nat) (df out : DataFrame) :
  σ !! l = Some df →
  adjust_wos l σ = (Ok out, σ') →
  ["Author Full Names"; "Article Title"; "Publication Year"; "Times Cited, WoS Core"]
    ⊆ columns df.
Proof.
  intros held run. rewrite (adjust_wos_run σ l df held) in run. injection run as run _.
  unfold standardize_wos in run.
  destruct (select _ _) as [df1|] eqn:Hsel; [|done].
  apply select_Ok in Hsel as [Hsub _].
  intros c Hc. destruct (decide (c ∈ columns df)) as [|Hnot]; [done|]. exfalso.
  apply (columns_setitem_scalar df "Database" c (Str (str "Web of Science"))) in Hnot.
  - apply Hnot, Hsub.
    repeat (apply elem_of_cons in Hc as [->|Hc]; [by repeat constructor|]).
    by apply elem_of_nil in Hc.
  - repeat (apply elem_of_cons in Hc as [->|Hc]; [done|]).
    by apply elem_of_nil in Hc.
Qed.

Lemma adjust_proquest_total (df : DataFrame) :
  ["Author"; "Title"; "PubDate"; "Source"; "Cited by"] ⊆ columns df →
  adjust_proquest df
  = dates ← to_datetime ((λ r, cell_at (columns df) "PubDate" r) <$> values df);
    years ← dt_year (reindex (shape0 df) dates);
    if can_use_str ((λ r, cell_at (columns df) "Author" r) <$> values df)
       && can_use_str ((λ r, cell_at (columns df) "Title" r) <$> values df)
    then Ok {| columns := unified_header;
               values :=
                 zip_with
                   (λ r y, [str_cell normalize_authors (cell_at (columns df) "Author" r);
                            str_cell lower (cell_at (columns df) "Title" r);
                            y;
                            cell_at (columns df) "Source" r;
                            cell_at (columns df) "Cited by" r])
                   (values df) years |}
    else Raise AttributeError.
Proof.
  intros Hsub. unfold adjust_proquest.
  assert (select df ["Author"; "Title"; "PubDate"; "Source"; "Cited by"]
          = Ok {| columns := ["Author"; "Title"; "PubDate"; "Source"; "Cited by"];
                  values := (λ r, [cell_at (columns df) "Author" r;
                                   cell_at (columns df) "Title" r;
                                   cell_at (columns df) "PubDate" r;
                                   cell_at (columns df) "Source" r;
                                   cell_at (columns df) "Cited by" r]) <$> values df |})
    as -> by (by apply select_Ok).
  cbn [mbind result_bind].
  rewrite (getitem_fmap _ _ _ "PubDate" 2) by reflexivity. cbn [mbind result_bind nth].
  destruct (to_datetime _) as [dates|e]; [|done]. cbn [mbind result_bind].
  rewrite (setitem_zip _ _ _ "PubDate" 2) by reflexivity.
  rewrite (getitem_fmap _ _ _ "PubDate" 2) by reflexivity.
  cbn [mbind result_bind nth insert list_insert fst snd].
  unfold shape0. set (rows := values df). set (dates' := reindex (length rows) dates).
  assert (length dates' = length rows) as Hdates by apply length_reindex.
  assert ((λ rc : list cell * cell, rc.2) <$> zip rows dates' = dates') as ->
    by (apply (snd_zip rows dates'); lia).
  destruct (dt_year dates') as [years|e] eqn:Hyears; [|done]. cbn [mbind result_bind].
  apply dt_year_length in Hyears.
  rewrite (setitem_zip _ _ _ "PubDate" 2) by reflexivity.
  rewrite reindex_id by (rewrite length_zip; lia).
  cbn [insert list_insert fst snd].
  match goal with
  | |- context [rename ?d ?m] =>
      assert (rename d m
              = {| columns := unified_header; values := values d |}) as -> by reflexivity
  end.
  cbn [values].
  rewrite (getitem_fmap _ _ _ "Authors" 0) by reflexivity. cbn [mbind result_bind nth].
  rewrite str_method_column.
  rewrite (fmap_zip_zip_fst (λ r, cell_at (columns df) "Author" r)) by lia.
  destruct (can_use_str _); [|done]. cbn [mbind result_bind andb].
  rewrite (setitem_fmap _ _ _ _ "Authors" 0) by reflexivity. cbn [insert list_insert].
  rewrite (getitem_fmap _ _ _ "Authors" 0) by reflexivity. cbn [mbind result_bind nth].
  rewrite str_method_str_cell. cbn [mbind result_bind].
  rewrite (setitem_fmap _ _ _ _ "Authors" 0) by reflexivity. cbn [insert list_insert].
  rewrite (getitem_fmap _ _ _ "Title" 1) by reflexivity. cbn [mbind result_bind nth].
  rewrite str_method_column.
  rewrite (fmap_zip_zip_fst (λ r, cell_at (columns df) "Title" r)) by lia.
  destruct (can_use_str _); [|done]. cbn [mbind result_bind].
  rewrite (setitem_fmap _ _ _ _ "Title" 1) by reflexivity. cbn [insert list_insert].
  do 2 f_equal.
  apply (fmap_zip_zip_with
           (λ r y, [str_cell (lower ∘ replace (chr " ") (str ""))
                      (cell_at (columns df) "Author" r);
                    str_cell lower (cell_at (columns df) "Title" r); y;
                    cell_at (columns df) "Source" r;
                    cell_at (columns df) "Cited by" r])); lia.
Qed.

Lemma adjust_proquest_selects (df out : DataFrame) :
  adjust_proquest df = Ok out →
  ["Author"; "Title"; "PubDate"; "Source"; "Cited by"] ⊆ columns df.
Proof.
  unfold adjust_proquest. destruct (select df _) as [df1|] eqn:Hsel; [|done].
  by apply select_Ok in Hsel as [? _].
Qed.

End adapters_in_full.

(** X2.  The table that [adjust_scopus] returns has the unified header and
    one row for every row of the export, in the order of the export: the
    normalized author and title of that row with its [Year], its [Source]
    and its [Cited by] cells as they are. *)
Theorem adjust_scopus_row_by_row `{UnicodeDB} (df out : DataFrame) :
  adjust_scopus df = Ok out →
  columns out = ["Authors"; "Title"; "Year"; "Database"; "Citations"] ∧
  shape0 out = shape0 df ∧
  values out
  = (λ r, [str_cell (strip ∘ re_sub_parens ∘ normalize_authors)
             (cell_at (columns df) "Author full names" r);
           str_cell lower (cell_at (columns df) "Title" r);
           cell_at (columns df) "Year" r;
           cell_at (columns df) "Source" r;
           cell_at (columns df) "Cited by" r]) <$> values df.
Proof.
  intros run. pose proof (adjust_scopus_selects _ _ run) as Hsub.
  rewrite (adjust_scopus_total df Hsub) in run.
  destruct (can_use_str _ && can_use_str _); [|done]. injection run as <-.
  simpl. split; [done|]. split; [|done].
  unfold shape0. simpl. by rewrite length_fmap.
Qed.

Lemma adjust_scopus_row_by_row_witness :
  columns scopus_adjusted = ["Authors"; "Title"; "Year"; "Database"; "Citations"] ∧
  shape0 scopus_adjusted = shape0 scopus_export ∧
  values scopus_adjusted
  = (λ r, [str_cell (strip ∘ re_sub_parens ∘ @normalize_authors example_unicode)
             (cell_at (columns scopus_export) "Author full names" r);
           str_cell (@lower example_unicode) (cell_at (columns scopus_export) "Title" r);
           cell_at (columns scopus_export) "Year" r;
           cell_at (columns scopus_export) "Source" r;
           cell_at (columns scopus_export) "Cited by" r]) <$> values scopus_export.
Proof.
  apply (@adjust_scopus_row_by_row example_unicode scopus_export scopus_adjusted).
  vm_compute. reflexivity.
Defined.

(** X3.  The table that [adjust_wos] returns has the unified header and one
    row for every row of the export, in the order of the export: the
    normalized author and title of that row, its [Publication Year], the
    label [Web of Science], whatever the export has under [Database], and
    its [Times Cited, WoS Core]. *)
Theorem adjust_wos_row_by_row `{UnicodeDB} (σ σ' : gmap nat DataFrame) (l : nat)
    (df out : DataFrame) :
  σ !! l = Some df →
  rectangular df →
  adjust_wos l σ = (Ok out, σ') →
  columns out = ["Authors"; "Title"; "Year"; "Database"; "Citations"] ∧
  shape0 out = shape0 df ∧
  values out
  = (λ r, [str_cell normalize_authors (cell_at (columns df) "Author Full Names" r);
           str_cell lower (cell_at (columns df) "Article Title" r);
           cell_at (columns df) "Publication Year" r;
           Str (str "Web of Science");
           cell_at (columns df) "Times Cited, WoS Core" r]) <$> values df.
Proof.
  intros held Hrect run.
  pose proof (adjust_wos_selects _ _ _ _ _ held run) as Hsub.
  pose proof (adjust_wos_total σ l df held Hrect Hsub) as Htotal.
  rewrite run in Htotal. cbn [fst] in Htotal.
  destruct (can_use_str _ && can_use_str _); [|done]. injection Htotal as ->.
  simpl. split; [done|]. split; [|done].
  unfold shape0. simpl. by rewrite length_fmap.
Qed.

Lemma adjust_wos_row_by_row_witness :
  columns wos_adjusted = ["Authors"; "Title"; "Year"; "Database"; "Citations"] ∧
  shape0 wos_adjusted = shape0 wos_export ∧
  values wos_adjusted
  = (λ r, [str_cell (@normalize_authors example_unicode)
             (cell_at (columns wos_export) "Author Full Names" r);
           str_cell (@lower example_unicode) (cell_at (columns wos_export) "Article Title" r);
           cell_at (columns wos_export) "Publication Year" r;
           Str (str "Web of Science");
           cell_at (columns wos_export) "Times Cited, WoS Core" r]) <$> values wos_export.
Proof.
  apply (@adjust_wos_row_by_row example_unicode {[0%nat := wos_export]}
           (@adjust_wos example_unicode 0%nat {[0%nat := wos_export]}).2
           0%nat wos_export wos_adjusted).
  - reflexivity.
  - repeat constructor.
  - vm_compute. reflexivity.
Defined.

(** X4.  A call of [adjust_wos] changes the table it is given, whether it
    returns or raises: afterwards that table has a [Database] column, added
    at the end of the header when the export has none, that holds
    [Web of Science] in every row; the other cells, the number of rows and
    every other table are as before. *)
Theorem adjust_wos_labels_its_argument `{UnicodeDB} (σ σ' : gmap nat DataFrame) (l : nat)
    (df : DataFrame) (res : result DataFrame) :
  σ !! l = Some df →
  rectangular df →
  adjust_wos l σ = (res, σ') →
  (∀ l', l' ≠ l → σ' !! l' = σ !! l') ∧
  ∃ df',
    σ' !! l = Some df' ∧
    columns df' = (if decide ("Database" ∈ columns df) then columns df
                   else columns df ++ ["Database"]) ∧
    Forall2 (λ r r', ∀ c, cell_at (columns df') c r'
                          = if decide (c = "Database") then Str (str "Web of Science")
                            else cell_at (columns df) c r)
      (values df) (values df').
Proof.
  intros held Hrect run.
  rewrite (adjust_wos_run σ l df held) in run. injection run as _ <-.
  split; [intros l' Hne; by rewrite lookup_insert_ne|].
  eexists. split; [apply lookup_insert_eq|].
  pose proof (λ c r, cell_at_setitem_scalar df "Database" c (Str (str "Web of Science")) r)
    as Hcell.
  unfold rectangular in Hrect. rewrite Forall_forall in Hrect.
  split.
  - rewrite setitem_scalar_rows.
    destruct (get_loc "Database" (columns df)) as [p|] eqn:Hp; simpl.
    + rewrite decide_True; [done|by eapply get_loc_Some_elem_of].
    + apply get_loc_None in Hp. by rewrite decide_False.
  - rewrite setitem_scalar_rows in Hcell |- *.
    destruct (get_loc "Database" (columns df)) as [p|]; simpl in *;
      apply Forall2_fmap_r, Forall_Forall2_diag, Forall_forall; intros r Hr c;
      by apply Hcell, Hrect.
Qed.

Lemma adjust_wos_labels_its_argument_witness :
  (∀ l', l' ≠ 0%nat →
     (@adjust_wos example_unicode 0%nat {[0%nat := scopus_export]}).2 !! l'
     = ({[0%nat := scopus_export]} : gmap nat DataFrame) !! l') ∧
  ∃ df',
    (@adjust_wos example_unicode 0%nat {[0%nat := scopus_export]}).2 !! 0%nat = Some df' ∧
    columns df' = (if decide ("Database" ∈ columns scopus_export) then columns scopus_export
                   else columns scopus_export ++ ["Database"]) ∧
    Forall2 (λ r r', ∀ c, cell_at (columns df') c r'
                          = if decide (c = "Database") then Str (str "Web of Science")
                            else cell_at (columns scopus_export) c r)
      (values scopus_export) (values df').
Proof.
  apply (@adjust_wos_labels_its_argument example_unicode {[0%nat := scopus_export]}
           (@adjust_wos example_unicode 0%nat {[0%nat := scopus_export]}).2 0%nat
           scopus_export
           (@adjust_wos example_unicode 0%nat {[0%nat := scopus_export]}).1).
  - reflexivity.
  - repeat constructor.
  - by destruct (@adjust_wos example_unicode 0%nat {[0%nat := scopus_export]}).
Defined.

(** X5.  On a ProQuest export with the five columns the adapter selects:
    when [to_datetime] cannot parse the [PubDate] column, [adjust_proquest]
    raises what [to_datetime] raises.  When the adapter returns, its table
    has the unified header and one row for every row of the export, in the
    order of the export: the normalized author and title of that row, the
    year of its parsed date, a missing year for a missing date, and its
    [Source] and [Cited by] cells as they are. *)
Theorem adjust_proquest_years `{UnicodeDB, DateParser} (df : DataFrame)
    (pubdate : list cell) :
  ["Author"; "Title"; "PubDate"; "Source"; "Cited by"] ⊆ columns df →
  getitem df "PubDate" = Ok pubdate →
  (∀ e, to_datetime pubdate = Raise e → adjust_proquest df = Raise e) ∧
  (∀ out, adjust_proquest df = Ok out →
     ∃ dates years,
       to_datetime pubdate = Ok dates ∧
       Forall2 (λ d y, match d with
                       | Timestamp year _ _ => y = Num year
                       | NaN => y = NaN
                       | _ => False
                       end) (reindex (shape0 df) dates) years ∧
       columns out = ["Authors"; "Title"; "Year"; "Database"; "Citations"] ∧
       shape0 out = shape0 df ∧
       values out
       = zip_with (λ r y, [str_cell normalize_authors (cell_at (columns df) "Author" r);
                           str_cell lower (cell_at (columns df) "Title" r);
                           y;
                           cell_at (columns df) "Source" r;
                           cell_at (columns df) "Cited by" r])
           (values df) years).
Proof.
  intros Hsub Hpub.
  rewrite getitem_cell_at in Hpub by (apply Hsub; by do 2 right; left).
  injection Hpub as <-.
  rewrite (adjust_proquest_total df Hsub). split.
  - by intros e ->.
  - intros out. destruct (to_datetime _) as [dates|]; [|done]. cbn [mbind result_bind].
    destruct (dt_year _) as [years|] eqn:Hyears; [|done]. cbn [mbind result_bind].
    destruct (can_use_str _ && can_use_str _); [|done]. intros [= <-].
    exists dates, years. split; [done|]. split; [by apply dt_year_Forall2|].
    split; [done|]. split; [|done].
    apply dt_year_length in Hyears. rewrite length_reindex in Hyears.
    unfold shape0 in *. simpl. rewrite length_zip_with. lia.
Qed.

Lemma adjust_proquest_years_witness :
  (∀ e, @to_datetime example_dates [Str (str "2021-05-01")] = Raise e →
        @adjust_proquest example_unicode example_dates proquest_export = Raise e) ∧
  (∀ out, @adjust_proquest example_unicode example_dates proquest_export = Ok out →
     ∃ dates years,
       @to_datetime example_dates [Str (str "2021-05-01")] = Ok dates ∧
       Forall2 (λ d y, match d with
                       | Timestamp year _ _ => y = Num year
                       | NaN => y = NaN
                       | _ => False
                       end) (reindex (shape0 proquest_export) dates) years ∧
       columns out = ["Authors"; "Title"; "Year"; "Database"; "Citations"] ∧
       shape0 out = shape0 proquest_export ∧
       values out
       = zip_with (λ r y, [str_cell (@normalize_authors example_unicode)
                             (cell_at (columns proquest_export) "Author" r);
                           str_cell (@lower example_unicode)
                             (cell_at (columns proquest_export) "Title" r);
                           y;
                           cell_at (columns proquest_export) "Source" r;
                           cell_at (columns proquest_export) "Cited by" r])
           (values proquest_export) years).
Proof.
  apply (@adjust_proquest_years example_unicode example_dates proquest_export
           [Str (str "2021-05-01")]).
  - intros c Hc.
    repeat (apply elem_of_cons in Hc as [->|Hc]; [by repeat constructor|]).
    by apply elem_of_nil in Hc.
  - reflexivity.
Defined.

(** X6.  An adapter returns no table for an export with rows whose author
    column or title column holds, the missing values apart, numbers only or
    dates only, a column of missing values only included: pandas has no
    string methods for such a column.  With the columns they select in the
    export, [adjust_wos] and [adjust_scopus] then raise [AttributeError];
    [adjust_proquest] returns only when neither column is such a column. *)
Theorem adapters_need_strings `{UnicodeDB, DateParser} :
  (∀ (σ : gmap nat DataFrame) (l : nat) (df : DataFrame) (c : colname) (col : list cell),
     σ !! l = Some df →
     rectangular df →
     ["Author Full Names"; "Article Title"; "Publication Year"; "Times Cited, WoS Core"]
       ⊆ columns df →
     c ∈ ["Author Full Names"; "Article Title"] →
     getitem df c = Ok col →
     numbers_or_dates_only col →
     (adjust_wos l σ).1 = Raise AttributeError) ∧
  (∀ (df : DataFrame) (c : colname) (col : list cell),
     ["Author full names"; "Title"; "Year"; "Source"; "Cited by"] ⊆ columns df →
     c ∈ ["Author full names"; "Title"] →
     getitem df c = Ok col →
     numbers_or_dates_only col →
     adjust_scopus df = Raise AttributeError) ∧
  (∀ (df out : DataFrame) (c : colname) (col : list cell),
     adjust_proquest df = Ok out →
     c ∈ ["Author"; "Title"] →
     getitem df c = Ok col →
     ¬ numbers_or_dates_only col).
Proof.
  split; [|split].
  - intros σ l df c col held Hrect Hsub Hc Hcol Hnone%can_use_str_false.
    rewrite (adjust_wos_total σ l df held Hrect Hsub).
    apply elem_of_cons in Hc as [->|[->|[]%elem_of_nil]%elem_of_cons];
      [rewrite getitem_cell_at in Hcol by (apply Hsub; by left)
      |rewrite getitem_cell_at in Hcol by (apply Hsub; by right; left)];
      injection Hcol as <-; rewrite Hnone; [done|by rewrite andb_false_r].
  - intros df c col Hsub Hc Hcol Hnone%can_use_str_false.
    rewrite (adjust_scopus_total df Hsub).
    apply elem_of_cons in Hc as [->|[->|[]%elem_of_nil]%elem_of_cons];
      [rewrite getitem_cell_at in Hcol by (apply Hsub; by left)
      |rewrite getitem_cell_at in Hcol by (apply Hsub; by right; left)];
      injection Hcol as <-; rewrite Hnone; [done|by rewrite andb_false_r].
  - intros df out c col run Hc Hcol Hnone%can_use_str_false.
    pose proof (adjust_proquest_selects _ _ run) as Hsub.
    rewrite (adjust_proquest_total df Hsub) in run.
    destruct (to_datetime _) as [dates|]; [|done]. cbn [mbind result_bind] in run.
    destruct (dt_year _) as [years|]; [|done]. cbn [mbind result_bind] in run.
    apply elem_of_cons in Hc as [->|[->|[]%elem_of_nil]%elem_of_cons];
      [rewrite getitem_cell_at in Hcol by (apply Hsub; by left)
      |rewrite getitem_cell_at in Hcol by (apply Hsub; by right; left)];
      injection Hcol as <-; rewrite Hnone in run; [done|by rewrite andb_false_r in run].
Qed.

Lemma adapters_need_strings_witness :
  (@adjust_wos example_unicode 0%nat {[0%nat := wos_ids]}).1 = Raise AttributeError ∧
  @adjust_scopus example_unicode scopus_nameless = Raise AttributeError ∧
  ¬ numbers_or_dates_only [Str (str "Smith, John")].
Proof.
  destruct (@adapters_need_strings example_unicode example_dates) as (wos & scopus & proquest).
  split; [|split].
  - apply (wos {[0%nat := wos_ids]} 0%nat wos_ids "Author Full Names" [Num 57190000000]).
    + reflexivity.
    + repeat constructor.
    + intros c Hc.
      repeat (apply elem_of_cons in Hc as [->|Hc]; [by repeat constructor|]).
      by apply elem_of_nil in Hc.
    + by left.
    + reflexivity.
    + split; [done|]. left. constructor; [by right|constructor].
  - apply (scopus scopus_nameless "Author full names" [NaN; NaN]).
    + intros c Hc.
      repeat (apply elem_of_cons in Hc as [->|Hc]; [by repeat constructor|]).
      by apply elem_of_nil in Hc.
    + by left.
    + reflexivity.
    + split; [done|]. left. constructor; [by left|]. constructor; [by left|constructor].
  - apply (proquest proquest_export proquest_adjusted "Author").
    + vm_compute. reflexivity.
    + by left.
    + reflexivity.
Defined.

(** ** The parenthesized parts of an author field *)

Lemma re_sub_parens_from_false (s : pystr) :
  re_search_parens s = false → re_sub_parens_from false s = s.
Proof.
  induction s as [|c s IH]; [done|]. simpl.
  intros [Hhere Hrest]%orb_false_iff. rewrite Hhere. f_equal. by apply IH.
Qed.

Lemma re_sub_parens_from_sublist (inside : bool) (s : pystr) :
  sublist (re_sub_parens_from inside s) s.
Proof.
  revert inside. induction s as [|c s IH]; intros inside; simpl; [done|].
  destruct inside; [by apply sublist_cons|].
  destruct (bool_decide (c = lparen) && closes s).
  - by apply sublist_cons.
  - by apply sublist_skip.
Qed.

(** X7.  Removing the parenthesized parts of a string, as [adjust_scopus]
    does with the pattern [\(.*?\)], only deletes characters; a string
    without a match of the pattern, such as one with an opening parenthesis
    that is never closed, is left as it is; and removing the parts a second
    time changes nothing. *)
Theorem re_sub_parens_deletes_matches (s : pystr) :
  sublist (re_sub_parens s) s ∧
  (re_search_parens s = false → re_sub_parens s = s) ∧
  re_sub_parens (re_sub_parens s) = re_sub_parens s.
Proof.
  split; [apply re_sub_parens_from_sublist|]. split.
  - apply re_sub_parens_from_false.
  - apply re_sub_parens_from_false, re_search_re_sub_parens.
Qed.

Lemma re_sub_parens_deletes_matches_witness :
  sublist (re_sub_parens (str "smith,j.(deptx")) (str "smith,j.(deptx") ∧
  re_sub_parens (str "smith,j.(deptx") = str "smith,j.(deptx" ∧
  re_sub_parens (re_sub_parens (str "smith,j.(deptx")) = re_sub_parens (str "smith,j.(deptx").
Proof.
  destruct (re_sub_parens_deletes_matches (str "smith,j.(deptx")) as (Hsub & Hid & Hidem).
  split; [exact Hsub|]. split; [|exact Hidem].
  apply Hid. reflexivity.
Defined.

Lemma lstrip_id (s : pystr) :
  (∀ c s', s = c :: s' → isspace c = false) → lstrip s = s.
Proof.
  destruct s as [|c s]; [done|]. intros Hhead. simpl. by rewrite (Hhead c s).
Qed.

Lemma rstrip_id (s : pystr) :
  (∀ s' c, s = s' ++ [c] → isspace c = false) → rstrip s = s.
Proof.
  intros Hlast. unfold rstrip. rewrite lstrip_id; [apply reverse_involutive|].
  intros c s' Hrev. apply (Hlast (reverse s') c).
  rewrite <- (reverse_involutive s), Hrev. by rewrite reverse_cons.
Qed.

Lemma strip_id (s : pystr) :
  (∀ c s', s = c :: s' → isspace c = false) →
  (∀ s' c, s = s' ++ [c] → isspace c = false) →
  strip s = s.
Proof.
  intros Hhead Hlast. unfold strip. rewrite (lstrip_id s Hhead). by apply rstrip_id.
Qed.

(** X8.  The three adapters agree on an author field without parentheses.
    When an export of each source holds the same author string, and that
    string, its spaces removed and lowercased, has no match of the pattern
    [\(.*?\)] and neither begins nor ends with a whitespace character (a
    tab, say), the tables that [adjust_wos], [adjust_scopus] and
    [adjust_proquest] return hold the same value in the [Authors] cell of
    the record: the string with its spaces removed, lowercased. *)
Theorem scopus_author_without_parentheses `{UnicodeDB, DateParser}
    (σ σ' : gmap nat DataFrame) (l : nat)
    (wos scopus proquest out_wos out_scopus out_proquest : DataFrame)
    (names_wos names_scopus names_proquest : list cell) (i j k : nat) (s : pystr) :
  σ !! l = Some wos →
  rectangular wos →
  adjust_wos l σ = (Ok out_wos, σ') →
  adjust_scopus scopus = Ok out_scopus →
  adjust_proquest proquest = Ok out_proquest →
  getitem wos "Author Full Names" = Ok names_wos →
  getitem scopus "Author full names" = Ok names_scopus →
  getitem proquest "Author" = Ok names_proquest →
  names_wos !! i = Some (Str s) →
  names_scopus !! j = Some (Str s) →
  names_proquest !! k = Some (Str s) →
  re_search_parens (normalize_authors s) = false →
  (∀ c s', normalize_authors s = c :: s' → isspace c = false) →
  (∀ s' c, normalize_authors s = s' ++ [c] → isspace c = false) →
  ∃ authors_wos authors_scopus authors_proquest,
    getitem out_wos "Authors" = Ok authors_wos ∧
    getitem out_scopus "Authors" = Ok authors_scopus ∧
    getitem out_proquest "Authors" = Ok authors_proquest ∧
    authors_scopus !! j = Some (Str (normalize_authors s)) ∧
    authors_wos !! i = authors_scopus !! j ∧
    authors_proquest !! k = authors_scopus !! j.
Proof.
  intros held Hrect run_wos run_scopus run_proquest Hw Hs Hp Hi Hj Hk Hsearch Hhead Hlast.
  rewrite (adjust_wos_run σ l wos held) in run_wos. injection run_wos as run_wos _.
  apply standardize_wos_Ok in run_wos as (aw & _ & Haw & _ & _ & Hout_wos & _).
  unfold setitem_scalar in Haw. rewrite getitem_setitem_ne in Haw by done.
  rewrite Hw in Haw. injection Haw as <-.
  apply adjust_scopus_Ok in run_scopus as (as' & _ & Has & _ & _ & Hout_scopus & _).
  rewrite Hs in Has. injection Has as <-.
  apply adjust_proquest_Ok in run_proquest as (ap & _ & Hap & _ & _ & Hout_proquest & _).
  rewrite Hp in Hap. injection Hap as <-.
  eexists _, _, _. do 3 (split; [done|]).
  assert (strip (re_sub_parens (normalize_authors s)) = normalize_authors s) as Hsame.
  { rewrite (re_sub_parens_from_false _ Hsearch : re_sub_parens _ = _).
    by apply strip_id. }
  unfold str_map. rewrite !list_lookup_fmap, Hi, Hj, Hk.
  cbn [fmap option_fmap option_map str_cell compose].
  by rewrite Hsame.
Qed.

Lemma scopus_author_without_parentheses_witness :
  ∃ out_wos out_scopus out_proquest,
    (@adjust_wos example_unicode 0%nat {[0%nat := wos_plain]}).1 = Ok out_wos ∧
    @adjust_scopus example_unicode scopus_plain = Ok out_scopus ∧
    @adjust_proquest example_unicode example_dates proquest_export = Ok out_proquest ∧
    ∃ authors_wos authors_scopus authors_proquest,
      getitem out_wos "Authors" = Ok authors_wos ∧
      getitem out_scopus "Authors" = Ok authors_scopus ∧
      getitem out_proquest "Authors" = Ok authors_proquest ∧
      authors_scopus !! 0%nat
      = Some (Str (@normalize_authors example_unicode (str "Smith, John"))) ∧
      authors_wos !! 0%nat = authors_scopus !! 0%nat ∧
      authors_proquest !! 0%nat = authors_scopus !! 0%nat.
Proof.
  eexists _, _, _. split; [vm_compute; reflexivity|].
  split; [vm_compute; reflexivity|]. split; [vm_compute; reflexivity|].
  apply (@scopus_author_without_parentheses example_unicode example_dates
           {[0%nat := wos_plain]}
           (@adjust_wos example_unicode 0%nat {[0%nat := wos_plain]}).2 0%nat
           wos_plain scopus_plain proquest_export _ _ _
           [Str (str "Smith, John")] [Str (str "Smith, John")] [Str (str "Smith, John")]
           0%nat 0%nat 0%nat (str "Smith, John")).
  - reflexivity.
  - repeat constructor.
  - vm_compute. reflexivity.
  - vm_compute. reflexivity.
  - vm_compute. reflexivity.
  - reflexivity.
  - reflexivity.
  - reflexivity.
  - reflexivity.
  - reflexivity.
  - reflexivity.
  - reflexivity.
  - intros c s' Heq. vm_compute in Heq. by injection Heq as <- _.
  - intros s' c Heq. apply (f_equal last) in Heq. rewrite last_snoc in Heq.
    vm_compute in Heq. by injection Heq as <-.
Defined.

(** ** The errors of the deduplicator *)

Lemma apply_Raise (f : pystr → pystr) (s : list cell) (c : cell) :
  c ∈ s → (∀ x, c ≠ Str x) → apply f s = Raise AttributeError.
Proof.
  unfold apply. induction s as [|d s IH]; [by intros ?%elem_of_nil|].
  intros [<-|Hc]%elem_of_cons Hnot; simpl.
  - destruct c as [| |x|]; try done. by destruct (Hnot x).
  - destruct d; simpl; try done. by rewrite IH.
Qed.

Section errors.
Context `{UnidecodeTables, Argsort}.


Lemma fold_column_AttributeError (df : DataFrame) (name : colname) (r : list cell) :
  name ∈ columns df → r ∈ values df → (∀ x, cell_at (columns df) name r ≠ Str x) →
  fold_column df name = Raise AttributeError.
Proof.
  intros Hin Hr Hnot. unfold fold_column.
  rewrite getitem_cell_at by done. cbn [mbind result_bind].
  rewrite (apply_Raise _ _ (cell_at (columns df) name r)); [done| |done].
  by apply (list_elem_of_fmap_2 (λ r, cell_at (columns df) name r)).
Qed.



End errors.



(** X10.  [rem_duplicates] raises [AttributeError] when an author or a
    title of the table is not a string, a missing value included:
    [unidecode] is applied to every value of the two columns.  For an author
    the table is not touched; for a title its authors have been folded by
    then. *)
Theorem rem_duplicates_needs_strings `{UnidecodeTables, Argsort} (σ : gmap nat DataFrame) (l : nat) (d : DataFrame)
    (r : list cell) :
  σ !! l = Some d →
  r ∈ values d →
  ("Authors" ∈ columns d →
   (∀ x, cell_at (columns d) "Authors" r ≠ Str x) →
   rem_duplicates l σ = (Raise AttributeError, σ)) ∧
  (∀ d1, fold_column d "Authors" = Ok d1 →
         "Title" ∈ columns d →
         (∀ x, cell_at (columns d) "Title" r ≠ Str x) →
         rem_duplicates l σ = (Raise AttributeError, <[l := d1]> σ)).
Proof.
  intros held Hr. rewrite (rem_duplicates_run σ l d held). split.
  - intros Hin Hnot. by rewrite (fold_column_AttributeError d "Authors" r).
  - intros d1 Hd1 Hin Hnot. rewrite Hd1.
    apply fold_column_Ok in Hd1 as (pa & Hpa & _ & ->).
    destruct (get_loc_elem_of "Title" (columns d) Hin) as [pt Hpt].
    rewrite (fold_column_AttributeError _ "Title" (<[pa := fold_cell (nth pa r NaN)]> r));
      [done|done| |].
    + simpl. by apply (list_elem_of_fmap_2 (λ r, <[pa := fold_cell (nth pa r NaN)]> r)).
    + simpl. intros x. rewrite (cell_at_nth _ _ _ _ Hpt).
      rewrite nth_insert_ne.
      * rewrite <- (cell_at_nth _ _ _ _ Hpt). apply Hnot.
      * intros <-. apply get_loc_Some in Hpa, Hpt. congruence.
Qed.

Lemma rem_duplicates_needs_strings_witness :
  @rem_duplicates example_tables insertion_argsort 0%nat {[0%nat := missing_author]}
  = (Raise AttributeError, {[0%nat := missing_author]}) ∧
  @rem_duplicates example_tables insertion_argsort 0%nat {[0%nat := missing_title]}
  = (Raise AttributeError, <[0%nat := missing_title]> {[0%nat := missing_title]}).
Proof.
  split.
  - apply (@rem_duplicates_needs_strings example_tables insertion_argsort
             {[0%nat := missing_author]} 0%nat missing_author
             [NaN; Str (str "a title"); Num 2020; Str (str "Scopus"); Num 1]).
    + reflexivity.
    + by left.
    + by left.
    + by intros x.
  - apply (@rem_duplicates_needs_strings example_tables insertion_argsort
             {[0%nat := missing_title]} 0%nat missing_title
             [Str (str "smith"); NaN; Num 2020; Str (str "Scopus"); Num 1]).
    + reflexivity.
    + by left.
    + reflexivity.
    + by right; left.
    + by intros x.
Defined.

(** X11.  [rem_duplicates] raises [TypeError] when the citation counts of
    the table, the missing ones apart, are not all of one kind, numbers and
    strings say: the sort cannot compare them.  By then the authors and
    titles of the table have been folded. *)
Theorem rem_duplicates_needs_comparable_counts `{UnidecodeTables, Argsort}
    (σ : gmap nat DataFrame) (l : nat)
    (d d2 : DataFrame) (counts : list cell) :
  σ !! l = Some d →
  fold_diacritics d = Ok d2 →
  getitem d "Citations" = Ok counts →
  comparable (filter (λ c, isna c = false) counts) = false →
  rem_duplicates l σ = (Raise TypeError, <[l := d2]> σ).
Proof.
  intros held Hd2 Hcounts Hcmp. rewrite (rem_duplicates_run σ l d held).
  pose proof Hd2 as Hfold.
  apply fold_diacritics_Ok in Hfold as (pa & pt & Hpa & Hpt & Hstr & Hd2').
  unfold fold_diacritics in Hd2.
  destruct (fold_column d "Authors") as [d1|] eqn:Hd1; [|done]. simpl in Hd2.
  rewrite Hd2. f_equal.
  apply getitem_Ok in Hcounts as (pc & Hpc & ->).
  unfold sort_and_drop, sort_values.
  assert (getitem d2 "Citations" = Ok ((λ r, nth pc r NaN) <$> values d)) as ->.
  { apply getitem_Ok. exists pc. rewrite Hd2'. simpl. split; [done|].
    rewrite <- list_fmap_compose. apply list_fmap_ext. intros i r _. simpl.
    unfold fold_row. rewrite !nth_insert_ne; [done| |].
    - intros <-. apply get_loc_Some in Hpa, Hpc. congruence.
    - intros <-. apply get_loc_Some in Hpt, Hpc. congruence. }
  cbn [mbind result_bind]. unfold nargsort. by rewrite Hcmp.
Qed.

Lemma rem_duplicates_needs_comparable_counts_witness :
  @rem_duplicates example_tables insertion_argsort 0%nat {[0%nat := mixed_counts]}
  = (Raise TypeError, <[0%nat := mixed_counts]> {[0%nat := mixed_counts]}).
Proof.
  apply (@rem_duplicates_needs_comparable_counts example_tables insertion_argsort
           {[0%nat := mixed_counts]} 0%nat mixed_counts mixed_counts
           [Num 1; Str (str "12")]).
  - reflexivity.
  - reflexivity.
  - reflexivity.
  - reflexivity.
Defined.

(** ** The table and the counts that the deduplicator returns *)

Lemma remove_dups_length {A : Type} `{EqDecision A} (l : list A) :
  (length (remove_dups l) ≤ length l)%nat ∧
  (length (remove_dups l) = length l ↔ NoDup l).
Proof.
  induction l as [|x l [IHle IHeq]]; simpl.
  - split; [done|]. split; [constructor|done].
  - destruct (decide_rel elem_of x l) as [Hx|Hx]; simpl.
    + split; [lia|]. split; [lia|]. by intros [? _]%NoDup_cons.
    + split; [lia|]. rewrite NoDup_cons. split.
      * intros Hlen. split; [done|]. apply IHeq. lia.
      * intros [_ Hl]. f_equal. by apply IHeq.
Qed.

Section returned.
Context `{UnidecodeTables, Argsort}.
Hypothesis sorts : argsort_sorts.
Variables (σ σ' : gmap nat DataFrame) (l : nat) (d u : DataFrame) (n m : nat).
Hypothesis held : σ !! l = Some d.
Hypothesis run : rem_duplicates l σ = (Ok (u, n, m), σ').

Lemma dedup_titles (k : list cell) :
  k ∈ values u → ∃ t, cell_at (columns u) "Title" k = Str t.
Proof.
  intros Hk.
  destruct (rem_duplicates_rows sorts _ _ _ _ _ _ _ held run)
    as (pa & pt & pc & sorted & _ & Hpt & _ & _ & Hstr & _).
  destruct (dedup_origin sorts _ _ _ _ _ _ _ held run k Hk) as (r & Hr & _ & _ & Hcells).
  destruct (Hstr r Hr) as [_ [x Hx]].
  rewrite Hcells. unfold folded. simpl.
  rewrite (cell_at_nth _ _ _ _ Hpt), Hx. by eexists.
Qed.

Lemma dedup_sorted :
  StronglySorted
    (λ r r', cell_le (cell_at (columns u) "Title" r) (cell_at (columns u) "Title" r'))
    (values u).
Proof.
  pose proof run as run'.
  apply (rem_duplicates_Ok σ σ' l d _ held) in run' as (d2 & _ & Hdrop & _).
  apply (sort_and_drop_by_title _ _ _ _ sorts Hdrop).
  intros k Hk. destruct (dedup_titles k Hk) as [t ->]. done.
Qed.

Lemma dedup_header : columns u = "Title" :: filter (λ c, c ≠ "Title") (columns d).
Proof.
  destruct (rem_duplicates_rows sorts _ _ _ _ _ _ _ held run)
    as (pa & pt & pc & sorted & _ & _ & _ & _ & _ & _ & _ & _ & _ & Hcols & _).
  exact Hcols.
Qed.

Lemma dedup_count_keys : n = length (remove_dups (normalized_key d <$> values d)).
Proof.
  pose proof (dedup_keys sorts _ _ _ _ _ _ _ held run) as Hnodup.
  destruct (dedup_counts sorts _ _ _ _ _ _ _ held run) as [-> _].
  rewrite <- (length_fmap (key u)). apply Permutation_length.
  apply NoDup_Permutation; [done|apply NoDup_remove_dups|].
  intros κ. rewrite elem_of_remove_dups. split.
  - intros (k & -> & Hk)%list_elem_of_fmap.
    destruct (dedup_origin sorts _ _ _ _ _ _ _ held run k Hk) as (r & Hr & _ & -> & _).
    by apply list_elem_of_fmap_2.
  - intros (r & -> & Hr)%list_elem_of_fmap.
    by apply (dedup_covers sorts _ _ _ _ _ _ _ held run).
Qed.

End returned.

(** X12.  For a sorting kernel that meets numpy's contract, the table that
    [rem_duplicates] returns has [Title] as its first column, followed by
    the other columns of the merged table in their order; every title in it
    is a string, and its rows are in the ascending order of their titles,
    compared code point by code point. *)
Theorem deduplicated_ordered_by_title `{UnidecodeTables, Argsort}
    (σ σ' : gmap nat DataFrame) (l : nat) (d u : DataFrame) (n m : nat) :
  argsort_sorts →
  σ !! l = Some d →
  rem_duplicates l σ = (Ok (u, n, m), σ') →
  columns u = "Title" :: filter (λ c, c ≠ "Title") (columns d) ∧
  (∀ k, k ∈ values u → ∃ t, cell_at (columns u) "Title" k = Str t) ∧
  StronglySorted
    (λ r r', match cell_at (columns u) "Title" r, cell_at (columns u) "Title" r' with
             | Str t, Str t' => PyStr.compare t t' ≠ Gt
             | _, _ => False
             end)
    (values u).
Proof.
  intros sorts held run.
  pose proof (dedup_titles sorts _ _ _ _ _ _ _ held run) as Htitles.
  split; [by eapply dedup_header|]. split; [done|].
  eapply StronglySorted_impl_elem_of; [|by eapply dedup_sorted].
  intros r r' [t ->]%Htitles [t' ->]%Htitles. unfold cell_le. simpl.
  by destruct (PyStr.compare t t').
Qed.

Lemma deduplicated_ordered_by_title_witness :
  columns example_unique = "Title" :: filter (λ c, c ≠ "Title") (columns example_merged) ∧
  (∀ k, k ∈ values example_unique → ∃ t, cell_at (columns example_unique) "Title" k = Str t) ∧
  StronglySorted
    (λ r r', match cell_at (columns example_unique) "Title" r,
                   cell_at (columns example_unique) "Title" r' with
             | Str t, Str t' => PyStr.compare t t' ≠ Gt
             | _, _ => False
             end)
    (values example_unique).
Proof.
  apply (@deduplicated_ordered_by_title example_tables insertion_argsort
           {[0%nat := example_merged]} {[0%nat := example_folded]} 0%nat
           example_merged example_unique 2%nat 5%nat).
  - exact insertion_argsort_sorts.
  - reflexivity.
  - exact example_run.
Defined.

(** X13.  For a sorting kernel that meets numpy's contract, the two counts
    that [rem_duplicates] returns are the number of rows of the table it
    returns and the number of rows of the merged table; the first is at
    most the second, and they are equal, nothing being removed, exactly when
    no two rows of the merged table have the same folded key. *)
Theorem deduplicated_counts `{UnidecodeTables, Argsort}
    (σ σ' : gmap nat DataFrame) (l : nat) (d u : DataFrame) (n m : nat) :
  argsort_sorts →
  σ !! l = Some d →
  rem_duplicates l σ = (Ok (u, n, m), σ') →
  n = shape0 u ∧ m = shape0 d ∧ (n ≤ m)%nat ∧
  (n = m ↔ NoDup (normalized_key d <$> values d)).
Proof.
  intros sorts held run.
  destruct (dedup_counts sorts _ _ _ _ _ _ _ held run) as [Hn Hm].
  pose proof (dedup_count_keys sorts _ _ _ _ _ _ _ held run) as Hkeys.
  destruct (remove_dups_length (normalized_key d <$> values d)) as [Hle Heq].
  rewrite length_fmap in Hle, Heq.
  split; [done|]. split; [done|]. split; [lia|]. rewrite <- Heq. lia.
Qed.

Lemma deduplicated_counts_witness :
  2%nat = shape0 example_unique ∧ 5%nat = shape0 example_merged ∧ (2 ≤ 5)%nat ∧
  (2%nat = 5%nat ↔
   NoDup (@normalized_key example_tables example_merged <$> values example_merged)).
Proof.
  apply (@deduplicated_counts example_tables insertion_argsort
           {[0%nat := example_merged]} {[0%nat := example_folded]} 0%nat
           example_merged example_unique 2%nat 5%nat).
  - exact insertion_argsort_sorts.
  - reflexivity.
  - exact example_run.
Defined.

Lemma unidecode_id `{UnidecodeTables} (s : pystr) :
  forallb is_ascii s = true → unidecode s = s.
Proof. unfold unidecode. by intros ->. Qed.

(** X14.  [rem_duplicates] leaves the table it is given as it is when all
    its authors and titles are strings of ASCII characters: folding changes
    only strings with a character from U+0080 on. *)
Theorem rem_duplicates_keeps_ascii_table `{UnidecodeTables, Argsort}
    (σ σ' : gmap nat DataFrame) (l : nat) (d : DataFrame)
    (res : result (DataFrame * nat * nat)) :
  σ !! l = Some d →
  "Authors" ∈ columns d → "Title" ∈ columns d →
  (∀ r, r ∈ values d →
     ∃ a t, cell_at (columns d) "Authors" r = Str a ∧ forallb is_ascii a = true ∧
            cell_at (columns d) "Title" r = Str t ∧ forallb is_ascii t = true) →
  rem_duplicates l σ = (res, σ') →
  σ' = σ.
Proof.
  intros held [pa Hpa]%get_loc_elem_of [pt Hpt]%get_loc_elem_of Hascii run.
  assert (fold_diacritics d = Ok d) as Hfold.
  { apply fold_diacritics_Ok. exists pa, pt. split; [done|]. split; [done|]. split.
    - intros r Hr. destruct (Hascii r Hr) as (a & t & Ha & _ & Ht & _).
      rewrite (cell_at_nth _ _ _ _ Hpa) in Ha. rewrite (cell_at_nth _ _ _ _ Hpt) in Ht.
      split; by eexists.
    - destruct d as [cols rows]. simpl in *. f_equal.
      rewrite <- (list_fmap_id rows) at 1. apply list_fmap_ext. intros i r Hr. simpl.
      destruct (Hascii r) as (a & t & Ha & Haa & Ht & Hta);
        [by eapply list_elem_of_lookup_2|].
      rewrite (cell_at_nth _ _ _ _ Hpa) in Ha. rewrite (cell_at_nth _ _ _ _ Hpt) in Ht.
      unfold fold_row. rewrite Ha, Ht. simpl.
      rewrite !unidecode_id by done. rewrite <- Ha, insert_nth_id, <- Ht.
      by rewrite insert_nth_id. }
  rewrite (rem_duplicates_run σ l d held) in run.
  unfold fold_diacritics in Hfold.
  destruct (fold_column d "Authors") as [d1|] eqn:Hd1; [|done]. simpl in Hfold.
  rewrite Hfold in run. injection run as _ <-.
  by apply insert_id.
Qed.

Lemma rem_duplicates_keeps_ascii_table_witness :
  (@rem_duplicates example_tables insertion_argsort 0%nat {[0%nat := example_folded]}).2
  = {[0%nat := example_folded]}.
Proof.
  apply (@rem_duplicates_keeps_ascii_table example_tables insertion_argsort
           {[0%nat := example_folded]} _ 0%nat example_folded
           (@rem_duplicates example_tables insertion_argsort 0%nat
              {[0%nat := example_folded]}).1).
  - reflexivity.
  - by left.
  - by right; left.
  - intros r Hr.
    repeat (apply elem_of_cons in Hr as [->|Hr]; [by eexists _, _|]).
    by apply elem_of_nil in Hr.
  - by destruct (@rem_duplicates example_tables insertion_argsort 0%nat
                   {[0%nat := example_folded]}).
Defined.

(** ** Reading the three files *)

Lemma P_bind_unfold {A B : Type} (m : P A) (f : A → P B) :
  m ≫= f = match m.1 with
           | Ok a => ((f a).1, m.2 ++ (f a).2)
           | Raise e => (Raise e, m.2)
           end.
Proof. done. Qed.

Lemma P_bind_Ok {A B : Type} (m : P A) (f : A → P B) (b : B) (out : list pystr) :
  m ≫= f = (Ok b, out) →
  ∃ a o1 o2, m = (Ok a, o1) ∧ f a = (Ok b, o2) ∧ out = o1 ++ o2.
Proof.
  rewrite P_bind_unfold. destruct m as [[a|e] o1]; simpl; [|done].
  destruct (f a) as [r o2] eqn:Hf. simpl. intros [= -> <-]. by exists a, o1, o2.
Qed.

Lemma P_bind_quiet_Ok {A B : Type} (r : result A) (f : A → P B) (b : B) (out : list pystr) :
  quiet r ≫= f = (Ok b, out) → ∃ a, r = Ok a ∧ f a = (Ok b, out).
Proof.
  intros (a & o1 & o2 & Hq & Hf & ->)%P_bind_Ok. unfold quiet in Hq.
  injection Hq as -> <-. by exists a.
Qed.

Lemma read_file_returns `{PandasIO} (path : pystr) (v : option DataFrame) (out : list pystr) :
  read_file path = (Ok v, out) →
  out = diagnostic v ∧
  match v with
  | Some df =>
      if endswith path (str ".csv") then read_csv path = Ok df else read_excel path = Ok df
  | None => endswith path (str ".csv") = false ∧ ∃ e, read_excel path = Raise e
  end.
Proof.
  unfold read_file. destruct (endswith path (str ".csv")).
  - destruct (read_csv path) as [df|]; simpl; [|done]. by intros [= <- <-].
  - destruct (read_excel path) as [df|e]; intros [= <- <-]; [done|].
    split; [done|]. split; [done|]. by exists e.
Qed.

Lemma read_file_raises `{PandasIO} (path : pystr) (e : exn) (out : list pystr) :
  read_file path = (Raise e, out) →
  out = [] ∧ endswith path (str ".csv") = true ∧ read_csv path = Raise e.
Proof.
  unfold read_file. destruct (endswith path (str ".csv")).
  - destruct (read_csv path) as [df|]; simpl; [done|]. by intros [= <- <-].
  - by destruct (read_excel path).
Qed.

Lemma read_files_unfold `{PandasIO, Globals} :
  read_files
  = match read_file FILE_PATH_WOS with
    | (Ok df_wos, o1) =>
        match read_file FILE_PATH_SD with
        | (Ok df_scopus, o2) =>
            match read_file FILE_PATH_PQ with
            | (Ok df_proquest, o3) => (Ok (df_wos, df_scopus, df_proquest), o1 ++ o2 ++ o3)
            | (Raise e, o3) => (Raise e, o1 ++ o2 ++ o3)
            end
        | (Raise e, o2) => (Raise e, o1 ++ o2)
        end
    | (Raise e, o1) => (Raise e, o1)
    end.
Proof.
  unfold read_files. rewrite !P_bind_unfold.
  destruct (read_file FILE_PATH_WOS) as [[w|e] o1]; simpl; [|done].
  rewrite !P_bind_unfold.
  destruct (read_file FILE_PATH_SD) as [[s|e] o2]; simpl; [|done].
  rewrite !P_bind_unfold.
  destruct (read_file FILE_PATH_PQ) as [[p|e] o3]; simpl; [|done].
  by rewrite app_nil_r.
Qed.

(** X15.  [read_files] reads the three paths in the order Web of Science,
    Scopus, ProQuest, and stops at the first one that [read_file] raises
    on.  It returns exactly when [read_file] returns for the three paths:
    the values of the triple are what [read_file] returns for them, and the
    lines printed are one [Wrong file format] for every [None] among them.
    It raises [e] exactly when [read_file] raises [e] for the Web of Science
    path; or returns for it and raises [e] for the Scopus path; or returns
    for both and raises [e] for the ProQuest path; and it has printed the
    lines of the paths before that one.  So an exception of [read_csv] on
    the Web of Science path is the one raised, whatever the other two files
    are. *)
Theorem read_files_in_order `{PandasIO, Globals} :
  (∀ df_wos df_scopus df_proquest out,
     read_files = (Ok (df_wos, df_scopus, df_proquest), out)
     ↔ read_file FILE_PATH_WOS = (Ok df_wos, diagnostic df_wos) ∧
       read_file FILE_PATH_SD = (Ok df_scopus, diagnostic df_scopus) ∧
       read_file FILE_PATH_PQ = (Ok df_proquest, diagnostic df_proquest) ∧
       out = diagnostic df_wos ++ diagnostic df_scopus ++ diagnostic df_proquest) ∧
  (∀ e out,
     read_files = (Raise e, out)
     ↔ (read_file FILE_PATH_WOS = (Raise e, []) ∧ out = []) ∨
       (∃ df_wos,
          read_file FILE_PATH_WOS = (Ok df_wos, diagnostic df_wos) ∧
          read_file FILE_PATH_SD = (Raise e, []) ∧
          out = diagnostic df_wos) ∨
       (∃ df_wos df_scopus,
          read_file FILE_PATH_WOS = (Ok df_wos, diagnostic df_wos) ∧
          read_file FILE_PATH_SD = (Ok df_scopus, diagnostic df_scopus) ∧
          read_file FILE_PATH_PQ = (Raise e, []) ∧
          out = diagnostic df_wos ++ diagnostic df_scopus)) ∧
  (∀ e,
     str ".csv" `suffix_of` FILE_PATH_WOS →
     read_csv FILE_PATH_WOS = Raise e →
     read_files = (Raise e, [])).
Proof.
  rewrite read_files_unfold. split; [|split].
  - intros w s p out. split.
    + destruct (read_file FILE_PATH_WOS) as [[w'|] o1] eqn:H1; [|done].
      destruct (read_file FILE_PATH_SD) as [[s'|] o2] eqn:H2; [|done].
      destruct (read_file FILE_PATH_PQ) as [[p'|] o3] eqn:H3; [|done].
      intros [= -> -> -> <-].
      apply read_file_returns in H1 as [-> _].
      apply read_file_returns in H2 as [-> _].
      apply read_file_returns in H3 as [-> _]. done.
    + by intros (-> & -> & -> & ->).
  - intros e out. split.
    + destruct (read_file FILE_PATH_WOS) as [[w|e1] o1] eqn:H1.
      2:{ intros [= -> <-]. apply read_file_raises in H1 as (-> & _). by left. }
      apply read_file_returns in H1 as [-> _].
      destruct (read_file FILE_PATH_SD) as [[s|e2] o2] eqn:H2.
      2:{ intros [= -> <-]. apply read_file_raises in H2 as (-> & _).
          right; left. exists w. by rewrite app_nil_r. }
      apply read_file_returns in H2 as [-> _].
      destruct (read_file FILE_PATH_PQ) as [[p|e3] o3] eqn:H3; [done|].
      intros [= -> <-]. apply read_file_raises in H3 as (-> & _).
      right; right. exists w, s. by rewrite app_nil_r.
    + intros [[-> ->]|[(w & -> & -> & ->)|(w & s & -> & -> & -> & ->)]];
        by rewrite ?app_nil_r.
  - intros e Hcsv Hraise. unfold read_file at 1, endswith.
    by rewrite bool_decide_eq_true_2, Hraise.
Qed.

Lemma read_files_in_order_witness :
  @read_files three_files unreadable_paths
  = (Ok (Some wos_export, Some scopus_export, None), [str "Wrong file format"]) ∧
  @read_files three_files misnamed_paths = (Raise (Exception "ParserError"), []) ∧
  @read_files broken_files csv_paths = (Raise (Exception "EmptyDataError"), []) ∧
  @read_files broken_files swapped_paths = (Raise (Exception "ParserError"), []).
Proof.
  destruct (@read_files_in_order three_files unreadable_paths) as (returns & _ & _).
  destruct (@read_files_in_order three_files misnamed_paths) as (_ & raises & _).
  destruct (@read_files_in_order broken_files csv_paths) as (_ & _ & first).
  destruct (@read_files_in_order broken_files swapped_paths) as (_ & _ & first').
  split; [|split; [|split]].
  - apply returns. done.
  - apply raises. right; left. by exists (Some wos_export).
  - apply first; [by apply (bool_decide_eq_true_1 _)|reflexivity].
  - apply first'; [by apply (bool_decide_eq_true_1 _)|reflexivity].
Defined.

(** ** The report of [main] *)

Lemma mask_length {A : Type} (f : cell → bool) (rows : list A) (s : list cell) :
  length s = length rows →
  length (filter (λ rm : A * bool, rm.2 = true) (zip rows (f <$> s)))
  = length (filter (λ c, f c = true) s).
Proof.
  revert s. induction rows as [|r rows IH]; intros [|c s] Hlen; simpl in *; try done.
  rewrite !filter_cons. simpl. destruct (decide (f c = true)); simpl; rewrite IH; lia.
Qed.

(** The number of rows of [df[df[label] == value]]. *)
Lemma shape0_getitem_mask (df : DataFrame) (label : colname) (value : pystr) :
  shape0 (getitem_mask df
            (eq_str ((λ r, cell_at (columns df) label r) <$> values df) value))
  = length (filter (λ r, cell_at (columns df) label r = Str value) (values df)).
Proof.
  unfold shape0, getitem_mask, eq_str. simpl. rewrite length_fmap.
  rewrite (mask_length (λ c, bool_decide (c = Str value))) by (by rewrite length_fmap).
  rewrite <- (length_fmap (λ r, cell_at (columns df) label r)
                (filter (λ r, cell_at (columns df) label r = Str value) (values df))).
  f_equal. induction (values df) as [|r rows IH]; [done|].
  rewrite fmap_cons, !filter_cons. simpl.
  destruct (decide (cell_at (columns df) label r = Str value)) as [Heq|Hne].
  - rewrite decide_True by (by apply bool_decide_eq_true_2). by rewrite fmap_cons, IH.
  - rewrite decide_False; [done|]. by rewrite bool_decide_eq_false_2.
Qed.

Lemma filter3_length {A B : Type} `{EqDecision B} (f : A → B) (x y z : B) (l : list A) :
  x ≠ y → x ≠ z → y ≠ z →
  (length (filter (λ a, f a = x) l) + length (filter (λ a, f a = y) l)
   + length (filter (λ a, f a = z) l) ≤ length l)%nat ∧
  ((length (filter (λ a, f a = x) l) + length (filter (λ a, f a = y) l)
    + length (filter (λ a, f a = z) l))%nat = length l
   ↔ Forall (λ a, f a ∈ [x; y; z]) l).
Proof.
  intros Hxy Hxz Hyz. induction l as [|a l [IHle IHeq]].
  - split; [done|]. split; [constructor|done].
  - rewrite !filter_cons, Forall_cons.
    destruct (decide (f a = x)) as [Hx|Hx]; [|destruct (decide (f a = y)) as [Hy|Hy];
      [|destruct (decide (f a = z)) as [Hz|Hz]]].
    + rewrite (decide_False (P := f a = y)), (decide_False (P := f a = z)) by congruence.
      simpl. split; [lia|]. rewrite <- IHeq. split.
      * intros Hlen. split; [rewrite Hx; by left|lia].
      * intros [_ Hlen]. lia.
    + rewrite (decide_False (P := f a = z)) by congruence.
      simpl. split; [lia|]. rewrite <- IHeq. split.
      * intros Hlen. split; [rewrite Hy; by right; left|lia].
      * intros [_ Hlen]. lia.
    + simpl. split; [lia|]. rewrite <- IHeq. split.
      * intros Hlen. split; [rewrite Hz; by do 2 right; left|lia].
      * intros [_ Hlen]. lia.
    + simpl. split; [lia|]. split; [lia|].
      intros [Hin _]. exfalso.
      repeat (apply elem_of_cons in Hin as [Hin|Hin]; [done|]).
      by apply elem_of_nil in Hin.
Qed.

(** X16.  The three numbers that [main] prints for the sources are the
    numbers of rows of the deduplicated table whose [Database] cell is
    [Web of Science], [Scopus] and [ProQuest].  They add up to at most the
    number of rows of the table, and to that number exactly when every
    [Database] cell is one of the three labels. *)
Theorem studies_by_database (df : DataFrame) (database : list cell) :
  getitem df "Database" = Ok database →
  let studied label := shape0 (getitem_mask df (eq_str database (str label))) in
  (studied "Web of Science" + studied "Scopus" + studied "ProQuest" ≤ shape0 df)%nat ∧
  ((studied "Web of Science" + studied "Scopus" + studied "ProQuest")%nat = shape0 df
   ↔ Forall (λ c, c ∈ [Str (str "Web of Science"); Str (str "Scopus"); Str (str "ProQuest")])
       database).
Proof.
  intros Hdb. pose proof Hdb as Hin.
  apply getitem_Ok in Hin as (p & Hin%get_loc_Some_elem_of & _).
  rewrite (getitem_cell_at df "Database" Hin) in Hdb. injection Hdb as <-.
  cbv beta zeta. rewrite !shape0_getitem_mask.
  destruct (filter3_length (λ r, cell_at (columns df) "Database" r)
              (Str (str "Web of Science")) (Str (str "Scopus")) (Str (str "ProQuest"))
              (values df)) as [Hle Heq]; [done..|].
  split; [exact Hle|]. unfold shape0. rewrite Heq. by rewrite Forall_fmap.
Qed.

Lemma studies_by_database_witness :
  let studied label :=
    shape0 (getitem_mask example_unique
              (eq_str [Str (str "Scopus"); Str (str "Scopus")] (str label))) in
  (studied "Web of Science" + studied "Scopus" + studied "ProQuest"
   ≤ shape0 example_unique)%nat ∧
  ((studied "Web of Science" + studied "Scopus" + studied "ProQuest")%nat
   = shape0 example_unique
   ↔ Forall (λ c, c ∈ [Str (str "Web of Science"); Str (str "Scopus"); Str (str "ProQuest")])
       [Str (str "Scopus"); Str (str "Scopus")]).
Proof.
  apply (studies_by_database example_unique [Str (str "Scopus"); Str (str "Scopus")]).
  reflexivity.
Defined.

Section main.
Context `{PandasIO, Globals, UnicodeDB, DateParser, UnidecodeTables, Argsort, Display}.

(** What an adapter returns is a table under the unified header with the
    rows of its export. *)
Lemma adjust_scopus_unified (df out : DataFrame) :
  adjust_scopus df = Ok out →
  columns out = unified_header ∧ rectangular out ∧ shape0 out = shape0 df.
Proof.
  intros run. pose proof (adjust_scopus_selects _ _ run) as Hsub.
  rewrite (adjust_scopus_total df Hsub) in run.
  destruct (can_use_str _ && can_use_str _); [|done]. injection run as <-.
  split; [done|]. split.
  - unfold rectangular. simpl. apply Forall_fmap, Forall_forall. by intros r _.
  - unfold shape0. simpl. by rewrite length_fmap.
Qed.

Lemma standardize_wos_unified (df out : DataFrame) :
  standardize_wos df = Ok out →
  columns out = unified_header ∧ rectangular out ∧ shape0 out = shape0 df.
Proof.
  intros run.
  assert (["Author Full Names"; "Article Title"; "Publication Year"; "Database";
           "Times Cited, WoS Core"] ⊆ columns df) as Hsub.
  { unfold standardize_wos in run. destruct (select df _) as [df1|] eqn:Hsel; [|done].
    by apply select_Ok in Hsel as [? _]. }
  rewrite (standardize_wos_total df Hsub) in run.
  destruct (can_use_str _ && can_use_str _); [|done]. injection run as <-.
  split; [done|]. split.
  - unfold rectangular. simpl. apply Forall_fmap, Forall_forall. by intros r _.
  - unfold shape0. simpl. by rewrite length_fmap.
Qed.

Lemma call_adjust_wos_unified (df out : DataFrame) :
  call adjust_wos df = Ok out →
  columns out = unified_header ∧ rectangular out ∧ shape0 out = shape0 df.
Proof.
  unfold call. rewrite (adjust_wos_run {[0%nat := df]} 0%nat df) by apply lookup_singleton_eq.
  cbn [fst]. intros (? & ? & Hshape)%standardize_wos_unified.
  split; [done|]. split; [done|]. rewrite Hshape. apply shape0_setitem.
Qed.

Lemma adjust_proquest_unified (df out : DataFrame) :
  adjust_proquest df = Ok out →
  columns out = unified_header ∧ rectangular out ∧ shape0 out = shape0 df.
Proof.
  intros run. pose proof (adjust_proquest_selects _ _ run) as Hsub.
  rewrite (adjust_proquest_total df Hsub) in run.
  destruct (to_datetime _) as [dates|]; [|done]. cbn [mbind result_bind] in run.
  destruct (dt_year _) as [years|] eqn:Hyears; [|done]. cbn [mbind result_bind] in run.
  destruct (can_use_str _ && can_use_str _); [|done]. injection run as <-.
  apply dt_year_length in Hyears. rewrite length_reindex in Hyears.
  split; [done|]. split.
  - unfold rectangular. simpl. apply Forall_forall.
    intros r (i & Hi)%list_elem_of_lookup_1.
    apply lookup_zip_with_Some in Hi as (r0 & y & -> & _). done.
  - unfold shape0 in *. simpl. rewrite length_zip_with. lia.
Qed.

Lemma merge_dfs_unified (df_wos df_scopus df_proquest : DataFrame) :
  columns df_wos = unified_header → columns df_scopus = unified_header →
  columns df_proquest = unified_header →
  columns (merge_dfs df_wos df_scopus df_proquest) = unified_header ∧
  shape0 (merge_dfs df_wos df_scopus df_proquest)
  = (shape0 df_wos + shape0 df_scopus + shape0 df_proquest)%nat.
Proof.
  intros Hw Hs Hp. unfold merge_dfs, concat, shape0. simpl.
  rewrite Hw, Hs, Hp. split; [by vm_compute|].
  rewrite !length_app, !length_fmap. simpl. lia.
Qed.

Lemma print_bind {B : Type} (line : pystr) (k : P B) :
  (print line ≫= λ _, k) = (k.1, line :: k.2).
Proof. done. Qed.

Lemma quiet_bind_Raise {A B : Type} (e : exn) (f : A → P B) :
  quiet (Raise e) ≫= f = (Raise e, []).
Proof. done. Qed.

Lemma quiet_bind_Ok {A B : Type} (a : A) (f : A → P B) :
  quiet (Ok a) ≫= f = f a.
Proof. rewrite P_bind_unfold. simpl. by destruct (f a). Qed.

Lemma call_rem_duplicates_counts (d u : DataFrame) (n m : nat) :
  argsort_sorts →
  call rem_duplicates d = Ok (u, n, m) →
  n = shape0 u ∧ m = shape0 d ∧ (n ≤ m)%nat ∧
  columns u = "Title" :: filter (λ c, c ≠ "Title") (columns d).
Proof.
  intros sorts. unfold call.
  destruct (rem_duplicates 0%nat {[0%nat := d]}) as [res σ'] eqn:run. simpl. intros ->.
  assert (({[0%nat := d]} : gmap nat DataFrame) !! 0%nat = Some d) as held
    by apply lookup_singleton_eq.
  destruct (dedup_counts sorts _ _ _ _ _ _ _ held run) as [Hn Hm].
  pose proof (dedup_count_keys sorts _ _ _ _ _ _ _ held run) as Hkeys.
  destruct (remove_dups_length (normalized_key d <$> values d)) as [Hle _].
  rewrite length_fmap in Hle.
  split; [done|]. split; [done|]. split; [lia|].
  by eapply dedup_header.
Qed.

End main.

(** X17.  For a sorting kernel that meets numpy's contract.  When [main]
    returns, [read_file] has returned a table for each of the three paths
    and printed nothing, and [main] has printed ten lines: the number of
    rows of the three exports together, the number of rows removed, the
    number of rows of the table [u] that [rem_duplicates] returns for the
    merged tables of the adapters, which is not above the first number; a
    rule; the numbers of rows of [u] from each of the three sources, which
    together are not above the number of rows of [u]; a rule; an empty line;
    and the rendering of [u]. *)
Theorem main_report
    `{PandasIO, Globals, UnicodeDB, DateParser, UnidecodeTables, Argsort, Display}
    (out : list pystr) :
  argsort_sorts →
  main = (Ok (), out) →
  ∃ w s p wa sa pa u : DataFrame,
    read_file FILE_PATH_WOS = (Ok (Some w), []) ∧
    read_file FILE_PATH_SD = (Ok (Some s), []) ∧
    read_file FILE_PATH_PQ = (Ok (Some p), []) ∧
    call adjust_wos w = Ok wa ∧ adjust_scopus s = Ok sa ∧ adjust_proquest p = Ok pa ∧
    let before := (shape0 w + shape0 s + shape0 p)%nat in
    let after := shape0 u in
    let studied label :=
      length (filter (λ r, cell_at (columns u) "Database" r = Str (str label)) (values u)) in
    call rem_duplicates (merge_dfs wa sa pa) = Ok (u, after, before) ∧
    (after ≤ before)%nat ∧
    (studied "Web of Science" + studied "Scopus" + studied "ProQuest" ≤ after)%nat ∧
    out = [ str "Number of studies before removal of duplicates studies: "
              ++ format_int (Z.of_nat before);
            str "Number of studies removed: "
              ++ format_int (Z.of_nat before - Z.of_nat after);
            str "Number of studies after automatic removal of duplicates studies (automatic): "
              ++ format_int (Z.of_nat after);
            str "------------------------------";
            str "Number of studied from Web of Science: "
              ++ format_int (Z.of_nat (studied "Web of Science"));
            str "Number of studied from Scopus: " ++ format_int (Z.of_nat (studied "Scopus"));
            str "Number of studied from ProQuest: "
              ++ format_int (Z.of_nat (studied "ProQuest"));
            str "------------------------------";
            [];
            to_string u ].
Proof.
  intros sorts run. unfold main in run.
  apply P_bind_Ok in run as ([[w s] p] & o1 & o2 & Hread & run & ->).
  apply P_bind_quiet_Ok in run as (wa & Hwa & run).
  apply P_bind_quiet_Ok in run as (sa & Hsa & run).
  apply P_bind_quiet_Ok in run as (pa & Hpa & run).
  cbv zeta in run.
  apply P_bind_quiet_Ok in run as ([[u n] m] & Hu & run).
  apply P_bind_quiet_Ok in run as (db1 & Hdb1 & run).
  apply P_bind_quiet_Ok in run as (db2 & Hdb2 & run).
  apply P_bind_quiet_Ok in run as (db3 & Hdb3 & run).
  destruct w as [w|]; [|done]. destruct s as [s|]; [|done]. destruct p as [p|]; [|done].
  cbn [frame mbind result_bind] in Hwa, Hsa, Hpa.
  rewrite read_files_unfold in Hread.
  destruct (read_file FILE_PATH_WOS) as [[w'|] ow] eqn:Hr1; [|done].
  destruct (read_file FILE_PATH_SD) as [[s'|] os] eqn:Hr2; [|done].
  destruct (read_file FILE_PATH_PQ) as [[p'|] op] eqn:Hr3; [|done].
  injection Hread as -> -> -> <-.
  apply read_file_returns in Hr1 as [-> _]. apply read_file_returns in Hr2 as [-> _].
  apply read_file_returns in Hr3 as [-> _]. simpl.
  destruct (call_adjust_wos_unified _ _ Hwa) as (Hcw & Hrw & Hsw).
  destruct (adjust_scopus_unified _ _ Hsa) as (Hcs & Hrs & Hss).
  destruct (adjust_proquest_unified _ _ Hpa) as (Hcp & Hrp & Hsp).
  destruct (merge_dfs_unified wa sa pa) as [Hcm Hsm]; [done..|].
  destruct (call_rem_duplicates_counts _ _ _ _ sorts Hu) as (-> & -> & Hle & Hcu).
  rewrite Hcm in Hcu.
  assert ("Database" ∈ columns u) as Hdb by (rewrite Hcu; by do 3 right; left).
  rewrite (getitem_cell_at u "Database" Hdb) in Hdb1, Hdb2, Hdb3.
  injection Hdb1 as <-. injection Hdb2 as <-. injection Hdb3 as <-.
  rewrite !shape0_getitem_mask in run.
  rewrite !print_bind in run. unfold print in run. cbn [fst snd] in run.
  injection run as <-.
  rewrite Hsm, Hsw, Hss, Hsp in Hu, Hle |- *.
  exists w, s, p, wa, sa, pa, u. do 6 (split; [done|]). cbv zeta.
  split; [done|]. split; [done|]. split; [|done].
  by destruct (filter3_length (λ r, cell_at (columns u) "Database" r)
                 (Str (str "Web of Science")) (Str (str "Scopus")) (Str (str "ProQuest"))
                 (values u)) as [Hsum _].
Qed.

(** X18.  [main] prints no report when [read_file] has returned [None] for
    one of the three paths: after the lines that [read_files] has printed
    it raises, without printing more.  When it is the Web of Science path,
    what it raises is the [TypeError] of the first statement of
    [adjust_wos], an assignment to a column of [None]. *)
Theorem main_needs_three_tables
    `{PandasIO, Globals, UnicodeDB, DateParser, UnidecodeTables, Argsort, Display}
    (df_wos df_scopus df_proquest : option DataFrame) (out : list pystr) :
  read_files = (Ok (df_wos, df_scopus, df_proquest), out) →
  (df_wos = None → main = (Raise TypeError, out)) ∧
  (df_wos = None ∨ df_scopus = None ∨ df_proquest = None → ∃ e, main = (Raise e, out)).
Proof.
  intros Hread.
  assert (df_wos = None → main = (Raise TypeError, out)) as Hwos.
  { intros ->. unfold main. rewrite P_bind_unfold, Hread. cbn [fst snd frame mbind result_bind].
    rewrite quiet_bind_Raise. cbn [fst snd]. by rewrite app_nil_r. }
  split; [done|].
  destruct df_wos as [w|]; [|intros _; eexists; by apply Hwos].
  intros [Hw|Hnone]; [done|].
  unfold main. rewrite P_bind_unfold, Hread. cbn [fst snd frame mbind result_bind].
  destruct (call adjust_wos w) as [wa|e].
  2:{ rewrite quiet_bind_Raise. cbn [fst snd]. rewrite app_nil_r. by eexists. }
  rewrite quiet_bind_Ok.
  destruct df_scopus as [s|].
  2:{ cbn [frame mbind result_bind]. rewrite quiet_bind_Raise. cbn [fst snd].
      rewrite app_nil_r. by eexists. }
  cbn [frame mbind result_bind].
  destruct (adjust_scopus s) as [sa|e].
  2:{ rewrite quiet_bind_Raise. cbn [fst snd]. rewrite app_nil_r. by eexists. }
  rewrite quiet_bind_Ok.
  destruct Hnone as [Hs| ->]; [done|].
  cbn [frame mbind result_bind]. rewrite quiet_bind_Raise. cbn [fst snd].
  rewrite app_nil_r. by eexists.
Qed.

Lemma main_report_witness :
  ∃ w s p wa sa pa u : DataFrame,
    @read_file three_files (str "wos.csv") = (Ok (Some w), []) ∧
    @read_file three_files (str "scopus.xlsx") = (Ok (Some s), []) ∧
    @read_file three_files (str "proquest.xlsx") = (Ok (Some p), []) ∧
    call (@adjust_wos example_unicode) w = Ok wa ∧
    @adjust_scopus example_unicode s = Ok sa ∧
    @adjust_proquest example_unicode example_dates p = Ok pa ∧
    let before := (shape0 w + shape0 s + shape0 p)%nat in
    let after := shape0 u in
    let studied label :=
      length (filter (λ r, cell_at (columns u) "Database" r = Str (str label)) (values u)) in
    call (@rem_duplicates example_tables insertion_argsort) (merge_dfs wa sa pa)
    = Ok (u, after, before) ∧
    (after ≤ before)%nat ∧
    (studied "Web of Science" + studied "Scopus" + studied "ProQuest" ≤ after)%nat ∧
    (@main three_files example_paths example_unicode example_dates example_tables
       insertion_argsort example_display).2
    = [ str "Number of studies before removal of duplicates studies: "
              ++ format_int (Z.of_nat before);
            str "Number of studies removed: "
              ++ format_int (Z.of_nat before - Z.of_nat after);
            str "Number of studies after automatic removal of duplicates studies (automatic): "
              ++ format_int (Z.of_nat after);
            str "------------------------------";
            str "Number of studied from Web of Science: "
              ++ format_int (Z.of_nat (studied "Web of Science"));
            str "Number of studied from Scopus: " ++ format_int (Z.of_nat (studied "Scopus"));
            str "Number of studied from ProQuest: "
              ++ format_int (Z.of_nat (studied "ProQuest"));
            str "------------------------------";
            [];
            @to_string example_display u ].
Proof.
  apply (@main_report three_files example_paths example_unicode example_dates example_tables
           insertion_argsort example_display).
  - exact insertion_argsort_sorts.
  - vm_compute. reflexivity.
Defined.

Lemma main_needs_three_tables_witness :
  @main three_files notebook_paths example_unicode example_dates example_tables
    insertion_argsort example_display
  = (Raise TypeError,
     [str "Wrong file format"; str "Wrong file format"; str "Wrong file format"]) ∧
  ∃ e, @main three_files unreadable_paths example_unicode example_dates example_tables
         insertion_argsort example_display
       = (Raise e, [str "Wrong file format"]).
Proof.
  split.
  - apply (@main_needs_three_tables three_files notebook_paths example_unicode example_dates
             example_tables insertion_argsort example_display None None None);
      reflexivity.
  - apply (@main_needs_three_tables three_files unreadable_paths example_unicode example_dates
             example_tables insertion_argsort example_display
             (Some wos_export) (Some scopus_export) None); [reflexivity|].
    by do 2 right.
Defined.

(** ** When the deduplicator returns *)

(** X19.  For a sorting kernel that meets numpy's contract, on a table with
    the columns [Authors], [Title], [Year] and [Citations], [rem_duplicates]
    returns exactly when every author and every title of the table is a
    string and its citation counts, the missing ones apart, are of one
    kind.  A record without an author or without a title, for which an
    adapter has a missing value, makes the call raise. *)
Theorem rem_duplicates_returns_iff `{UnidecodeTables, Argsort}
    (σ : gmap nat DataFrame) (l : nat) (d : DataFrame) :
  argsort_sorts →
  σ !! l = Some d →
  ["Authors"; "Title"; "Year"; "Citations"] ⊆ columns d →
  (∃ u n m σ', rem_duplicates l σ = (Ok (u, n, m), σ')) ↔
  (∀ r, r ∈ values d →
     ∃ a t, cell_at (columns d) "Authors" r = Str a ∧ cell_at (columns d) "Title" r = Str t) ∧
  comparable (filter (λ c, isna c = false) (citations d <$> values d)) = true.
Proof.
  intros sorts held Hsub.
  destruct (get_loc_elem_of "Authors" (columns d)) as [pa Hpa]; [apply Hsub; by left|].
  destruct (get_loc_elem_of "Title" (columns d)) as [pt Hpt]; [apply Hsub; by right; left|].
  destruct (get_loc_elem_of "Citations" (columns d)) as [pc Hpc];
    [apply Hsub; by do 3 right; left|].
  assert (citations d <$> values d = (λ r, nth pc r NaN) <$> values d) as Hcit.
  { apply list_fmap_ext. intros i r _. unfold citations. by rewrite (cell_at_nth _ _ _ _ Hpc). }
  rewrite Hcit. split.
  - intros (u & n & m & σ' & run).
    destruct (rem_duplicates_rows sorts _ _ _ _ _ _ _ held run)
      as (pa' & pt' & pc' & sorted & Hpa' & Hpt' & Hpc' & _ & Hstr & _ & Hcmp & _).
    simpl in Hcmp.
    assert (pa' = pa ∧ pt' = pt ∧ pc' = pc) as (-> & -> & ->) by (repeat split; congruence).
    split.
    + intros r Hr. destruct (Hstr r Hr) as [[a Ha] [t Ht]]. exists a, t.
      by rewrite (cell_at_nth _ _ _ _ Hpa), (cell_at_nth _ _ _ _ Hpt).
    + rewrite <- Hcmp. do 2 f_equal. rewrite <- list_fmap_compose.
      apply list_fmap_ext. intros i r _. simpl. unfold fold_row.
      rewrite !nth_insert_ne; [done| |].
      * intros <-. apply get_loc_Some in Hpa, Hpc. congruence.
      * intros <-. apply get_loc_Some in Hpt, Hpc. congruence.
  - intros [Hstr Hcmp].
    destruct (rem_duplicates_returns sorts σ l d pa pt pc) as (u & n & m & run);
      [done|done|done|done| | |done|].
    + apply Hsub. by do 2 right; left.
    + intros r Hr. destruct (Hstr r Hr) as (a & t & Ha & Ht).
      rewrite (cell_at_nth _ _ _ _ Hpa) in Ha. rewrite (cell_at_nth _ _ _ _ Hpt) in Ht.
      split; by eexists.
    + by eexists u, n, m, _.
Qed.

Lemma rem_duplicates_returns_iff_witness :
  (∃ u n m σ',
     @rem_duplicates example_tables insertion_argsort 0%nat {[0%nat := missing_author]}
     = (Ok (u, n, m), σ')) ↔
  (∀ r, r ∈ values missing_author →
     ∃ a t, cell_at (columns missing_author) "Authors" r = Str a ∧
            cell_at (columns missing_author) "Title" r = Str t) ∧
  comparable (filter (λ c, isna c = false) (citations missing_author <$> values missing_author))
  = true.
Proof.
  apply (@rem_duplicates_returns_iff example_tables insertion_argsort
           {[0%nat := missing_author]} 0%nat missing_author).
  - exact insertion_argsort_sorts.
  - reflexivity.
  - intros c Hc.
    repeat (apply elem_of_cons in Hc as [->|Hc]; [by repeat constructor|]).
    by apply elem_of_nil in Hc.
Defined.

(** ** An export without one of its columns *)

(** X20.  When the three files have been read and the export of a source
    lacks a column that its adapter selects, [main] prints no report: it
    raises the [KeyError] of that adapter, which lists the column, provided
    the adapters called before it have returned. *)
Theorem main_missing_column
    `{PandasIO, Globals, UnicodeDB, DateParser, UnidecodeTables, Argsort, Display}
    (w s p : DataFrame) (out : list pystr) (c : colname) :
  read_files = (Ok (Some w, Some s, Some p), out) →
  (c ∈ ["Author Full Names"; "Article Title"; "Publication Year"; "Times Cited, WoS Core"] →
   c ∉ columns w →
   ∃ missing, main = (Raise (KeyError missing), out) ∧ c ∈ missing) ∧
  (∀ wa, call adjust_wos w = Ok wa →
         c ∈ ["Author full names"; "Title"; "Year"; "Source"; "Cited by"] →
         c ∉ columns s →
         ∃ missing, main = (Raise (KeyError missing), out) ∧ c ∈ missing) ∧
  (∀ wa sa, call adjust_wos w = Ok wa →
            adjust_scopus s = Ok sa →
            c ∈ ["Author"; "Title"; "PubDate"; "Source"; "Cited by"] →
            c ∉ columns p →
            ∃ missing, main = (Raise (KeyError missing), out) ∧ c ∈ missing).
Proof.
  intros Hread. unfold main.
  rewrite P_bind_unfold, Hread. cbn [fst snd frame mbind result_bind].
  split; [|split].
  - intros Hc Hnot.
    unfold call. rewrite (adjust_wos_run {[0%nat := w]} 0%nat w) by apply lookup_singleton_eq.
    cbn [fst]. unfold standardize_wos.
    destruct (select_missing
                (setitem_scalar w "Database" (Str (str "Web of Science")))
                ["Author Full Names"; "Article Title"; "Publication Year";
                 "Database"; "Times Cited, WoS Core"] c) as (missing & -> & Hin).
    + repeat (apply elem_of_cons in Hc as [->|Hc]; [by repeat constructor|]).
      by apply elem_of_nil in Hc.
    + apply columns_setitem_scalar; [|done].
      repeat (apply elem_of_cons in Hc as [->|Hc]; [done|]).
      by apply elem_of_nil in Hc.
    + exists missing. cbn [mbind result_bind]. rewrite quiet_bind_Raise.
      cbn [fst snd]. by rewrite app_nil_r.
  - intros wa Hwa Hc Hnot. rewrite Hwa, quiet_bind_Ok. unfold adjust_scopus.
    destruct (select_missing s _ c Hc Hnot) as (missing & -> & Hin).
    exists missing. cbn [mbind result_bind]. rewrite quiet_bind_Raise.
    cbn [fst snd]. by rewrite app_nil_r.
  - intros wa sa Hwa Hsa Hc Hnot.
    rewrite Hwa, quiet_bind_Ok, Hsa, quiet_bind_Ok. unfold adjust_proquest.
    destruct (select_missing p _ c Hc Hnot) as (missing & -> & Hin).
    exists missing. cbn [mbind result_bind]. rewrite quiet_bind_Raise.
    cbn [fst snd]. by rewrite app_nil_r.
Qed.

Lemma main_missing_column_witness :
  (∃ missing,
     @main (files_with scopus_export scopus_export proquest_export) example_paths
       example_unicode example_dates example_tables insertion_argsort example_display
     = (Raise (KeyError missing), []) ∧ "Article Title" ∈ missing) ∧
  (∃ missing,
     @main (files_with wos_export proquest_export proquest_export) example_paths
       example_unicode example_dates example_tables insertion_argsort example_display
     = (Raise (KeyError missing), []) ∧ "Year" ∈ missing) ∧
  (∃ missing,
     @main (files_with wos_export scopus_export scopus_export) example_paths
       example_unicode example_dates example_tables insertion_argsort example_display
     = (Raise (KeyError missing), []) ∧ "PubDate" ∈ missing).
Proof.
  split; [|split].
  - apply (@main_missing_column (files_with scopus_export scopus_export proquest_export)
             example_paths example_unicode example_dates example_tables insertion_argsort
             example_display scopus_export scopus_export proquest_export [] "Article Title").
    + reflexivity.
    + by right; left.
    + not_in_header.
  - apply (@main_missing_column (files_with wos_export proquest_export proquest_export)
             example_paths example_unicode example_dates example_tables insertion_argsort
             example_display wos_export proquest_export proquest_export [] "Year")
      with (wa := wos_adjusted).
    + reflexivity.
    + vm_compute. reflexivity.
    + by do 2 right; left.
    + not_in_header.
  - apply (@main_missing_column (files_with wos_export scopus_export scopus_export)
             example_paths example_unicode example_dates example_tables insertion_argsort
             example_display wos_export scopus_export scopus_export [] "PubDate")
      with (wa := wos_adjusted) (sa := scopus_adjusted).
    + reflexivity.
    + vm_compute. reflexivity.
    + vm_compute. reflexivity.
    + by do 2 right; left.
    + not_in_header.
Defined.
